(** * collectd_network: the collectd binary protocol encoder

    A shallow embedding of [collectd_network.py] (Python 2.7): the TLV
    encoders [pack_numeric], [pack_string], [pack_value], the generic
    [pack], and the [Collectd] class with [packet] and [dispatch].

    Python values are the four kinds the encoder meets: [None], [int]/[long],
    [float] and [str].  A [str] is a byte string; a [float] is an IEEE-754
    binary64, kept as its 64-bit pattern.  A call either returns or raises:
    every function lives in the [result] monad.  [struct.pack] is modelled
    for the format strings of the module, with the checks of Python 2.7: an
    integer out of the range of its code raises [struct.error], a float
    given to an integer code is truncated, and code [d] takes a float or an
    integer, which it rounds to the nearest double.  The socket is not
    modelled: [dispatch] returns the datagram it hands to [sendto]. *)

From Stdlib Require Import ZArith List Lia Bool String Ascii.
From Stdlib Require SpecFloat.
From coqutil Require Import Byte Word.LittleEndianList.
Import ListNotations.
Local Open Scope Z_scope.

(** ** Python values and exceptions *)

Definition bytes := list byte.

Inductive pyval : Type :=
| VNone
| VInt (z : Z)
| VFloat (bits : Z)
| VStr (s : bytes).

(** Why [struct.pack] refused an argument. *)
Inductive struct_failure : Type :=
| BadFormat
| ArgCount
| ArgNotInteger
| ArgOutOfRange
| ArgNotFloat.

Inductive pyexc : Type :=
| TypeError
| ValueError
| AttributeError
| AssertionError
| RuntimeError
| StructError (why : struct_failure).

Inductive result (A : Type) : Type :=
| Ok (a : A)
| Raise (e : pyexc).
Arguments Ok {A} a.
Arguments Raise {A} e.

Definition bind {A B : Type} (m : result A) (k : A -> result B) : result B :=
  match m with
  | Ok a => k a
  | Raise e => Raise e
  end.

Notation "x <- m ;; k" := (bind m (fun x => k))
  (at level 61, m at next level, right associativity).

(** ** IEEE-754 binary64 values as bit patterns *)

Module F64.

Definition sign (b : Z) : bool := Z.testbit b 63.
Definition biased_exp (b : Z) : Z := Z.land (Z.shiftr b 52) 2047.
Definition fraction (b : Z) : Z := Z.land b (Z.ones 52).

(** [x == 0.0], true of both signed zeros. *)
Definition is_zero (b : Z) : bool :=
  (biased_exp b =? 0) && (fraction b =? 0).

Definition is_nan (b : Z) : bool :=
  (biased_exp b =? 2047) && negb (fraction b =? 0).

Definition is_inf (b : Z) : bool :=
  (biased_exp b =? 2047) && (fraction b =? 0).

(** [int(x)]: truncation toward zero of a finite float. *)
Definition trunc (b : Z) : Z :=
  let e := biased_exp b in
  let sig := fraction b + 2 ^ 52 in
  let mag :=
    if e =? 0 then 0
    else if 1075 <=? e then Z.shiftl sig (e - 1075)
    else Z.shiftr sig (1075 - e) in
  if sign b then - mag else mag.

(** The float is a whole number (no bit below the binary point). *)
Definition is_integral (b : Z) : bool :=
  let e := biased_exp b in
  if e =? 2047 then false
  else if e =? 0 then fraction b =? 0
  else if 1075 <=? e then true
  else Z.land (fraction b + 2 ^ 52) (Z.ones (1075 - e)) =? 0.

(** [float(z)] for an integer: round to nearest, ties to even;
    [None] when the result would not be finite ([OverflowError]). *)
Definition of_Z (z : Z) : option Z :=
  if z =? 0 then Some 0
  else
    let a := Z.abs z in
    let k := Z.log2 a in
    let q :=
      if k <=? 52 then Z.shiftl a (52 - k)
      else
        let sh := k - 52 in
        let t := Z.shiftr a sh in
        let r := Z.land a (Z.ones sh) in
        let half := Z.shiftl 1 (sh - 1) in
        if (half <? r) || ((r =? half) && Z.odd t) then t + 1 else t in
    let mag := (k + 1023) * 2 ^ 52 + (q - 2 ^ 52) in
    if 2047 * 2 ^ 52 <=? mag then None
    else Some (if z <? 0 then mag + 2 ^ 63 else mag).

End F64.

(** ** Built-ins *)

(** Truth value of an object, as [or] tests it. *)
Definition truthy (v : pyval) : bool :=
  match v with
  | VNone => false
  | VInt z => negb (z =? 0)
  | VFloat b => negb (F64.is_zero b)
  | VStr s => match s with [] => false | _ => true end
  end.

(** [a or b], with [b] already evaluated when it is a pure reading. *)
Definition py_or (a b : pyval) : pyval := if truthy a then a else b.

(** [len(x)]. *)
Definition py_len (v : pyval) : result Z :=
  match v with
  | VStr s => Ok (Z.of_nat (List.length s))
  | _ => Raise TypeError
  end.

(** [prefix + x] where [prefix] is a [str]. *)
Definition str_add (prefix : bytes) (v : pyval) : result bytes :=
  match v with
  | VStr s => Ok (prefix ++ s)
  | _ => Raise TypeError
  end.

(** [isinstance(x, basestring)]. *)
Definition isinstance_basestring (v : pyval) : bool :=
  match v with
  | VStr _ => true
  | _ => false
  end.

(** [x == k] for an integer constant [k]. *)
Definition eq_int (v : pyval) (k : Z) : bool :=
  match v with
  | VInt z => z =? k
  | VFloat b => F64.is_integral b && (F64.trunc b =? k)
  | _ => false
  end.

(** [x in codes] for a list of integer constants. *)
Definition py_in (v : pyval) (codes : list Z) : bool :=
  existsb (eq_int v) codes.

(** ** struct.pack *)

Inductive byteorder : Type := NetworkOrder | LittleOrder.
Inductive fmtcode : Type := fmt_B | fmt_H | fmt_q | fmt_d.

Definition fmtcode_of_ascii (c : ascii) : option fmtcode :=
  if Ascii.eqb c "B" then Some fmt_B
  else if Ascii.eqb c "H" then Some fmt_H
  else if Ascii.eqb c "q" then Some fmt_q
  else if Ascii.eqb c "d" then Some fmt_d
  else None.

Fixpoint parse_codes (s : string) : option (list fmtcode) :=
  match s with
  | EmptyString => Some []
  | String c rest =>
      match fmtcode_of_ascii c, parse_codes rest with
      | Some f, Some fs => Some (f :: fs)
      | _, _ => None
      end
  end.

Definition parse_format (s : string) : option (byteorder * list fmtcode) :=
  match s with
  | String c rest =>
      if Ascii.eqb c "!" then option_map (pair NetworkOrder) (parse_codes rest)
      else if Ascii.eqb c "<" then option_map (pair LittleOrder) (parse_codes rest)
      else None
  | EmptyString => None
  end.

(** The [n] bytes of [z] modulo [2^(8n)], in the given order. *)
Definition int_bytes (o : byteorder) (n : nat) (z : Z) : bytes :=
  match o with
  | NetworkOrder => rev (le_split n z)
  | LittleOrder => le_split n z
  end.

(** An argument given to an integer code: an integer is taken as it is, a
    float is truncated (with a DeprecationWarning), anything else is
    refused. *)
Definition get_pylong (v : pyval) : result Z :=
  match v with
  | VInt z => Ok z
  | VFloat b =>
      if F64.is_nan b then Raise ValueError
      else if F64.is_inf b then Raise (StructError ArgOutOfRange)
      else Ok (F64.trunc b)
  | _ => Raise (StructError ArgNotInteger)
  end.

(** An argument given to code [d]. *)
Definition get_double (v : pyval) : result Z :=
  match v with
  | VFloat b => Ok b
  | VInt z =>
      match F64.of_Z z with
      | Some b => Ok b
      | None => Raise (StructError ArgNotFloat)
      end
  | _ => Raise (StructError ArgNotFloat)
  end.

Definition pack_ranged (o : byteorder) (n : nat) (lo hi : Z) (v : pyval)
  : result bytes :=
  z <- get_pylong v ;;
  if (lo <=? z) && (z <=? hi) then Ok (int_bytes o n z)
  else Raise (StructError ArgOutOfRange).

Definition pack_item (o : byteorder) (f : fmtcode) (v : pyval) : result bytes :=
  match f with
  | fmt_B => pack_ranged o 1 0 255 v
  | fmt_H => pack_ranged o 2 0 65535 v
  | fmt_q => pack_ranged o 8 (- 2 ^ 63) (2 ^ 63 - 1) v
  | fmt_d => b <- get_double v ;; Ok (int_bytes o 8 b)
  end.

Fixpoint pack_items (o : byteorder) (fs : list fmtcode) (args : list pyval)
  : result bytes :=
  match fs, args with
  | [], [] => Ok []
  | f :: fs', v :: args' =>
      b <- pack_item o f v ;;
      rest <- pack_items o fs' args' ;;
      Ok (b ++ rest)
  | _, _ => Raise (StructError ArgCount)
  end.

Definition struct_pack (fmt : string) (args : list pyval) : result bytes :=
  match parse_format fmt with
  | Some (o, fs) =>
      if Nat.eqb (List.length fs) (List.length args) then pack_items o fs args
      else Raise (StructError ArgCount)
  | None => Raise (StructError BadFormat)
  end.

(** [sep.join(parts)] for the empty separator. *)
Definition join (parts : list bytes) : bytes := List.concat parts.

(** ** Module constants *)

Definition TYPE_HOST : Z := 0.
Definition TYPE_TIME : Z := 1.
Definition TYPE_PLUGIN : Z := 2.
Definition TYPE_PLUGIN_INSTANCE : Z := 3.
Definition TYPE_TYPE : Z := 4.
Definition TYPE_TYPE_INSTANCE : Z := 5.
Definition TYPE_VALUES : Z := 6.
Definition TYPE_INTERVAL : Z := 7.

Definition LONG_INT_CODES : list Z := [TYPE_TIME; TYPE_INTERVAL].
Definition STRING_CODES : list Z :=
  [TYPE_HOST; TYPE_PLUGIN; TYPE_PLUGIN_INSTANCE; TYPE_TYPE; TYPE_TYPE_INSTANCE].

Definition VALUE_COUNTER : Z := 0.
Definition VALUE_GAUGE : Z := 1.
Definition VALUE_DERIVE : Z := 2.
Definition VALUE_ABSOLUTE : Z := 3.

Definition VALUE_CODES : list (Z * string) :=
  [(VALUE_COUNTER, "!Q"); (VALUE_GAUGE, "<d");
   (VALUE_DERIVE, "!q"); (VALUE_ABSOLUTE, "!Q")]%string.

(** ** The encoders *)

Definition pack_numeric (type_code number : pyval) : result bytes :=
  struct_pack "!HHq" [type_code; VInt 12; number].

Definition pack_string (type_code string : pyval) : result bytes :=
  n <- py_len string ;;
  hdr <- struct_pack "!HH" [type_code; VInt (5 + n)] ;;
  body <- str_add hdr string ;;
  Ok (body ++ [Byte.x00]).

(** [pack_value] and [pack] call each other.  [pack_value_with] is the body
    of [pack_value] over the [pack] it calls; [pack_fuel] ties the knot with
    a bound on the depth of calls, which two levels exhaust. *)
Definition pack_value_with (pack : pyval -> pyval -> result bytes)
    (name value : pyval) : result bytes :=
  a <- pack (VInt TYPE_TYPE_INSTANCE) name ;;
  b <- struct_pack "!HHH" [VInt TYPE_VALUES; VInt 15; VInt 1] ;;
  c <- struct_pack "<Bd" [VInt VALUE_GAUGE; value] ;;
  Ok (join [a; b; c]).

Fixpoint pack_fuel (fuel : nat) (id value : pyval) : result bytes :=
  match fuel with
  | O => Raise RuntimeError
  | S fuel' =>
      if isinstance_basestring id then pack_value_with (pack_fuel fuel') id value
      else if py_in id LONG_INT_CODES then pack_numeric id value
      else if py_in id STRING_CODES then pack_string id value
      else Raise AssertionError
  end.

Definition pack : pyval -> pyval -> result bytes := pack_fuel 2.

Definition pack_value : pyval -> pyval -> result bytes := pack_value_with pack.

(** ** The Collectd class *)

(** The attributes [packet] sets. *)
Record Sample : Type := {
  plugin_type : pyval;
  type_instance : pyval;
  host : pyval;
  plugin : pyval;
  plugin_instance : pyval;
  time : pyval;
  values : list pyval
}.

(** An instance: what [__init__] sets, and the sample once [packet] ran. *)
Record Collectd : Type := {
  _collectd_addr : bytes * Z;
  interval : pyval;
  sample : option Sample
}.

Definition str (s : string) : bytes := list_byte_of_string s.

Definition arg {A : Type} (given : option A) (default : A) : A :=
  match given with
  | Some a => a
  | None => default
  end.

(** [Collectd(collectd_host, collectd_port, interval)]. *)
Definition Collectd_init (collectd_host : option bytes)
    (collectd_port : option Z) (interval : option pyval) : Collectd :=
  {| _collectd_addr := (arg collectd_host (str "localhost"),
                        arg collectd_port 25826);
     interval := arg interval (VInt 30);
     sample := None |}.

(** [self.packet(plugin_type, values, host, plugin, type_instance,
    plugin_instance, time)]; an omitted keyword argument is [None] here and
    takes the default of the signature.  [gethostname] is the host name read
    when the class was defined. *)
Definition packet (gethostname : bytes) (self : Collectd)
    (plugin_type : pyval) (values : list pyval)
    (host plugin type_instance plugin_instance time : option pyval)
  : result Collectd :=
  Ok {| _collectd_addr := _collectd_addr self;
        interval := interval self;
        sample := Some {|
          plugin_type := plugin_type;
          type_instance := arg type_instance (VStr []);
          host := arg host (VStr gethostname);
          plugin := arg plugin (VStr (str "python"));
          plugin_instance := arg plugin_instance VNone;
          time := arg time VNone;
          values := values |} |}.

(** [for val in vals: parts.append(f(val))]. *)
Fixpoint for_append (f : pyval -> result bytes) (vals : list pyval)
    (parts : list bytes) : result (list bytes) :=
  match vals with
  | [] => Ok parts
  | val :: rest =>
      b <- f val ;;
      for_append f rest (parts ++ [b])
  end.

(** The local [header] of [dispatch]; [now] is the reading of [time.time()]. *)
Definition dispatch_header (self : Collectd) (s : Sample) (now : Z)
  : result bytes :=
  f1 <- pack (VInt TYPE_HOST) (host s) ;;
  f2 <- pack (VInt TYPE_TIME) (py_or (time s) (VFloat now)) ;;
  f3 <- pack (VInt TYPE_PLUGIN) (plugin s) ;;
  f4 <- pack (VInt TYPE_PLUGIN_INSTANCE) (plugin_instance s) ;;
  f5 <- pack (VInt TYPE_TYPE) (plugin_type s) ;;
  f6 <- pack (VInt TYPE_INTERVAL) (interval self) ;;
  Ok (join [f1; f2; f3; f4; f5; f6]).

(** The local [value_parts] of [dispatch] after both loops. *)
Definition dispatch_value_parts (s : Sample) : result (list bytes) :=
  let n := Z.of_nat (List.length (values s)) in
  let length_of_value_parts := 2 + 2 + 2 + n * (1 + 8) in
  p0 <- pack (VInt TYPE_TYPE_INSTANCE) (type_instance s) ;;
  p1 <- struct_pack "!HHH"
          [VInt TYPE_VALUES; VInt length_of_value_parts; VInt n] ;;
  parts <- for_append (fun _ => struct_pack "<B" [VInt VALUE_GAUGE])
             (values s) [p0; p1] ;;
  for_append (fun val => struct_pack "<d" [val]) (values s) parts.

(** [sock.sendto(msg, addr)]: the datagram handed to the socket. *)
Definition sendto (msg : bytes) (addr : bytes * Z) : result bytes := Ok msg.

(** [self.dispatch()]: the datagram sent, or the exception raised. *)
Definition dispatch (self : Collectd) (now : Z) : result bytes :=
  match sample self with
  | None => Raise AttributeError
  | Some s =>
      header <- dispatch_header self s now ;;
      value_parts <- dispatch_value_parts s ;;
      let body := join value_parts in
      let msg := join [header; body] in
      sendto msg (_collectd_addr self)
  end.

(** ** Reading encoded fields back

    The decoders the statements below are phrased with.  They read bytes with
    [le_combine] and take nothing from the encoders above. *)

Definition be_uint (bs : bytes) : Z := le_combine (rev bs).

Definition be_sint (bs : bytes) : Z :=
  let u := be_uint bs in
  let w := 2 ^ (8 * Z.of_nat (List.length bs)) in
  if 2 * u <? w then u else u - w.

Definition be_bytes (n : nat) (z : Z) : bytes := rev (le_split n z).

Definition field_type (field : bytes) : Z := be_uint (firstn 2 field).
Definition declared_length (field : bytes) : Z := be_uint (firstn 2 (skipn 2 field)).
Definition bytes_after_length (field : bytes) : Z :=
  Z.of_nat (List.length (skipn 4 field)).

(** The text of a NUL-terminated string and what follows its terminator. *)
Fixpoint split_at_nul (bs : bytes) : option (bytes * bytes) :=
  match bs with
  | [] => None
  | b :: rest =>
      if Byte.eqb b Byte.x00 then Some ([], rest)
      else option_map (fun '(text, after) => (b :: text, after)) (split_at_nul rest)
  end.

(** Modelled from the spec: the reference reverse parser [decode_string] of
    the testable properties, which the repository does not contain.  It reads
    the type code and the length, takes the text up to the first NUL, and
    accepts the field when the NUL ends it and the length read is the size of
    the whole field. *)
Definition decode_string (field : bytes) : option (Z * bytes) :=
  match split_at_nul (skipn 4 field) with
  | Some (text, []) =>
      if (4 <=? Z.of_nat (List.length field))
         && (declared_length field =? Z.of_nat (List.length field))
      then Some (field_type field, text)
      else None
  | _ => None
  end.

(** The wire layout of a Values part: type code 6, the declared length, the
    count, one tag per value, then one 8-byte little-endian payload per
    value. *)
Definition values_layout (tags : bytes) (payloads : list Z) : bytes :=
  let n := Z.of_nat (List.length payloads) in
  be_bytes 2 TYPE_VALUES ++ be_bytes 2 (6 + 9 * n) ++ be_bytes 2 n
    ++ tags ++ flat_map (le_split 8) payloads.

(** [ds] are the doubles [struct.pack] makes of [vals], one each. *)
Definition doubles_of (vals : list pyval) (ds : list Z) : Prop :=
  Forall2 (fun v d => get_double v = Ok d) vals ds.

(** The pieces of a Values part as [dispatch] appends them. *)
Definition values_pieces (ds : list Z) : list bytes :=
  let n := Z.of_nat (List.length ds) in
  (be_bytes 2 TYPE_VALUES ++ be_bytes 2 (6 + 9 * n) ++ be_bytes 2 n)
    :: repeat [Byte.x01] (List.length ds) ++ map (le_split 8) ds.

(** The bit pattern of a finite binary64 given as a [spec_float] of the
    Standard Library (precision 53, maximal exponent 1024). *)
Definition bits_of_spec_float (f : SpecFloat.spec_float) : option Z :=
  match f with
  | SpecFloat.S754_zero sg => Some (if sg then 2 ^ 63 else 0)
  | SpecFloat.S754_finite sg m e =>
      let mag :=
        if Z.pos m <? 2 ^ 52 then Z.pos m
        else (e + 1075) * 2 ^ 52 + (Z.pos m - 2 ^ 52) in
      Some (if sg then mag + 2 ^ 63 else mag)
  | _ => None
  end.

(** [float(z)] by the library's rounding to nearest, ties to even. *)
Definition reference_of_Z (z : Z) : option Z :=
  bits_of_spec_float (SpecFloat.binary_normalize 53 1024 z 0 false).

(** Integers around every rounding case: exact, ties up and down, carries
    into the next exponent, the largest finite double and overflow. *)
Definition conversion_samples : list Z :=
  [0; 1; -1; 2; 3; 10; 30; 42; -42; 1000000000; 1700000000;
   2 ^ 52; 2 ^ 52 + 1; 2 ^ 53 - 1; 2 ^ 53; 2 ^ 53 + 1; 2 ^ 53 + 2; 2 ^ 53 + 3;
   2 ^ 54 + 1; 2 ^ 54 + 2; 2 ^ 54 + 3; 2 ^ 54 + 5; 2 ^ 54 + 6; 2 ^ 54 - 1;
   2 ^ 63 - 1; 2 ^ 63; - 2 ^ 63; 2 ^ 64 - 1; 2 ^ 64 - 1024; 2 ^ 64 - 1025;
   2 ^ 64 - 2048; 2 ^ 64 - 3071; 2 ^ 64 - 3072; 2 ^ 64 - 3073;
   10 ^ 30; 7 - 10 ^ 30; 10 ^ 300; 123456789123456789123456789;
   2 ^ 1023; 2 ^ 1024 - 2 ^ 971; 2 ^ 1024 - 2 ^ 971 + 2 ^ 969;
   2 ^ 1024 - 2 ^ 971 + 2 ^ 970 - 1; 2 ^ 1024 - 2 ^ 971 + 2 ^ 970;
   2 ^ 1024 - 2 ^ 970; 2 ^ 1024; - 2 ^ 1024; 2 ^ 1025; 10 ^ 400].

Definition option_Z_eqb (a b : option Z) : bool :=
  match a, b with
  | Some x, Some y => x =? y
  | None, None => true
  | _, _ => false
  end.

(** ** What the statements speak about *)

(** The fields the encoders emit: what [pack_numeric] and [pack_string]
    return, and the Values part [dispatch] joins from its parts (all of them
    but the first, which is the Type Instance field). *)
Inductive emitted_field : bytes -> Prop :=
| emitted_numeric (type_code number : pyval) (field : bytes) :
    pack_numeric type_code number = Ok field -> emitted_field field
| emitted_string (type_code string : pyval) (field : bytes) :
    pack_string type_code string = Ok field -> emitted_field field
| emitted_values (s : Sample) (parts : list bytes) :
    dispatch_value_parts s = Ok parts -> emitted_field (join (tl parts)).

(** The instance with the time of its sample replaced. *)
Definition set_time (self : Collectd) (t : pyval) : Collectd :=
  {| _collectd_addr := _collectd_addr self;
     interval := interval self;
     sample :=
       option_map
         (fun s =>
            {| plugin_type := plugin_type s;
               type_instance := type_instance s;
               host := host s;
               plugin := plugin s;
               plugin_instance := plugin_instance s;
               time := t;
               values := values s |})
         (sample self) |}.

(** A part whose declared length is its size. *)
Definition well_formed_part (part : bytes) : Prop :=
  4 <= Z.of_nat (List.length part)
  /\ declared_length part = Z.of_nat (List.length part).

(** The parts of a datagram as a reader finds them: it takes the length each
    part declares and cuts the part off there, until nothing is left.  Every
    part cut has at least the 4 bytes of its header, so [fuel] bounds the
    walk by the size of the datagram. *)
Fixpoint split_parts (fuel : nat) (datagram : bytes) : option (list bytes) :=
  match datagram with
  | [] => Some []
  | _ :: _ =>
      match fuel with
      | O => None
      | S fuel' =>
          let l := Z.to_nat (declared_length datagram) in
          if (4 <=? l)%nat && (l <=? List.length datagram)%nat
          then option_map (cons (firstn l datagram))
                 (split_parts fuel' (skipn l datagram))
          else None
      end
  end.

(** ** Samples used as examples *)

(** The sample of the end-to-end example of the specification. *)
Definition example_sample : Sample :=
  {| plugin_type := VStr (str "t");
     type_instance := VStr (str "ti");
     host := VStr (str "h1");
     plugin := VStr (str "p");
     plugin_instance := VStr [];
     time := VInt 1000000000;
     values := [VFloat 0x4045400000000000] |}.

Definition example_self : Collectd :=
  {| _collectd_addr := (str "localhost", 25826);
     interval := VInt 10;
     sample := Some example_sample |}.

Definition example_datagram : bytes :=
  [Byte.x00; Byte.x00; Byte.x00; Byte.x07; Byte.x68; Byte.x31; Byte.x00;
   Byte.x00; Byte.x01; Byte.x00; Byte.x0c;
   Byte.x00; Byte.x00; Byte.x00; Byte.x00; Byte.x3b; Byte.x9a; Byte.xca; Byte.x00;
   Byte.x00; Byte.x02; Byte.x00; Byte.x06; Byte.x70; Byte.x00;
   Byte.x00; Byte.x03; Byte.x00; Byte.x05; Byte.x00;
   Byte.x00; Byte.x04; Byte.x00; Byte.x06; Byte.x74; Byte.x00;
   Byte.x00; Byte.x07; Byte.x00; Byte.x0c;
   Byte.x00; Byte.x00; Byte.x00; Byte.x00; Byte.x00; Byte.x00; Byte.x00; Byte.x0a;
   Byte.x00; Byte.x05; Byte.x00; Byte.x07; Byte.x74; Byte.x69; Byte.x00;
   Byte.x00; Byte.x06; Byte.x00; Byte.x0f; Byte.x00; Byte.x01;
   Byte.x01;
   Byte.x00; Byte.x00; Byte.x00; Byte.x00; Byte.x00; Byte.x40; Byte.x45; Byte.x40].

(** A list of 7282 zeros: one value more than a Values part can declare. *)
Definition oversized_sample : Sample :=
  {| plugin_type := VStr (str "t");
     type_instance := VStr (str "ti");
     host := VStr (str "h1");
     plugin := VStr (str "p");
     plugin_instance := VStr [];
     time := VInt 1000000000;
     values := repeat (VFloat 0) (Z.to_nat 7282) |}.

(** ** Float arithmetic

    The operations on floats that the unit converters use.  A finite float
    is [significand * 2 ^ exponent]; every operation returns the double
    nearest to the exact result, ties to even, as IEEE-754 arithmetic
    does. *)

Module F64ops.

Definition nan : Z := 0x7ff8000000000000.
Definition inf : Z := 0x7ff0000000000000.

(** The magnitude of a finite float is [significand b * 2 ^ exponent b]. *)
Definition significand (b : Z) : Z :=
  if F64.biased_exp b =? 0 then F64.fraction b else F64.fraction b + 2 ^ 52.
Definition exponent (b : Z) : Z :=
  if F64.biased_exp b =? 0 then -1074 else F64.biased_exp b - 1075.

(** [2 ^ k <= p / q], for positive [p] and [q] and any sign of [k]. *)
Definition ratio_ge (p q k : Z) : bool :=
  if 0 <=? k then q * 2 ^ k <=? p else q <=? p * 2 ^ (- k).

(** The [e] with [2 ^ e <= p / q < 2 ^ (e + 1)]. *)
Definition floor_log2_ratio (p q : Z) : Z :=
  let k := Z.log2 p - Z.log2 q in
  if ratio_ge p q k then k else k - 1.

(** The bit pattern of the double nearest to [p / q], for [0 <= p] and
    [0 < q]; infinity when that is beyond the largest double. *)
Definition round_ratio (p q : Z) : Z :=
  if p =? 0 then 0
  else
    let ex := Z.max (floor_log2_ratio p q) (-1022) in
    let shift := 52 - ex in
    let num := if 0 <=? shift then p * 2 ^ shift else p in
    let den := if 0 <=? shift then q else q * 2 ^ (- shift) in
    let t := num / den in
    let r := num mod den in
    let sig := if (den <? 2 * r) || ((2 * r =? den) && Z.odd t) then t + 1 else t in
    let mag := (ex + 1022) * 2 ^ 52 + sig in
    if 2047 * 2 ^ 52 <=? mag then inf else mag.

Definition with_sign (neg : bool) (mag : Z) : Z := if neg then mag + 2 ^ 63 else mag.

(** The bit pattern of the positive normal float [m * 2 ^ e], for
    [2 ^ 52 <= m < 2 ^ 53] and [-1074 <= e <= 971]. *)
Definition encode (m e : Z) : Z := (e + 1074) * 2 ^ 52 + m.

(** The bit pattern of a positive integer below [2 ^ 53], which is a double. *)
Definition encode_int (n : Z) : Z :=
  encode (n * 2 ^ (52 - Z.log2 n)) (Z.log2 n - 52).

(** The bit pattern of a natural number below [2 ^ 53]. *)
Definition encode_nat (n : Z) : Z := if n =? 0 then 0 else encode_int n.

(** The bit pattern of [2 ^ k]. *)
Definition encode_pow2 (k : Z) : Z := encode (2 ^ 52) (k - 52).

(** The double nearest to [m * 2 ^ e]. *)
Definition round_scaled (m e : Z) : Z :=
  if 0 <=? e then round_ratio (m * 2 ^ e) 1 else round_ratio m (2 ^ (- e)).

(** [a * b]. *)
Definition mul (a b : Z) : Z :=
  if F64.is_nan a || F64.is_nan b then nan
  else if F64.is_inf a || F64.is_inf b then
    if F64.is_zero a || F64.is_zero b then nan
    else with_sign (xorb (F64.sign a) (F64.sign b)) inf
  else with_sign (xorb (F64.sign a) (F64.sign b))
         (round_scaled (significand a * significand b) (exponent a + exponent b)).

(** [a / b]; [None] is the ZeroDivisionError of a zero divisor. *)
Definition div (a b : Z) : option Z :=
  if F64.is_zero b then None
  else Some (
    if F64.is_nan a || F64.is_nan b then nan
    else if F64.is_inf a then (if F64.is_inf b then nan else with_sign (xorb (F64.sign a) (F64.sign b)) inf)
    else if F64.is_inf b then with_sign (xorb (F64.sign a) (F64.sign b)) 0
    else
      let d := exponent a - exponent b in
      with_sign (xorb (F64.sign a) (F64.sign b))
        (round_ratio (if 0 <=? d then significand a * 2 ^ d else significand a)
                     (if 0 <=? d then significand b else significand b * 2 ^ (- d)))).
End F64ops.


(** ** The unit converters: bytes2human and human2bytes

    Their exceptions are not those of the encoder, so they have an outcome
    type of their own. *)

Module Units.

Inductive exc : Type :=
| ValueError
| KeyError
| IndexError
| TypeError
| OverflowError
| ZeroDivisionError.

Inductive outcome (A : Type) : Type :=
| Return (a : A)
| Throw (e : exc).
Arguments Return {A} a.
Arguments Throw {A} e.

Definition and_then {A B : Type} (m : outcome A) (k : A -> outcome B) : outcome B :=
  match m with
  | Return a => k a
  | Throw e => Throw e
  end.

Definition or_throw {A : Type} (o : option A) (e : exc) : outcome A :=
  match o with
  | Some a => Return a
  | None => Throw e
  end.

End Units.

Notation "x <~ m ;; k" := (Units.and_then m (fun x => k))
  (at level 61, m at next level, right associativity).

Definition bytes_eqb (a b : bytes) : bool :=
  if list_eq_dec Byte.byte_eq_dec a b then true else false.

Definition isdigit (b : byte) : bool :=
  (48 <=? byte.unsigned b) && (byte.unsigned b <=? 57).

Definition isspace (b : byte) : bool :=
  let c := byte.unsigned b in
  ((9 <=? c) && (c <=? 13)) || (c =? 32).

Definition upper_byte (b : byte) : byte :=
  let c := byte.unsigned b in
  if (97 <=? c) && (c <=? 122) then byte.of_Z (c - 32) else b.

Definition upper (s : bytes) : bytes := map upper_byte s.

Fixpoint lstrip (s : bytes) : bytes :=
  match s with
  | b :: rest => if isspace b then lstrip rest else s
  | [] => []
  end.

Definition strip (s : bytes) : bytes := rev (lstrip (rev (lstrip s))).

Definition digit_value (b : byte) : Z := byte.unsigned b - 48.

Fixpoint digits_value (acc : Z) (ds : bytes) : Z :=
  match ds with
  | [] => acc
  | d :: rest => digits_value (10 * acc + digit_value d) rest
  end.

Fixpoint split_dot (s : bytes) : bytes * option bytes :=
  match s with
  | [] => ([], None)
  | b :: rest =>
      if Byte.eqb b Byte.x2e then ([], Some rest)
      else let '(before, after) := split_dot rest in (b :: before, after)
  end.

(** [float(num)] for a string of digits and dots, which is all that the
    loop of [human2bytes] collects: the double nearest to the decimal
    number, or ValueError when there is no digit or a second dot. *)
Definition float_of_digits (num : bytes) : Units.outcome Z :=
  let '(whole, after) := split_dot num in
  let frac := match after with Some f => f | None => [] end in
  if forallb isdigit whole && forallb isdigit frac
     && negb (Nat.eqb (List.length (whole ++ frac)) 0)
  then Units.Return (F64ops.round_ratio (digits_value 0 (whole ++ frac))
                       (10 ^ Z.of_nat (List.length frac)))
  else Units.Throw Units.ValueError.

(** [float(z)] for an integer. *)
Definition float_of_int (z : Z) : Units.outcome Z :=
  Units.or_throw (F64.of_Z z) Units.OverflowError.

(** [int(x)] for a float. *)
Definition int_of_float (b : Z) : Units.outcome Z :=
  if F64.is_nan b then Units.Throw Units.ValueError
  else if F64.is_inf b then Units.Throw Units.OverflowError
  else Units.Return (F64.trunc b).

(** The numbers [bytes2human] is given: an integer or a float. *)
Inductive number : Type :=
| NInt (z : Z)
| NFloat (bits : Z).

Definition int_of_number (n : number) : Units.outcome Z :=
  match n with
  | NInt z => Units.Return z
  | NFloat b => int_of_float b
  end.

Definition SYMBOLS : list (bytes * list bytes) :=
  [(str "customary",
    map str ["B"; "K"; "M"; "G"; "T"; "P"; "E"; "Z"; "Y"]%string);
   (str "customary_ext",
    map str ["byte"; "kilo"; "mega"; "giga"; "tera"; "peta"; "exa";
             "zetta"; "iotta"]%string);
   (str "iec",
    map str ["Bi"; "Ki"; "Mi"; "Gi"; "Ti"; "Pi"; "Ei"; "Zi"; "Yi"]%string);
   (str "iec_ext",
    map str ["byte"; "kibi"; "mebi"; "gibi"; "tebi"; "pebi"; "exbi";
             "zebi"; "yobi"]%string)].

(** A dict with string keys, in insertion order. *)
Fixpoint dict_get {V : Type} (d : list (bytes * V)) (key : bytes) : option V :=
  match d with
  | [] => None
  | (k, v) :: rest => if bytes_eqb k key then Some v else dict_get rest key
  end.

Fixpoint dict_set {V : Type} (d : list (bytes * V)) (key : bytes) (v : V)
  : list (bytes * V) :=
  match d with
  | [] => [(key, v)]
  | (k, w) :: rest =>
      if bytes_eqb k key then (k, v) :: rest else (k, w) :: dict_set rest key v
  end.

(** [for i, s in enumerate(syms): prefix[s] = 1 << (i+1)*10], from index
    [i] on. *)
Fixpoint fill_prefix (i : Z) (syms : list bytes) (prefix : list (bytes * Z))
  : list (bytes * Z) :=
  match syms with
  | [] => prefix
  | s :: rest => fill_prefix (i + 1) rest (dict_set prefix s (Z.shiftl 1 ((i + 1) * 10)))
  end.

(** The [while] loop of [human2bytes]: the leading digits and dots, and the
    rest of the string. *)
Fixpoint take_number (s : bytes) : bytes * bytes :=
  match s with
  | b :: rest =>
      if isdigit b || Byte.eqb b Byte.x2e
      then let '(num, s') := take_number rest in (b :: num, s')
      else ([], s)
  | [] => ([], [])
  end.

(** The first symbol set of [items] that holds [letter], if any. *)
Definition find_sset (items : list (bytes * list bytes)) (letter : bytes)
  : option (list bytes) :=
  option_map snd (find (fun item => existsb (bytes_eqb letter) (snd item)) items).

(** The [for ... else] of [human2bytes]: the symbol set and the letter to
    look up in it.  An unknown letter is an error, but for [k], which
    stands for [K] of the customary set. *)
Definition choose_unit (items : list (bytes * list bytes)) (letter : bytes)
  : Units.outcome (list bytes * bytes) :=
  match find_sset items letter with
  | Some sset => Units.Return (sset, letter)
  | None =>
      if bytes_eqb letter (str "k")
      then sset <~ Units.or_throw (dict_get SYMBOLS (str "customary"))
                     Units.KeyError ;;
           Units.Return (sset, upper letter)
      else Units.Throw Units.ValueError
  end.

(** [prefix[letter]] for the [prefix] dict built from [sset]. *)
Definition unit_factor (chosen : list bytes * bytes) : Units.outcome Z :=
  let '(sset, letter) := chosen in
  first <~ Units.or_throw (hd_error sset) Units.IndexError ;;
  let prefix := fill_prefix 0 (tl sset) [(first, 1)] in
  Units.or_throw (dict_get prefix letter) Units.KeyError.

(** [human2bytes(s)].  [items] is [SYMBOLS.items()], whose order the
    language leaves to the dict. *)
Definition human2bytes (items : list (bytes * list bytes)) (s : pyval)
  : Units.outcome Z :=
  match s with
  | VStr s0 =>
      let '(num, s1) := take_number s0 in
      num <~ float_of_digits num ;;
      let letter := strip s1 in
      chosen <~ choose_unit items letter ;;
      p <~ unit_factor chosen ;;
      fp <~ float_of_int p ;;
      int_of_float (F64ops.mul num fp)
  | _ => Units.Throw Units.TypeError
  end.

(** The [for] loop of [bytes2human] over the symbols left to try. *)
Fixpoint pick_symbol (format : pyval -> bytes -> Units.outcome bytes)
    (n : Z) (prefix : list (bytes * Z)) (syms : list bytes)
    (otherwise : Units.outcome bytes) : Units.outcome bytes :=
  match syms with
  | [] => otherwise
  | symbol :: rest =>
      p <~ Units.or_throw (dict_get prefix symbol) Units.KeyError ;;
      if p <=? n
      then fn <~ float_of_int n ;;
           fp <~ float_of_int p ;;
           value <~ Units.or_throw (F64ops.div fn fp) Units.ZeroDivisionError ;;
           format (VFloat value) symbol
      else pick_symbol format n prefix rest otherwise
  end.

(** [bytes2human(n, format, symbols)].  [format value symbol] is the string
    [format % ...] makes of a format that names [value] and [symbol]. *)
Definition bytes2human (format : pyval -> bytes -> Units.outcome bytes)
    (n : number) (symbols : bytes) : Units.outcome bytes :=
  n <~ int_of_number n ;;
  if n <? 0 then Units.Throw Units.ValueError
  else
    symbols <~ Units.or_throw (dict_get SYMBOLS symbols) Units.KeyError ;;
    let prefix := fill_prefix 0 (tl symbols) [] in
    pick_symbol format n prefix (rev (tl symbols))
      (first <~ Units.or_throw (hd_error symbols) Units.IndexError ;;
       format (VInt n) first).

(** The decimal digits of [z], most significant first, before [acc]. *)
Fixpoint decimal_digits (fuel : nat) (z : Z) (acc : bytes) : bytes :=
  match fuel with
  | O => acc
  | S fuel' =>
      let acc' := byte.of_Z (48 + z mod 10) :: acc in
      if z <? 10 then acc' else decimal_digits fuel' (z / 10) acc'
  end.

Definition decimal (z : Z) : bytes :=
  decimal_digits (S (Z.to_nat (Z.log2 z))) z [].

(** The integer nearest to [p / q], ties to even. *)
Definition round_half_even (p q : Z) : Z :=
  let t := p / q in
  let r := p mod q in
  if (q <? 2 * r) || ((2 * r =? q) && Z.odd t) then t + 1 else t.

(** What [%.<prec>f] makes of a float: the decimal number with [prec]
    digits after the point nearest to its exact value. *)
Definition fixed (prec : nat) (b : Z) : bytes :=
  if F64.is_nan b then str "nan"
  else
    let sign := if F64.sign b then str "-" else [] in
    if F64.is_inf b then sign ++ str "inf"
    else
      let m := F64ops.significand b in
      let e := F64ops.exponent b in
      let scale := 10 ^ Z.of_nat prec in
      let r := if 0 <=? e then m * 2 ^ e * scale
               else round_half_even (m * scale) (2 ^ (- e)) in
      let whole := decimal (r / scale) in
      let frac := decimal (r mod scale) in
      let pad := repeat Byte.x30 (prec - List.length frac) in
      sign ++ whole ++ (match prec with O => [] | _ => Byte.x2e :: pad ++ frac end).

(** The formats [%(value).<precision>f %(symbol)s<suffix>]. *)
Record format_spec : Type := {
  precision : nat;
  suffix : bytes
}.

Definition apply_format (f : format_spec) (value : pyval) (symbol : bytes)
  : Units.outcome bytes :=
  x <~ match value with
       | VFloat b => Units.Return b
       | VInt z => float_of_int z
       | _ => Units.Throw Units.TypeError
       end ;;
  Units.Return (fixed (precision f) x ++ str " " ++ symbol ++ suffix f).

Definition default_format : format_spec := {| precision := 1; suffix := [] |}.

(** ** Runs of calls on one instance *)

(** The arguments of one call of [packet]. *)
Record packet_call : Type := {
  call_plugin_type : pyval;
  call_values : list pyval;
  call_host : option pyval;
  call_plugin : option pyval;
  call_type_instance : option pyval;
  call_plugin_instance : option pyval;
  call_time : option pyval
}.

Definition call_packet (gethostname : bytes) (self : Collectd) (c : packet_call)
  : result Collectd :=
  packet gethostname self (call_plugin_type c) (call_values c) (call_host c)
    (call_plugin c) (call_type_instance c) (call_plugin_instance c)
    (call_time c).

(** The calls of [packet] of a list, one after the other, on one instance. *)
Fixpoint run_packets (gethostname : bytes) (self : Collectd)
    (calls : list packet_call) : result Collectd :=
  match calls with
  | [] => Ok self
  | c :: rest =>
      self' <- call_packet gethostname self c ;;
      run_packets gethostname self' rest
  end.

(** ** Words and symbol sets of the unit converters *)

(** A byte the loop of [human2bytes] takes into the number. *)
Definition is_numeric_byte (b : byte) : bool := isdigit b || Byte.eqb b Byte.x2e.

(** The rest of a string at which that loop stops at once. *)
Definition starts_clean (rest : bytes) : bool :=
  match rest with
  | [] => true
  | b :: _ => negb (is_numeric_byte b)
  end.

(** A word with no space at either end. *)
Definition trimmed (word : bytes) : bool :=
  match word, rev word with
  | first :: _, last :: _ => negb (isspace first) && negb (isspace last)
  | _, _ => false
  end.

(** The four symbol sets. *)
Definition symbol_sets : list (list bytes) := map snd SYMBOLS.

(** The factor [human2bytes] finds for a letter, with the sets in the order
    of the source. *)
Definition factor_of_letter (items : list (bytes * list bytes)) (letter : bytes)
  : Units.outcome Z :=
  chosen <~ choose_unit items letter ;; unit_factor chosen.

(** ** The float conversions on examples *)

(** The conversion of integers agrees with the rounding of the Standard
    Library on every sample. *)
Example of_Z_agrees_with_library :
  forallb (fun z => option_Z_eqb (F64.of_Z z) (reference_of_Z z))
    conversion_samples = true.
Proof. vm_compute. reflexivity. Qed.

Example of_Z_examples :
  F64.of_Z 42 = Some 0x4045000000000000
  /\ F64.of_Z 1000000000 = Some 0x41cdcd6500000000
  /\ F64.of_Z (2 ^ 53 + 1) = Some 0x4340000000000000
  /\ F64.of_Z (2 ^ 1024) = None.
Proof. repeat split; reflexivity. Qed.

Example trunc_examples :
  F64.trunc 0x4045400000000000 = 42
  /\ F64.trunc 0xc045400000000000 = -42
  /\ F64.trunc 0x3fe0000000000000 = 0
  /\ F64.trunc 0x41d954fc40000000 = 1700000000
  /\ F64.is_integral 0x4045400000000000 = false
  /\ F64.is_integral 0x3ff0000000000000 = true.
Proof. repeat split; reflexivity. Qed.

Example truthy_examples :
  truthy VNone = false
  /\ truthy (VInt 0) = false
  /\ truthy (VFloat 0) = false
  /\ truthy (VFloat (2 ^ 63)) = false
  /\ truthy (VInt 1000000000) = true
  /\ truthy (VFloat 0x41d954fc40000000) = true.
Proof. repeat split; reflexivity. Qed.

(** ** Basic facts *)

Lemma bind_Ok {A B : Type} (m : result A) (k : A -> result B) (b : B) :
  bind m k = Ok b <-> exists a, m = Ok a /\ k a = Ok b.
Proof.
  destruct m as [a | e]; cbn; split.
  - intros H. exists a. auto.
  - intros [a' [Ha Hk]]. inversion Ha. subst. exact Hk.
  - discriminate.
  - intros [a' [Ha _]]. discriminate.
Qed.

(** From [H : bind m k = Ok b], the value [a] of [m] and what is left of [H]. *)
Ltac bind_inv H a Ha :=
  apply bind_Ok in H; destruct H as [a [Ha H]].

Lemma length_int_bytes (o : byteorder) (n : nat) (z : Z) :
  List.length (int_bytes o n z) = n.
Proof.
  destruct o; cbn; rewrite ?length_rev; apply length_le_split.
Qed.

Lemma length_be_bytes (n : nat) (z : Z) : List.length (be_bytes n z) = n.
Proof. unfold be_bytes. rewrite length_rev. apply length_le_split. Qed.

Lemma be_uint_be_bytes (n : nat) (z : Z) :
  0 <= z < 2 ^ (8 * Z.of_nat n) -> be_uint (be_bytes n z) = z.
Proof.
  intros Hz. unfold be_uint, be_bytes.
  rewrite rev_involutive, le_combine_split.
  apply Z.mod_small. replace (Z.of_nat n * 8) with (8 * Z.of_nat n) by lia.
  exact Hz.
Qed.

Lemma be_sint_be_bytes (n : nat) (z : Z) :
  (0 < n)%nat ->
  - 2 ^ (8 * Z.of_nat n - 1) <= z < 2 ^ (8 * Z.of_nat n - 1) ->
  be_sint (be_bytes n z) = z.
Proof.
  intros Hn Hz. unfold be_sint. rewrite length_be_bytes.
  unfold be_uint, be_bytes. rewrite rev_involutive, le_combine_split.
  replace (Z.of_nat n * 8) with (8 * Z.of_nat n) by lia.
  set (w := 2 ^ (8 * Z.of_nat n)).
  assert (Hw : w = 2 * 2 ^ (8 * Z.of_nat n - 1)).
  { unfold w. rewrite <- Z.pow_succ_r by lia. f_equal. lia. }
  destruct (Z.ltb_spec (2 * (z mod w)) w) as [Hlt | Hge].
  - destruct (Z.neg_nonneg_cases z) as [Hneg | Hpos].
    + rewrite <- (Z.mod_add z 1 w) in Hlt by lia.
      rewrite Z.mod_small in Hlt by lia. lia.
    + apply Z.mod_small. lia.
  - destruct (Z.neg_nonneg_cases z) as [Hneg | Hpos].
    + rewrite <- (Z.mod_add z 1 w) by lia.
      rewrite Z.mod_small by lia. lia.
    + rewrite Z.mod_small in Hge by lia. lia.
Qed.

Lemma firstn_app_len {A : Type} (n : nat) (a b : list A) :
  List.length a = n -> firstn n (a ++ b) = a.
Proof.
  intros <-. rewrite firstn_app, Nat.sub_diag, firstn_all. cbn.
  apply app_nil_r.
Qed.

Lemma skipn_app_len {A : Type} (n : nat) (a b : list A) :
  List.length a = n -> skipn n (a ++ b) = b.
Proof.
  intros <-. rewrite skipn_app, Nat.sub_diag, skipn_all. reflexivity.
Qed.

(** A field that starts with two 2-byte big-endian numbers. *)
Lemma field_header (t l : Z) (rest : bytes) :
  0 <= t <= 65535 -> 0 <= l <= 65535 ->
  let field := be_bytes 2 t ++ be_bytes 2 l ++ rest in
  field_type field = t
  /\ declared_length field = l
  /\ skipn 4 field = rest
  /\ Z.of_nat (List.length field) = 4 + Z.of_nat (List.length rest).
Proof.
  intros Ht Hl field. unfold field, field_type, declared_length.
  rewrite (firstn_app_len 2) by apply length_be_bytes.
  rewrite (skipn_app_len 2) by apply length_be_bytes.
  rewrite (firstn_app_len 2) by apply length_be_bytes.
  rewrite !be_uint_be_bytes by (cbn; lia).
  split; [reflexivity | split; [reflexivity | split]].
  - rewrite app_assoc. apply skipn_app_len.
    rewrite length_app, !length_be_bytes. reflexivity.
  - rewrite !length_app, !length_be_bytes. lia.
Qed.

(** ** What struct.pack returns for the formats of the module *)

Arguments pack_ranged : simpl never.
Arguments int_bytes : simpl never.

Lemma pack_ranged_Ok (o : byteorder) (n : nat) (lo hi : Z) (v : pyval) (bs : bytes) :
  pack_ranged o n lo hi v = Ok bs <->
  exists z, get_pylong v = Ok z /\ lo <= z <= hi /\ bs = int_bytes o n z.
Proof.
  unfold pack_ranged. rewrite bind_Ok. split.
  - intros [z [Hv H]]. exists z. split; [exact Hv |].
    destruct (Z.leb_spec lo z), (Z.leb_spec z hi); cbn in H;
      try discriminate. inversion H. split; [lia | reflexivity].
  - intros [z [Hv [Hr ->]]]. exists z. split; [exact Hv |].
    destruct (Z.leb_spec lo z), (Z.leb_spec z hi); cbn; try lia. reflexivity.
Qed.

Lemma pack_ranged_int (o : byteorder) (n : nat) (lo hi z : Z) :
  lo <= z <= hi -> pack_ranged o n lo hi (VInt z) = Ok (int_bytes o n z).
Proof.
  intros Hr. apply pack_ranged_Ok. exists z. auto.
Qed.

Lemma pack_ranged_int_out (o : byteorder) (n : nat) (lo hi z : Z) :
  ~ lo <= z <= hi ->
  pack_ranged o n lo hi (VInt z) = Raise (StructError ArgOutOfRange).
Proof.
  intros Hr. unfold pack_ranged. cbn.
  destruct (Z.leb_spec lo z), (Z.leb_spec z hi); cbn; try reflexivity. lia.
Qed.

Lemma int_bytes_network (n : nat) (z : Z) :
  int_bytes NetworkOrder n z = be_bytes n z.
Proof. reflexivity. Qed.

Lemma int_bytes_little (n : nat) (z : Z) :
  int_bytes LittleOrder n z = le_split n z.
Proof. reflexivity. Qed.

Lemma Ok_inj {A : Type} (a b : A) : Ok a = Ok b -> a = b.
Proof. intros H. injection H. auto. Qed.

(** Unfolding [struct.pack] for each format string of the module. *)
Lemma struct_pack_HH_eq (a b : pyval) :
  struct_pack "!HH" [a; b] =
  (x <- pack_ranged NetworkOrder 2 0 65535 a ;;
   y <- pack_ranged NetworkOrder 2 0 65535 b ;;
   Ok (x ++ y)).
Proof.
  unfold struct_pack. cbn.
  destruct (pack_ranged NetworkOrder 2 0 65535 a); cbn; [| reflexivity].
  destruct (pack_ranged NetworkOrder 2 0 65535 b); cbn; [| reflexivity].
  rewrite app_nil_r. reflexivity.
Qed.

Lemma struct_pack_HHH_eq (a b c : pyval) :
  struct_pack "!HHH" [a; b; c] =
  (x <- pack_ranged NetworkOrder 2 0 65535 a ;;
   y <- pack_ranged NetworkOrder 2 0 65535 b ;;
   z <- pack_ranged NetworkOrder 2 0 65535 c ;;
   Ok (x ++ y ++ z)).
Proof.
  unfold struct_pack. cbn.
  destruct (pack_ranged NetworkOrder 2 0 65535 a); cbn; [| reflexivity].
  destruct (pack_ranged NetworkOrder 2 0 65535 b); cbn; [| reflexivity].
  destruct (pack_ranged NetworkOrder 2 0 65535 c); cbn; [| reflexivity].
  rewrite app_nil_r. reflexivity.
Qed.

Lemma struct_pack_HHq_eq (a b c : pyval) :
  struct_pack "!HHq" [a; b; c] =
  (x <- pack_ranged NetworkOrder 2 0 65535 a ;;
   y <- pack_ranged NetworkOrder 2 0 65535 b ;;
   z <- pack_ranged NetworkOrder 8 (- 2 ^ 63) (2 ^ 63 - 1) c ;;
   Ok (x ++ y ++ z)).
Proof.
  unfold struct_pack. cbn -[Z.pow].
  destruct (pack_ranged NetworkOrder 2 0 65535 a); cbn -[Z.pow]; [| reflexivity].
  destruct (pack_ranged NetworkOrder 2 0 65535 b); cbn -[Z.pow]; [| reflexivity].
  destruct (pack_ranged NetworkOrder 8 (- 2 ^ 63) (2 ^ 63 - 1) c);
    cbn; [| reflexivity].
  rewrite app_nil_r. reflexivity.
Qed.

Lemma struct_pack_Bd_eq (a b : pyval) :
  struct_pack "<Bd" [a; b] =
  (x <- pack_ranged LittleOrder 1 0 255 a ;;
   d <- get_double b ;;
   Ok (x ++ le_split 8 d)).
Proof.
  unfold struct_pack. cbn.
  destruct (pack_ranged LittleOrder 1 0 255 a); cbn; [| reflexivity].
  destruct (get_double b); cbn; [| reflexivity].
  rewrite app_nil_r. reflexivity.
Qed.

Lemma struct_pack_B_eq (a : pyval) :
  struct_pack "<B" [a] = pack_ranged LittleOrder 1 0 255 a.
Proof.
  unfold struct_pack. cbn.
  destruct (pack_ranged LittleOrder 1 0 255 a); cbn; [| reflexivity].
  rewrite app_nil_r. reflexivity.
Qed.

Lemma struct_pack_d_eq (a : pyval) :
  struct_pack "<d" [a] = (d <- get_double a ;; Ok (le_split 8 d)).
Proof.
  unfold struct_pack. cbn.
  destruct (get_double a); cbn; [| reflexivity].
  rewrite app_nil_r. reflexivity.
Qed.

Lemma pack_gauge_tag : pack_ranged LittleOrder 1 0 255 (VInt VALUE_GAUGE) = Ok [Byte.x01].
Proof. reflexivity. Qed.

Lemma struct_pack_HH (a : pyval) (l : Z) (bs : bytes) :
  struct_pack "!HH" [a; VInt l] = Ok bs <->
  exists t, get_pylong a = Ok t /\ 0 <= t <= 65535 /\ 0 <= l <= 65535
            /\ bs = be_bytes 2 t ++ be_bytes 2 l.
Proof.
  rewrite struct_pack_HH_eq, bind_Ok. split.
  - intros [x [Hx H]]. apply pack_ranged_Ok in Hx. destruct Hx as [t [Ht [Hr Hx]]].
    bind_inv H y Hy.
    apply pack_ranged_Ok in Hy. destruct Hy as [l' [Hl [Hlr Hy]]].
    apply Ok_inj in Hl, H. subst. exists t. auto.
  - intros [t [Ht [Hr [Hl ->]]]]. exists (be_bytes 2 t). split.
    + apply pack_ranged_Ok. exists t. auto.
    + rewrite (pack_ranged_int NetworkOrder 2 0 65535 l Hl). reflexivity.
Qed.

Lemma struct_pack_HHH (a : pyval) (l n : Z) (bs : bytes) :
  struct_pack "!HHH" [a; VInt l; VInt n] = Ok bs <->
  exists t, get_pylong a = Ok t /\ 0 <= t <= 65535 /\ 0 <= l <= 65535
            /\ 0 <= n <= 65535
            /\ bs = be_bytes 2 t ++ be_bytes 2 l ++ be_bytes 2 n.
Proof.
  rewrite struct_pack_HHH_eq, bind_Ok. split.
  - intros [x [Hx H]]. apply pack_ranged_Ok in Hx. destruct Hx as [t [Ht [Hr Hx]]].
    bind_inv H y Hy.
    apply pack_ranged_Ok in Hy. destruct Hy as [l' [Hl [Hlr Hy]]].
    bind_inv H w Hw.
    apply pack_ranged_Ok in Hw. destruct Hw as [n' [Hn [Hnr Hw]]].
    apply Ok_inj in Hl, Hn, H. subst. exists t. auto.
  - intros [t [Ht [Hr [Hl [Hn ->]]]]]. exists (be_bytes 2 t). split.
    + apply pack_ranged_Ok. exists t. auto.
    + rewrite (pack_ranged_int NetworkOrder 2 0 65535 l Hl).
      rewrite (pack_ranged_int NetworkOrder 2 0 65535 n Hn). reflexivity.
Qed.

Lemma struct_pack_HHq (a number : pyval) (bs : bytes) :
  struct_pack "!HHq" [a; VInt 12; number] = Ok bs <->
  exists t v, get_pylong a = Ok t /\ 0 <= t <= 65535
              /\ get_pylong number = Ok v /\ - 2 ^ 63 <= v <= 2 ^ 63 - 1
              /\ bs = be_bytes 2 t ++ be_bytes 2 12 ++ be_bytes 8 v.
Proof.
  rewrite struct_pack_HHq_eq, bind_Ok. split.
  - intros [x [Hx H]]. apply pack_ranged_Ok in Hx. destruct Hx as [t [Ht [Hr Hx]]].
    bind_inv H y Hy.
    apply pack_ranged_Ok in Hy. destruct Hy as [l' [Hl [Hlr Hy]]].
    bind_inv H w Hw.
    apply pack_ranged_Ok in Hw. destruct Hw as [v [Hv [Hvr Hw]]].
    apply Ok_inj in Hl, H. subst. exists t, v. auto.
  - intros [t [v [Ht [Hr [Hv [Hvr ->]]]]]]. exists (be_bytes 2 t). split.
    + apply pack_ranged_Ok. exists t. auto.
    + rewrite (pack_ranged_int NetworkOrder 2 0 65535 12) by lia.
      assert (Hq : pack_ranged NetworkOrder 8 (- 2 ^ 63) (2 ^ 63 - 1) number
                   = Ok (be_bytes 8 v)).
      { apply pack_ranged_Ok. exists v. auto. }
      cbn [bind]. rewrite Hq. reflexivity.
Qed.

(** ** The encoders, field by field *)

(** [pack] satisfies the equation the source defines it by. *)
Lemma pack_unfold (id value : pyval) :
  pack id value =
  if isinstance_basestring id then pack_value id value
  else if py_in id LONG_INT_CODES then pack_numeric id value
  else if py_in id STRING_CODES then pack_string id value
  else Raise AssertionError.
Proof. destruct id; reflexivity. Qed.

(** Two levels of calls are all [pack] ever makes. *)
Lemma pack_fuel_enough (n : nat) (id value : pyval) :
  pack_fuel (S (S n)) id value = pack id value.
Proof. destruct id; reflexivity. Qed.

Lemma pack_string_code (T : Z) (value : pyval) :
  In T STRING_CODES -> pack (VInt T) value = pack_string (VInt T) value.
Proof.
  intros HT. cbn in HT.
  repeat (destruct HT as [<- | HT]; [reflexivity |]). contradiction.
Qed.

Lemma pack_numeric_code (T : Z) (value : pyval) :
  In T LONG_INT_CODES -> pack (VInt T) value = pack_numeric (VInt T) value.
Proof.
  intros HT. cbn in HT.
  repeat (destruct HT as [<- | HT]; [reflexivity |]). contradiction.
Qed.

Lemma string_code_range (T : Z) : In T STRING_CODES -> 0 <= T <= 65535.
Proof.
  intros HT. cbn in HT.
  repeat (destruct HT as [<- | HT]; [cbv; split; discriminate |]). contradiction.
Qed.

Lemma numeric_code_range (T : Z) : In T LONG_INT_CODES -> 0 <= T <= 65535.
Proof.
  intros HT. cbn in HT.
  repeat (destruct HT as [<- | HT]; [cbv; split; discriminate |]). contradiction.
Qed.

Lemma pack_numeric_Ok (type_code number : pyval) (field : bytes) :
  pack_numeric type_code number = Ok field <->
  exists t v, get_pylong type_code = Ok t /\ 0 <= t <= 65535
              /\ get_pylong number = Ok v /\ - 2 ^ 63 <= v <= 2 ^ 63 - 1
              /\ field = be_bytes 2 t ++ be_bytes 2 12 ++ be_bytes 8 v.
Proof. unfold pack_numeric. apply struct_pack_HHq. Qed.

Lemma pack_string_Ok (type_code string : pyval) (field : bytes) :
  pack_string type_code string = Ok field <->
  exists t s, get_pylong type_code = Ok t /\ 0 <= t <= 65535
              /\ string = VStr s
              /\ 5 + Z.of_nat (List.length s) <= 65535
              /\ field = be_bytes 2 t
                           ++ be_bytes 2 (5 + Z.of_nat (List.length s))
                           ++ s ++ [Byte.x00].
Proof.
  unfold pack_string. split.
  - intros H. bind_inv H n Hn.
    destruct string as [| | | s]; try discriminate.
    apply Ok_inj in Hn. subst n.
    bind_inv H hdr Hhdr.
    apply struct_pack_HH in Hhdr. destruct Hhdr as [t [Ht [Hr [Hl ->]]]].
    cbn in H. apply Ok_inj in H. subst field.
    exists t, s. repeat (split; [assumption || reflexivity || lia |]).
    rewrite <- !app_assoc. reflexivity.
  - intros [t [s [Ht [Hr [-> [Hl ->]]]]]]. cbn [py_len bind].
    assert (Hhdr : struct_pack "!HH"
                     [type_code; VInt (5 + Z.of_nat (List.length s))]
                   = Ok (be_bytes 2 t
                           ++ be_bytes 2 (5 + Z.of_nat (List.length s)))).
    { apply struct_pack_HH. exists t. repeat split; try assumption; lia. }
    rewrite Hhdr. cbn. rewrite <- !app_assoc. reflexivity.
Qed.

(** ** The loops of dispatch *)

Lemma for_append_tags (vals : list pyval) (parts : list bytes) :
  for_append (fun _ => struct_pack "<B" [VInt VALUE_GAUGE]) vals parts
  = Ok (parts ++ repeat [Byte.x01] (List.length vals)).
Proof.
  revert parts. induction vals as [| v vals IH]; intros parts.
  - cbn. rewrite app_nil_r. reflexivity.
  - cbn [for_append]. rewrite struct_pack_B_eq, pack_gauge_tag. cbn [bind].
    rewrite IH, <- app_assoc. reflexivity.
Qed.

Lemma for_append_doubles (vals : list pyval) (parts out : list bytes) :
  for_append (fun val => struct_pack "<d" [val]) vals parts = Ok out <->
  exists ds, doubles_of vals ds /\ out = parts ++ map (le_split 8) ds.
Proof.
  revert parts. induction vals as [| v vals IH]; intros parts; cbn [for_append].
  - split.
    + intros H. apply Ok_inj in H. subst out. exists []. split.
      * constructor.
      * cbn. rewrite app_nil_r. reflexivity.
    + intros [ds [Hds ->]]. inversion Hds. subst. cbn.
      rewrite app_nil_r. reflexivity.
  - rewrite struct_pack_d_eq. split.
    + intros H. bind_inv H b Hb.
      bind_inv Hb d Hd.
      apply Ok_inj in Hb. subst b.
      apply IH in H. destruct H as [ds [Hds ->]].
      exists (d :: ds). split.
      * constructor; assumption.
      * cbn. rewrite <- app_assoc. reflexivity.
    + intros [ds [Hds ->]]. inversion Hds as [| v' d vals' ds' Hd Hrest]. subst.
      rewrite Hd. cbn [bind]. apply IH. exists ds'. split; [assumption |].
      cbn. rewrite <- app_assoc. reflexivity.
Qed.

Lemma doubles_of_length (vals : list pyval) (ds : list Z) :
  doubles_of vals ds -> List.length ds = List.length vals.
Proof. intros H. symmetry. exact (Forall2_length H). Qed.

Lemma join_tags (n : nat) : join (repeat [Byte.x01] n) = repeat Byte.x01 n.
Proof. induction n as [| n IH]; cbn; [| unfold join in IH; rewrite IH]; reflexivity. Qed.

Lemma join_app (a b : list bytes) : join (a ++ b) = join a ++ join b.
Proof. apply concat_app. Qed.

Lemma join_map {A : Type} (f : A -> bytes) (l : list A) :
  join (map f l) = flat_map f l.
Proof. symmetry. apply flat_map_concat_map. Qed.

Lemma join_values_pieces (ds : list Z) :
  join (values_pieces ds) = values_layout (repeat Byte.x01 (List.length ds)) ds.
Proof.
  unfold values_pieces, values_layout.
  set (n := Z.of_nat (List.length ds)).
  change (join ((be_bytes 2 TYPE_VALUES ++ be_bytes 2 (6 + 9 * n) ++ be_bytes 2 n)
                  :: repeat [Byte.x01] (List.length ds) ++ map (le_split 8) ds))
    with ((be_bytes 2 TYPE_VALUES ++ be_bytes 2 (6 + 9 * n) ++ be_bytes 2 n)
            ++ join (repeat [Byte.x01] (List.length ds) ++ map (le_split 8) ds)).
  rewrite join_app, join_tags, join_map, <- !app_assoc. reflexivity.
Qed.

(** The parts [dispatch] collects: the Type Instance field first, then the
    pieces of the Values part. *)
Lemma dispatch_value_parts_Ok (s : Sample) (parts : list bytes) :
  dispatch_value_parts s = Ok parts <->
  exists ti ds,
    pack (VInt TYPE_TYPE_INSTANCE) (type_instance s) = Ok ti
    /\ 6 + 9 * Z.of_nat (List.length (values s)) <= 65535
    /\ doubles_of (values s) ds
    /\ parts = ti :: values_pieces ds.
Proof.
  unfold dispatch_value_parts.
  set (n := Z.of_nat (List.length (values s))).
  replace (2 + 2 + 2 + n * (1 + 8)) with (6 + 9 * n) by lia.
  split.
  - intros H. bind_inv H ti Hti.
    bind_inv H p1 Hp1.
    apply struct_pack_HHH in Hp1. destruct Hp1 as [t [Ht [_ [Hl [Hn ->]]]]].
    apply Ok_inj in Ht. subst t.
    rewrite for_append_tags in H. cbn [bind] in H.
    apply for_append_doubles in H. destruct H as [ds [Hds ->]].
    exists ti, ds. repeat (split; [assumption || reflexivity || lia |]).
    unfold values_pieces. rewrite (doubles_of_length _ _ Hds). reflexivity.
  - intros [ti [ds [Hti [Hl [Hds ->]]]]].
    rewrite Hti. cbn [bind].
    assert (Hp1 : struct_pack "!HHH" [VInt TYPE_VALUES; VInt (6 + 9 * n); VInt n]
                  = Ok (be_bytes 2 TYPE_VALUES ++ be_bytes 2 (6 + 9 * n)
                          ++ be_bytes 2 n)).
    { apply struct_pack_HHH. exists TYPE_VALUES. unfold n in *.
      repeat split; try reflexivity; try lia; cbv; discriminate. }
    rewrite Hp1. cbn [bind]. rewrite for_append_tags. cbn [bind].
    apply for_append_doubles. exists ds. split; [assumption |].
    unfold values_pieces. rewrite (doubles_of_length _ _ Hds). reflexivity.
Qed.

(** ** The datagram *)

Lemma dispatch_header_Ok (self : Collectd) (s : Sample) (now : Z) (hdr : bytes) :
  dispatch_header self s now = Ok hdr <->
  exists h t p pi ty iv,
    pack (VInt TYPE_HOST) (host s) = Ok h
    /\ pack (VInt TYPE_TIME) (py_or (time s) (VFloat now)) = Ok t
    /\ pack (VInt TYPE_PLUGIN) (plugin s) = Ok p
    /\ pack (VInt TYPE_PLUGIN_INSTANCE) (plugin_instance s) = Ok pi
    /\ pack (VInt TYPE_TYPE) (plugin_type s) = Ok ty
    /\ pack (VInt TYPE_INTERVAL) (interval self) = Ok iv
    /\ hdr = h ++ t ++ p ++ pi ++ ty ++ iv.
Proof.
  unfold dispatch_header. split.
  - intros H.
    bind_inv H h Hh.
    bind_inv H t Ht.
    bind_inv H p Hp.
    bind_inv H pi Hpi.
    bind_inv H ty Hty.
    bind_inv H iv Hiv.
    apply Ok_inj in H. subst hdr.
    exists h, t, p, pi, ty, iv.
    repeat (split; [assumption |]).
    cbn. rewrite app_nil_r. reflexivity.
  - intros [h [t [p [pi [ty [iv [Hh [Ht [Hp [Hpi [Hty [Hiv ->]]]]]]]]]]]].
    rewrite Hh, Ht, Hp, Hpi, Hty, Hiv. cbn. rewrite app_nil_r. reflexivity.
Qed.

Lemma dispatch_Ok (self : Collectd) (s : Sample) (now : Z) (msg : bytes) :
  sample self = Some s ->
  (dispatch self now = Ok msg <->
   exists hdr ti ds,
     dispatch_header self s now = Ok hdr
     /\ pack (VInt TYPE_TYPE_INSTANCE) (type_instance s) = Ok ti
     /\ 6 + 9 * Z.of_nat (List.length (values s)) <= 65535
     /\ doubles_of (values s) ds
     /\ msg = hdr ++ ti ++ values_layout (repeat Byte.x01 (List.length ds)) ds).
Proof.
  intros Hs. unfold dispatch. rewrite Hs. split.
  - intros H.
    bind_inv H hdr Hhdr.
    bind_inv H parts Hparts.
    apply dispatch_value_parts_Ok in Hparts.
    destruct Hparts as [ti [ds [Hti [Hl [Hds ->]]]]].
    unfold sendto in H. apply Ok_inj in H. subst msg.
    exists hdr, ti, ds. repeat (split; [assumption |]).
    change (join (ti :: values_pieces ds)) with (ti ++ join (values_pieces ds)).
    rewrite join_values_pieces. cbn. rewrite app_nil_r. reflexivity.
  - intros [hdr [ti [ds [Hhdr [Hti [Hl [Hds ->]]]]]]].
    rewrite Hhdr. cbn [bind].
    assert (Hparts : dispatch_value_parts s = Ok (ti :: values_pieces ds)).
    { apply dispatch_value_parts_Ok. exists ti, ds. auto. }
    rewrite Hparts. cbn [bind]. unfold sendto.
    change (join (ti :: values_pieces ds)) with (ti ++ join (values_pieces ds)).
    rewrite join_values_pieces. cbn. rewrite app_nil_r. reflexivity.
Qed.

(** The datagram of [dispatch] in terms of its eight parts, the Time field
    being that of [self.time or time.time()]. *)
Lemma dispatch_fields (self : Collectd) (s : Sample) (now : Z) (msg : bytes) :
  sample self = Some s ->
  (dispatch self now = Ok msg <->
   exists h t p pi ty iv ti ds,
     pack (VInt TYPE_HOST) (host s) = Ok h
     /\ pack (VInt TYPE_TIME) (py_or (time s) (VFloat now)) = Ok t
     /\ pack (VInt TYPE_PLUGIN) (plugin s) = Ok p
     /\ pack (VInt TYPE_PLUGIN_INSTANCE) (plugin_instance s) = Ok pi
     /\ pack (VInt TYPE_TYPE) (plugin_type s) = Ok ty
     /\ pack (VInt TYPE_INTERVAL) (interval self) = Ok iv
     /\ pack (VInt TYPE_TYPE_INSTANCE) (type_instance s) = Ok ti
     /\ doubles_of (values s) ds
     /\ 6 + 9 * Z.of_nat (List.length (values s)) <= 65535
     /\ msg = h ++ t ++ p ++ pi ++ ty ++ iv ++ ti
                ++ values_layout (repeat Byte.x01 (List.length ds)) ds).
Proof.
  intros Hs. rewrite (dispatch_Ok self s now msg Hs). split.
  - intros [hdr [ti [ds [Hhdr [Hti [Hl [Hds ->]]]]]]].
    apply dispatch_header_Ok in Hhdr.
    destruct Hhdr as [h [t [p [pi [ty [iv [Hh [Ht [Hp [Hpi [Hty [Hiv ->]]]]]]]]]]]].
    exists h, t, p, pi, ty, iv, ti, ds.
    repeat (split; [assumption |]).
    rewrite <- !app_assoc. reflexivity.
  - intros [h [t [p [pi [ty [iv [ti [ds H]]]]]]]].
    destruct H as [Hh [Ht [Hp [Hpi [Hty [Hiv [Hti [Hds [Hl ->]]]]]]]]].
    exists (h ++ t ++ p ++ pi ++ ty ++ iv), ti, ds.
    split.
    + apply dispatch_header_Ok. exists h, t, p, pi, ty, iv. auto 10.
    + repeat (split; [assumption |]). rewrite <- !app_assoc. reflexivity.
Qed.

(** C6: for every sample, [dispatch] sends a datagram exactly when every
    field encodes, and the datagram is then the encoded Host, Time, Plugin,
    Plugin Instance, Type and Interval fields, the Type Instance field and
    the Values part, concatenated in this order with nothing before, between
    or after them.  The Time field is that of [self.time or time.time()];
    when the time is unset ([None]) it is the numeric field of the clock
    reading, and when the time counts as set it is the numeric field of the
    sample's time. *)
Theorem dispatch_is_concatenation
    (self : Collectd) (s : Sample) (now : Z) (msg : bytes) :
  sample self = Some s ->
  (dispatch self now = Ok msg <->
   exists h t p pi ty iv ti ds,
     pack (VInt TYPE_HOST) (host s) = Ok h
     /\ pack (VInt TYPE_TIME) (py_or (time s) (VFloat now)) = Ok t
     /\ pack (VInt TYPE_PLUGIN) (plugin s) = Ok p
     /\ pack (VInt TYPE_PLUGIN_INSTANCE) (plugin_instance s) = Ok pi
     /\ pack (VInt TYPE_TYPE) (plugin_type s) = Ok ty
     /\ pack (VInt TYPE_INTERVAL) (interval self) = Ok iv
     /\ pack (VInt TYPE_TYPE_INSTANCE) (type_instance s) = Ok ti
     /\ doubles_of (values s) ds
     /\ 6 + 9 * Z.of_nat (List.length (values s)) <= 65535
     /\ msg = h ++ t ++ p ++ pi ++ ty ++ iv ++ ti
                ++ values_layout (repeat Byte.x01 (List.length ds)) ds)
  /\ (time s = VNone ->
      (dispatch self now = Ok msg <->
      exists h t p pi ty iv ti ds,
        pack (VInt TYPE_HOST) (host s) = Ok h
        /\ pack_numeric (VInt TYPE_TIME) (VFloat now) = Ok t
        /\ pack (VInt TYPE_PLUGIN) (plugin s) = Ok p
        /\ pack (VInt TYPE_PLUGIN_INSTANCE) (plugin_instance s) = Ok pi
        /\ pack (VInt TYPE_TYPE) (plugin_type s) = Ok ty
        /\ pack (VInt TYPE_INTERVAL) (interval self) = Ok iv
        /\ pack (VInt TYPE_TYPE_INSTANCE) (type_instance s) = Ok ti
        /\ doubles_of (values s) ds
        /\ 6 + 9 * Z.of_nat (List.length (values s)) <= 65535
        /\ msg = h ++ t ++ p ++ pi ++ ty ++ iv ++ ti
                   ++ values_layout (repeat Byte.x01 (List.length ds)) ds))
  /\ (truthy (time s) = true ->
      (dispatch self now = Ok msg <->
      exists h t p pi ty iv ti ds,
        pack (VInt TYPE_HOST) (host s) = Ok h
        /\ pack_numeric (VInt TYPE_TIME) (time s) = Ok t
        /\ pack (VInt TYPE_PLUGIN) (plugin s) = Ok p
        /\ pack (VInt TYPE_PLUGIN_INSTANCE) (plugin_instance s) = Ok pi
        /\ pack (VInt TYPE_TYPE) (plugin_type s) = Ok ty
        /\ pack (VInt TYPE_INTERVAL) (interval self) = Ok iv
        /\ pack (VInt TYPE_TYPE_INSTANCE) (type_instance s) = Ok ti
        /\ doubles_of (values s) ds
        /\ 6 + 9 * Z.of_nat (List.length (values s)) <= 65535
        /\ msg = h ++ t ++ p ++ pi ++ ty ++ iv ++ ti
                   ++ values_layout (repeat Byte.x01 (List.length ds)) ds)).
Proof.
  intros Hs. pose proof (dispatch_fields self s now msg Hs) as Hfields.
  split; [exact Hfields |]. split.
  - intros Hnone. rewrite Hfields, Hnone.
    change (pack (VInt TYPE_TIME) (py_or VNone (VFloat now)))
      with (pack_numeric (VInt TYPE_TIME) (VFloat now)).
    apply iff_refl.
  - intros Hset. rewrite Hfields. unfold py_or. rewrite Hset.
    change (pack (VInt TYPE_TIME) (time s))
      with (pack_numeric (VInt TYPE_TIME) (time s)).
    apply iff_refl.
Qed.

(** C4: for a type code of Time or Interval and a signed 64-bit integer,
    [pack_numeric] returns exactly 12 bytes: the type code as a big-endian
    unsigned 16-bit number, the length 12 likewise, and the value as a
    big-endian signed 64-bit number.  [pack] returns the same field. *)
Theorem pack_numeric_layout (T v : Z) :
  In T LONG_INT_CODES ->
  - 2 ^ 63 <= v < 2 ^ 63 ->
  exists field,
    pack_numeric (VInt T) (VInt v) = Ok field
    /\ pack (VInt T) (VInt v) = Ok field
    /\ List.length field = 12%nat
    /\ field = be_bytes 2 T ++ be_bytes 2 12 ++ be_bytes 8 v
    /\ field_type field = T
    /\ declared_length field = 12
    /\ be_sint (skipn 4 field) = v.
Proof.
  intros HT Hv. pose proof (numeric_code_range T HT) as HTr.
  exists (be_bytes 2 T ++ be_bytes 2 12 ++ be_bytes 8 v).
  assert (Hpack : pack_numeric (VInt T) (VInt v)
                  = Ok (be_bytes 2 T ++ be_bytes 2 12 ++ be_bytes 8 v)).
  { apply pack_numeric_Ok. exists T, v. repeat split; try reflexivity; lia. }
  destruct (field_header T 12 (be_bytes 8 v) HTr ltac:(lia))
    as [Hty [Hlen [Hskip Hsize]]].
  split; [exact Hpack |].
  split; [rewrite pack_numeric_code by exact HT; exact Hpack |].
  split; [rewrite !length_app, !length_be_bytes; reflexivity |].
  split; [reflexivity |].
  split; [exact Hty |].
  split; [exact Hlen |].
  rewrite Hskip. apply be_sint_be_bytes; [lia |].
  change (8 * Z.of_nat 8 - 1) with 63. exact Hv.
Qed.

Lemma pack_numeric_layout_witness :
  exists field,
    pack_numeric (VInt TYPE_TIME) (VInt 1000000000) = Ok field
    /\ pack (VInt TYPE_TIME) (VInt 1000000000) = Ok field
    /\ List.length field = 12%nat
    /\ field = be_bytes 2 TYPE_TIME ++ be_bytes 2 12 ++ be_bytes 8 1000000000
    /\ field_type field = TYPE_TIME
    /\ declared_length field = 12
    /\ be_sint (skipn 4 field) = 1000000000.
Proof.
  apply (pack_numeric_layout TYPE_TIME 1000000000).
  - left. reflexivity.
  - split; [discriminate | reflexivity].
Defined.

(** C8: a string whose field would be longer than 65535 bytes is refused:
    [pack_string] (and [pack] on a string code) raises [struct.error] from
    the range check of the 16-bit length, the form the FieldTooLarge
    condition takes in this code; no bytes are returned, so nothing is
    truncated and the length never wraps. *)
Theorem pack_string_too_large (T : Z) (s : bytes) :
  In T STRING_CODES ->
  65535 < 5 + Z.of_nat (List.length s) ->
  pack_string (VInt T) (VStr s) = Raise (StructError ArgOutOfRange)
  /\ pack (VInt T) (VStr s) = Raise (StructError ArgOutOfRange).
Proof.
  intros HT Hlen. pose proof (string_code_range T HT) as HTr.
  assert (H : pack_string (VInt T) (VStr s) = Raise (StructError ArgOutOfRange)).
  { unfold pack_string. cbn [py_len bind]. rewrite struct_pack_HH_eq.
    rewrite (pack_ranged_int NetworkOrder 2 0 65535 T HTr). cbn [bind].
    rewrite pack_ranged_int_out by lia. reflexivity. }
  split; [exact H |]. rewrite pack_string_code by exact HT. exact H.
Qed.

Lemma pack_string_too_large_witness :
  pack_string (VInt TYPE_HOST) (VStr (repeat Byte.x61 (Z.to_nat 65531)))
    = Raise (StructError ArgOutOfRange)
  /\ pack (VInt TYPE_HOST) (VStr (repeat Byte.x61 (Z.to_nat 65531)))
    = Raise (StructError ArgOutOfRange).
Proof.
  apply (pack_string_too_large TYPE_HOST (repeat Byte.x61 (Z.to_nat 65531))).
  - left. reflexivity.
  - rewrite repeat_length, Z2Nat.id by discriminate. reflexivity.
Defined.

(** ** The declared length *)

Lemma length_flat_map_le_split (ds : list Z) :
  List.length (flat_map (le_split 8) ds) = (8 * List.length ds)%nat.
Proof.
  induction ds as [| d ds IH]; [reflexivity |].
  cbn [flat_map]. rewrite length_app, length_le_split, IH. cbn [List.length]. lia.
Qed.

Lemma values_layout_header (ds : list Z) :
  6 + 9 * Z.of_nat (List.length ds) <= 65535 ->
  let n := Z.of_nat (List.length ds) in
  let part := values_layout (repeat Byte.x01 (List.length ds)) ds in
  field_type part = TYPE_VALUES
  /\ declared_length part = 6 + 9 * n
  /\ be_uint (firstn 2 (skipn 4 part)) = n
  /\ firstn (List.length ds) (skipn 6 part) = repeat Byte.x01 (List.length ds)
  /\ skipn (6 + List.length ds) part = flat_map (le_split 8) ds
  /\ Z.of_nat (List.length part) = 6 + 9 * n.
Proof.
  intros Hl n part. unfold part, values_layout. fold n.
  destruct (field_header TYPE_VALUES (6 + 9 * n)
              (be_bytes 2 n ++ repeat Byte.x01 (List.length ds)
                 ++ flat_map (le_split 8) ds))
    as [Hty [Hlen [Hskip Hsize]]]; [cbv; split; discriminate | lia |].
  split; [exact Hty |]. split; [exact Hlen |].
  split.
  { rewrite Hskip, (firstn_app_len 2) by apply length_be_bytes.
    apply be_uint_be_bytes. cbn. lia. }
  split.
  { rewrite <- (skipn_skipn 2 4), Hskip, (skipn_app_len 2)
      by apply length_be_bytes.
    apply firstn_app_len, repeat_length. }
  split.
  { rewrite Nat.add_comm, <- (skipn_skipn (List.length ds) 6).
    rewrite <- (skipn_skipn 2 4), Hskip.
    rewrite (skipn_app_len 2) by apply length_be_bytes.
    apply skipn_app_len, repeat_length. }
  rewrite Hsize, !length_app, length_be_bytes, repeat_length,
    length_flat_map_le_split. lia.
Qed.

(** C1, as the code has it: the 16-bit length written after the type code of
    a field that [pack_numeric], [pack_string] or the Values part of
    [dispatch] emits is the size of the whole field, its type code and the
    length itself included; the bytes that follow the length are 4 fewer. *)
Theorem declared_length_is_field_size (field : bytes) :
  emitted_field field ->
  declared_length field = Z.of_nat (List.length field)
  /\ bytes_after_length field = declared_length field - 4.
Proof.
  intros H.
  enough (Hgoal : exists t l rest,
             0 <= t <= 65535 /\ 0 <= l <= 65535
             /\ field = be_bytes 2 t ++ be_bytes 2 l ++ rest
             /\ l = 4 + Z.of_nat (List.length rest)).
  { destruct Hgoal as [t [l [rest [Ht [Hl [-> Hsize]]]]]].
    destruct (field_header t l rest Ht Hl) as [_ [Hlen [Hskip Hfield]]].
    unfold bytes_after_length. rewrite Hlen, Hskip, Hfield. lia. }
  destruct H as [type_code number field H | type_code string field H | s parts H].
  - apply pack_numeric_Ok in H. destruct H as [t [v [_ [Ht [_ [_ ->]]]]]].
    exists t, 12, (be_bytes 8 v). rewrite length_be_bytes.
    repeat split; try lia.
  - apply pack_string_Ok in H. destruct H as [t [s [_ [Ht [_ [Hl ->]]]]]].
    exists t, (5 + Z.of_nat (List.length s)), (s ++ [Byte.x00]).
    rewrite length_app. cbn [List.length]. repeat split; try lia.
  - apply dispatch_value_parts_Ok in H.
    destruct H as [ti [ds [_ [Hl [Hds ->]]]]]. cbn [tl].
    rewrite join_values_pieces.
    rewrite <- (doubles_of_length _ _ Hds) in Hl.
    exists TYPE_VALUES, (6 + 9 * Z.of_nat (List.length ds)),
      (be_bytes 2 (Z.of_nat (List.length ds))
         ++ repeat Byte.x01 (List.length ds) ++ flat_map (le_split 8) ds).
    rewrite !length_app, length_be_bytes, repeat_length, length_flat_map_le_split.
    repeat split; try lia; cbv; discriminate.
Qed.

Lemma declared_length_is_field_size_witness :
  declared_length [Byte.x00; Byte.x00; Byte.x00; Byte.x07;
                   Byte.x68; Byte.x31; Byte.x00] = 7
  /\ bytes_after_length [Byte.x00; Byte.x00; Byte.x00; Byte.x07;
                         Byte.x68; Byte.x31; Byte.x00] = 7 - 4.
Proof.
  destruct (declared_length_is_field_size
              [Byte.x00; Byte.x00; Byte.x00; Byte.x07; Byte.x68; Byte.x31; Byte.x00]
              (emitted_string (VInt TYPE_HOST) (VStr (str "h1")) _ eq_refl))
    as [Hsize Hafter].
  split.
  - exact Hsize.
  - rewrite Hafter, Hsize. reflexivity.
Defined.

(** C1 as stated fails: the Time field of the timestamp 1000000000 declares
    12, and 8 bytes follow its length. *)
Lemma declared_length_counts_header :
  exists field,
    pack_numeric (VInt TYPE_TIME) (VInt 1000000000) = Ok field
    /\ emitted_field field
    /\ declared_length field = 12
    /\ bytes_after_length field = 8.
Proof.
  exists [Byte.x00; Byte.x01; Byte.x00; Byte.x0c;
          Byte.x00; Byte.x00; Byte.x00; Byte.x00;
          Byte.x3b; Byte.x9a; Byte.xca; Byte.x00].
  split; [reflexivity |].
  split; [apply (emitted_numeric (VInt TYPE_TIME) (VInt 1000000000)); reflexivity |].
  split; reflexivity.
Qed.

(** ** The Values part *)

(** C2, as the code has it: for a value list of [n] numbers that convert to
    doubles ([ds], a float as it is and an integer rounded to the nearest
    double) with [6 + 9 n <= 65535], [dispatch] collects the Type Instance
    field and then a Values part that declares type 6, length [6 + 9 n] and
    count [n], all big-endian 16-bit, followed by [n] tag bytes equal to 1
    (Gauge) and then the [n] doubles, 8 bytes each, little-endian.  No other
    tag is ever written: the sample carries no value kind. *)
Theorem values_part_layout (s : Sample) (ti : bytes) (ds : list Z) :
  pack (VInt TYPE_TYPE_INSTANCE) (type_instance s) = Ok ti ->
  doubles_of (values s) ds ->
  6 + 9 * Z.of_nat (List.length (values s)) <= 65535 ->
  let n := List.length (values s) in
  exists part,
    dispatch_value_parts s = Ok (ti :: values_pieces ds)
    /\ part = join (values_pieces ds)
    /\ part = be_bytes 2 TYPE_VALUES ++ be_bytes 2 (6 + 9 * Z.of_nat n)
                ++ be_bytes 2 (Z.of_nat n)
                ++ repeat Byte.x01 n ++ flat_map (le_split 8) ds
    /\ field_type part = TYPE_VALUES
    /\ declared_length part = 6 + 9 * Z.of_nat n
    /\ be_uint (firstn 2 (skipn 4 part)) = Z.of_nat n
    /\ firstn n (skipn 6 part) = repeat Byte.x01 n
    /\ skipn (6 + n) part = flat_map (le_split 8) ds
    /\ List.length ds = n
    /\ (forall self now hdr,
          sample self = Some s ->
          dispatch_header self s now = Ok hdr ->
          dispatch self now = Ok (hdr ++ ti ++ part)).
Proof.
  intros Hti Hds Hl n.
  pose proof (doubles_of_length _ _ Hds) as Hn. fold n in Hn.
  exists (join (values_pieces ds)).
  split; [apply dispatch_value_parts_Ok; exists ti, ds; auto |].
  split; [reflexivity |].
  rewrite join_values_pieces.
  assert (Hl' : 6 + 9 * Z.of_nat (List.length ds) <= 65535) by (rewrite Hn; exact Hl).
  destruct (values_layout_header ds Hl') as [Hty [Hlen [Hcnt [Htags [Hpay _]]]]].
  rewrite Hn in Hty, Hlen, Hcnt, Htags, Hpay.
  split; [unfold values_layout; rewrite Hn; reflexivity |].
  rewrite Hn.
  repeat (split; [assumption || reflexivity |]).
  intros self now hdr Hs Hhdr.
  apply (dispatch_Ok self s now _ Hs). exists hdr, ti, ds.
  rewrite Hn. auto.
Qed.

Lemma values_part_layout_witness :
  dispatch_value_parts example_sample
    = Ok [[Byte.x00; Byte.x05; Byte.x00; Byte.x07; Byte.x74; Byte.x69; Byte.x00];
          [Byte.x00; Byte.x06; Byte.x00; Byte.x0f; Byte.x00; Byte.x01];
          [Byte.x01];
          [Byte.x00; Byte.x00; Byte.x00; Byte.x00; Byte.x00; Byte.x40; Byte.x45; Byte.x40]]
  /\ dispatch example_self 0 = Ok example_datagram.
Proof.
  destruct (values_part_layout example_sample
              [Byte.x00; Byte.x05; Byte.x00; Byte.x07; Byte.x74; Byte.x69; Byte.x00]
              [0x4045400000000000])
    as [part [Hparts [Hpart [_ [_ [_ [_ [_ [_ [_ Hmsg]]]]]]]]]].
  - reflexivity.
  - constructor; [reflexivity | constructor].
  - cbn. discriminate.
  - split.
    + exact Hparts.
    + rewrite (Hmsg example_self 0 _ eq_refl eq_refl), Hpart. reflexivity.
Defined.

(** C2 as stated fails for a long list: with 7282 values the length
    [6 + 9 n] is 65544, [struct.pack] refuses it, and [dispatch] raises
    without assembling a Values part.  It fails likewise for a number with
    no double: the integer [2 ^ 1024]. *)
Lemma values_part_overflow :
  6 + 9 * Z.of_nat (List.length (values oversized_sample)) = 65544
  /\ dispatch_value_parts oversized_sample = Raise (StructError ArgOutOfRange)
  /\ dispatch {| _collectd_addr := (str "localhost", 25826);
                 interval := VInt 10;
                 sample := Some oversized_sample |} 0
     = Raise (StructError ArgOutOfRange)
  /\ dispatch {| _collectd_addr := (str "localhost", 25826);
                 interval := VInt 10;
                 sample := Some {| plugin_type := VStr (str "t");
                                   type_instance := VStr (str "ti");
                                   host := VStr (str "h1");
                                   plugin := VStr (str "p");
                                   plugin_instance := VStr [];
                                   time := VInt 1000000000;
                                   values := [VInt (2 ^ 1024)] |} |} 0
     = Raise (StructError ArgNotFloat).
Proof.
  split; [vm_compute; reflexivity |].
  split; [vm_compute; reflexivity |].
  split; vm_compute; reflexivity.
Qed.

(** ** Strings *)

Lemma split_at_nul_text (s rest : bytes) :
  ~ In Byte.x00 s ->
  split_at_nul (s ++ Byte.x00 :: rest) = Some (s, rest).
Proof.
  induction s as [| b s IH]; intros Hnul.
  - reflexivity.
  - cbn [app split_at_nul].
    destruct (Byte.eqb b Byte.x00) eqn:Hb.
    + apply Byte.byte_dec_bl in Hb. subst b. exfalso. apply Hnul. left. reflexivity.
    + rewrite IH; [reflexivity |]. intros Hin. apply Hnul. right. exact Hin.
Qed.

(** C5, as the code has it: for a string code [T] and a string [s] with no
    NUL byte and at most 65530 bytes (so that [5 + len s] fits the 16-bit
    length), [pack_string] returns a field that the reference parser reads
    back as [(T, s)]: the type code and the length round-trip, the length is
    [5 + len s], and the text is followed by exactly one NUL, which ends the
    field. *)
Theorem pack_string_roundtrip (T : Z) (s : bytes) :
  In T STRING_CODES ->
  ~ In Byte.x00 s ->
  5 + Z.of_nat (List.length s) <= 65535 ->
  exists field,
    pack_string (VInt T) (VStr s) = Ok field
    /\ pack (VInt T) (VStr s) = Ok field
    /\ decode_string field = Some (T, s)
    /\ field_type field = T
    /\ declared_length field = 5 + Z.of_nat (List.length s)
    /\ skipn 4 field = s ++ [Byte.x00]
    /\ Z.of_nat (List.length field) = 5 + Z.of_nat (List.length s).
Proof.
  intros HT Hnul Hlen. pose proof (string_code_range T HT) as HTr.
  set (l := 5 + Z.of_nat (List.length s)).
  exists (be_bytes 2 T ++ be_bytes 2 l ++ s ++ [Byte.x00]).
  assert (Hpack : pack_string (VInt T) (VStr s)
                  = Ok (be_bytes 2 T ++ be_bytes 2 l ++ s ++ [Byte.x00])).
  { apply pack_string_Ok. exists T, s. repeat split; try reflexivity; lia. }
  destruct (field_header T l (s ++ [Byte.x00]) HTr ltac:(lia))
    as [Hty [Hdecl [Hskip Hsize]]].
  assert (Hrest : Z.of_nat (List.length (s ++ [Byte.x00]))
                  = Z.of_nat (List.length s) + 1).
  { rewrite length_app. cbn [List.length]. lia. }
  split; [exact Hpack |].
  split; [rewrite pack_string_code by exact HT; exact Hpack |].
  split.
  { unfold decode_string. rewrite Hskip, (split_at_nul_text s [] Hnul).
    rewrite Hty, Hdecl.
    destruct (Z.leb_spec 4 (Z.of_nat (List.length
               (be_bytes 2 T ++ be_bytes 2 l ++ s ++ [Byte.x00])))); [| lia].
    destruct (Z.eqb_spec l (Z.of_nat (List.length
               (be_bytes 2 T ++ be_bytes 2 l ++ s ++ [Byte.x00])))); [| lia].
    reflexivity. }
  split; [exact Hty |].
  split; [exact Hdecl |].
  split; [exact Hskip |]. lia.
Qed.

Lemma pack_string_roundtrip_witness :
  exists field,
    pack_string (VInt TYPE_HOST) (VStr (str "h1")) = Ok field
    /\ pack (VInt TYPE_HOST) (VStr (str "h1")) = Ok field
    /\ decode_string field = Some (TYPE_HOST, str "h1")
    /\ field_type field = TYPE_HOST
    /\ declared_length field = 5 + Z.of_nat (List.length (str "h1"))
    /\ skipn 4 field = str "h1" ++ [Byte.x00]
    /\ Z.of_nat (List.length field) = 5 + Z.of_nat (List.length (str "h1")).
Proof.
  apply (pack_string_roundtrip TYPE_HOST (str "h1")).
  - left. reflexivity.
  - cbn. intros [H | [H | H]]; [discriminate H | discriminate H | exact H].
  - cbn. discriminate.
Defined.

(** C5 as stated fails for a long string: 65531 letters hold no NUL, and
    [pack_string] raises instead of returning a field to read back. *)
Lemma pack_string_roundtrip_overflow :
  ~ In Byte.x00 (repeat Byte.x61 (Z.to_nat 65531))
  /\ pack_string (VInt TYPE_HOST) (VStr (repeat Byte.x61 (Z.to_nat 65531)))
     = Raise (StructError ArgOutOfRange).
Proof.
  split.
  - intros H. apply repeat_spec in H. discriminate H.
  - vm_compute. reflexivity.
Qed.

(** ** Construction *)

(** C7, as the code has it: [packet] checks nothing and never fails; it
    stores the value list and the type name as given, an empty list and an
    empty name included.  [dispatch] then sends an empty list as a Values
    part of 6 bytes that declares length 6 and count 0, whenever the other
    fields encode. *)
Theorem packet_performs_no_validation
    (gethostname : bytes) (self : Collectd) (ptype : pyval) (vals : list pyval)
    (host_arg plugin_arg type_instance_arg plugin_instance_arg time_arg
       : option pyval) :
  exists c s,
    packet gethostname self ptype vals host_arg plugin_arg type_instance_arg
      plugin_instance_arg time_arg = Ok c
    /\ sample c = Some s
    /\ values s = vals
    /\ plugin_type s = ptype
    /\ (forall now hdr ti,
          vals = [] ->
          dispatch_header c s now = Ok hdr ->
          pack (VInt TYPE_TYPE_INSTANCE) (type_instance s) = Ok ti ->
          dispatch c now
          = Ok (hdr ++ ti ++ [Byte.x00; Byte.x06; Byte.x00; Byte.x06;
                              Byte.x00; Byte.x00])).
Proof.
  eexists. eexists. split; [reflexivity |].
  split; [reflexivity |]. split; [reflexivity |]. split; [reflexivity |].
  intros now hdr ti -> Hhdr Hti.
  eapply dispatch_Ok; [reflexivity |].
  exists hdr, ti, []. split; [exact Hhdr |]. split; [exact Hti |].
  split; [cbn; discriminate |]. split; [constructor |]. reflexivity.
Qed.

Lemma packet_performs_no_validation_witness :
  exists c,
    packet (str "me") (Collectd_init None None (Some (VInt 10)))
      (VStr []) [] None None None (Some (VStr [])) None = Ok c
    /\ option_map values (sample c) = Some []
    /\ option_map plugin_type (sample c) = Some (VStr [])
    /\ exists hdr ti,
         dispatch c 0x41d954fc40000000
         = Ok (hdr ++ ti ++ [Byte.x00; Byte.x06; Byte.x00; Byte.x06;
                             Byte.x00; Byte.x00]).
Proof.
  destruct (packet_performs_no_validation
              (str "me") (Collectd_init None None (Some (VInt 10)))
              (VStr []) [] None None None (Some (VStr [])) None)
    as [c [s [Hc [Hs [Hv [Ht Hd]]]]]].
  exists c. split; [exact Hc |].
  rewrite Hs. cbn [option_map]. rewrite Hv, Ht.
  split; [reflexivity |]. split; [reflexivity |].
  apply Ok_inj in Hc. subst c. cbn [sample] in Hs.
  injection Hs as Hs. subst s.
  eexists. eexists.
  apply (Hd 0x41d954fc40000000); reflexivity.
Defined.

(** C7 as stated fails: [packet] accepts an empty value list together with
    an empty type name, and [dispatch] sends the empty Values part. *)
Lemma packet_accepts_empty_values :
  exists c,
    packet (str "me") (Collectd_init None None (Some (VInt 10)))
      (VStr []) [] None None None (Some (VStr [])) None = Ok c
    /\ dispatch c 0x41d954fc40000000
       = Ok ([Byte.x00; Byte.x00; Byte.x00; Byte.x07; Byte.x6d; Byte.x65; Byte.x00;
              Byte.x00; Byte.x01; Byte.x00; Byte.x0c;
              Byte.x00; Byte.x00; Byte.x00; Byte.x00;
              Byte.x65; Byte.x53; Byte.xf1; Byte.x00;
              Byte.x00; Byte.x02; Byte.x00; Byte.x0b;
              Byte.x70; Byte.x79; Byte.x74; Byte.x68; Byte.x6f; Byte.x6e; Byte.x00;
              Byte.x00; Byte.x03; Byte.x00; Byte.x05; Byte.x00;
              Byte.x00; Byte.x04; Byte.x00; Byte.x05; Byte.x00;
              Byte.x00; Byte.x07; Byte.x00; Byte.x0c;
              Byte.x00; Byte.x00; Byte.x00; Byte.x00;
              Byte.x00; Byte.x00; Byte.x00; Byte.x0a;
              Byte.x00; Byte.x05; Byte.x00; Byte.x05; Byte.x00]
             ++ [Byte.x00; Byte.x06; Byte.x00; Byte.x06; Byte.x00; Byte.x00]).
Proof.
  eexists. split; [reflexivity |]. vm_compute. reflexivity.
Qed.

Lemma dispatch_plugin_instance_None (self : Collectd) (s : Sample) (now : Z) :
  sample self = Some s ->
  plugin_instance s = VNone ->
  exists e, dispatch self now = Raise e.
Proof.
  intros Hs Hpi. unfold dispatch. rewrite Hs. unfold dispatch_header.
  rewrite Hpi.
  destruct (pack (VInt TYPE_HOST) (host s)) as [f1 | e1]; cbn [bind].
  2: { exists e1. reflexivity. }
  destruct (pack (VInt TYPE_TIME) (py_or (time s) (VFloat now)))
    as [f2 | e2]; cbn [bind].
  2: { exists e2. reflexivity. }
  destruct (pack (VInt TYPE_PLUGIN) (plugin s)) as [f3 | e3]; cbn [bind].
  2: { exists e3. reflexivity. }
  exists TypeError. reflexivity.
Qed.

(** C3, on the code: a sample built without a plugin instance keeps [None]
    for it, and [dispatch] then always raises: whatever the other fields
    are, no datagram is sent. *)
Theorem dispatch_without_plugin_instance
    (gethostname : bytes) (self : Collectd) (ptype : pyval) (vals : list pyval)
    (host_arg plugin_arg type_instance_arg time_arg : option pyval) (now : Z) :
  exists c e,
    packet gethostname self ptype vals host_arg plugin_arg type_instance_arg
      None time_arg = Ok c
    /\ option_map plugin_instance (sample c) = Some VNone
    /\ dispatch c now = Raise e.
Proof.
  unfold packet.
  match goal with
  | |- exists c e, Ok ?c0 = Ok c /\ _ =>
      destruct (dispatch_plugin_instance_None c0 _ now eq_refl eq_refl) as [e He];
      exists c0, e
  end.
  split; [reflexivity |]. split; [reflexivity | exact He].
Qed.

(** The end-to-end sample of the specification, its plugin instance left
    out: [len(None)] raises [TypeError]. *)
Example example_without_plugin_instance :
  (c <- packet (str "me") (Collectd_init None None (Some (VInt 10)))
         (VStr (str "t")) [VFloat 0x4045400000000000]
         (Some (VStr (str "h1"))) (Some (VStr (str "p")))
         (Some (VStr (str "ti"))) None (Some (VInt 1000000000)) ;;
   dispatch c 0)
  = Raise TypeError.
Proof. reflexivity. Qed.

(** ** The clock *)



Lemma dispatch_is_concatenation_witness :
  dispatch example_self 0 = Ok example_datagram
  /\ dispatch (set_time example_self VNone) 0x41d954fc40000000
     = Ok (firstn 11 example_datagram
             ++ [Byte.x00; Byte.x00; Byte.x00; Byte.x00;
                 Byte.x65; Byte.x53; Byte.xf1; Byte.x00]
             ++ skipn 19 example_datagram).
Proof.
  split.
  - apply (proj2 (proj1 (dispatch_is_concatenation example_self example_sample 0
                           example_datagram eq_refl))).
    exists [Byte.x00; Byte.x00; Byte.x00; Byte.x07; Byte.x68; Byte.x31; Byte.x00].
    exists [Byte.x00; Byte.x01; Byte.x00; Byte.x0c; Byte.x00; Byte.x00; Byte.x00;
            Byte.x00; Byte.x3b; Byte.x9a; Byte.xca; Byte.x00].
    exists [Byte.x00; Byte.x02; Byte.x00; Byte.x06; Byte.x70; Byte.x00].
    exists [Byte.x00; Byte.x03; Byte.x00; Byte.x05; Byte.x00].
    exists [Byte.x00; Byte.x04; Byte.x00; Byte.x06; Byte.x74; Byte.x00].
    exists [Byte.x00; Byte.x07; Byte.x00; Byte.x0c; Byte.x00; Byte.x00; Byte.x00;
            Byte.x00; Byte.x00; Byte.x00; Byte.x00; Byte.x0a].
    exists [Byte.x00; Byte.x05; Byte.x00; Byte.x07; Byte.x74; Byte.x69; Byte.x00].
    exists [0x4045400000000000].
    repeat (split; [reflexivity |]).
    split; [constructor; [reflexivity | constructor] |].
    split; [cbn; discriminate | reflexivity].
  - apply (proj2 (proj1 (proj2 (dispatch_is_concatenation
                                  (set_time example_self VNone)
                                  {| plugin_type := VStr (str "t");
                                     type_instance := VStr (str "ti");
                                     host := VStr (str "h1");
                                     plugin := VStr (str "p");
                                     plugin_instance := VStr [];
                                     time := VNone;
                                     values := [VFloat 0x4045400000000000] |}
                                  0x41d954fc40000000 _ eq_refl))
                    eq_refl)).
    exists [Byte.x00; Byte.x00; Byte.x00; Byte.x07; Byte.x68; Byte.x31; Byte.x00].
    exists [Byte.x00; Byte.x01; Byte.x00; Byte.x0c; Byte.x00; Byte.x00; Byte.x00;
            Byte.x00; Byte.x65; Byte.x53; Byte.xf1; Byte.x00].
    exists [Byte.x00; Byte.x02; Byte.x00; Byte.x06; Byte.x70; Byte.x00].
    exists [Byte.x00; Byte.x03; Byte.x00; Byte.x05; Byte.x00].
    exists [Byte.x00; Byte.x04; Byte.x00; Byte.x06; Byte.x74; Byte.x00].
    exists [Byte.x00; Byte.x07; Byte.x00; Byte.x0c; Byte.x00; Byte.x00; Byte.x00;
            Byte.x00; Byte.x00; Byte.x00; Byte.x00; Byte.x0a].
    exists [Byte.x00; Byte.x05; Byte.x00; Byte.x07; Byte.x74; Byte.x69; Byte.x00].
    exists [0x4045400000000000].
    repeat (split; [reflexivity |]).
    split; [constructor; [reflexivity | constructor] |].
    split; [cbn; discriminate | reflexivity].
Defined.

(** ** The generic entry point *)

(** C10, as the code has it: [pack] on a string id is [pack_value]; for an
    id of at most 65530 bytes and a value that converts to a double it
    returns the Type Instance field of the id followed by a Values part that
    declares length 15 and count 1 and holds one Gauge tag and the double,
    little-endian; and [pack] on an integer id that is none of the seven
    string and numeric codes (6, the Values code, among them) raises instead
    of returning bytes. *)
Theorem pack_routes_names_and_rejects_codes :
  (forall id value, pack (VStr id) value = pack_value (VStr id) value)
  /\ (forall id value d,
        5 + Z.of_nat (List.length id) <= 65535 ->
        get_double value = Ok d ->
        exists ti,
          pack_string (VInt TYPE_TYPE_INSTANCE) (VStr id) = Ok ti
          /\ pack (VStr id) value
             = Ok (ti ++ be_bytes 2 TYPE_VALUES ++ be_bytes 2 15 ++ be_bytes 2 1
                      ++ [Byte.x01] ++ le_split 8 d)
          /\ declared_length (be_bytes 2 TYPE_VALUES ++ be_bytes 2 15
                                ++ be_bytes 2 1 ++ [Byte.x01] ++ le_split 8 d)
             = 15)
  /\ (forall z value,
        ~ In z (LONG_INT_CODES ++ STRING_CODES) ->
        pack (VInt z) value = Raise AssertionError)
  /\ pack (VInt TYPE_VALUES) (VInt 0) = Raise AssertionError.
Proof.
  split; [intros id value; reflexivity |].
  split.
  { intros id value d Hlen Hd.
    set (l := 5 + Z.of_nat (List.length id)).
    exists (be_bytes 2 TYPE_TYPE_INSTANCE ++ be_bytes 2 l ++ id ++ [Byte.x00]).
    assert (Hti : pack_string (VInt TYPE_TYPE_INSTANCE) (VStr id)
                  = Ok (be_bytes 2 TYPE_TYPE_INSTANCE ++ be_bytes 2 l
                          ++ id ++ [Byte.x00])).
    { apply pack_string_Ok. exists TYPE_TYPE_INSTANCE, id.
      repeat split; try reflexivity; try exact Hlen; cbv; discriminate. }
    split; [exact Hti |]. split.
    - rewrite pack_unfold. cbn [isinstance_basestring].
      unfold pack_value, pack_value_with.
      rewrite (pack_string_code TYPE_TYPE_INSTANCE)
        by (cbn; auto 10).
      rewrite Hti. cbn [bind].
      rewrite struct_pack_Bd_eq, pack_gauge_tag. cbn [bind]. rewrite Hd.
      assert (Hhdr : struct_pack "!HHH" [VInt TYPE_VALUES; VInt 15; VInt 1]
                     = Ok (be_bytes 2 TYPE_VALUES ++ be_bytes 2 15 ++ be_bytes 2 1))
        by reflexivity.
      rewrite Hhdr. cbn [bind]. unfold join. cbn [List.concat].
      rewrite app_nil_r, <- !app_assoc. reflexivity.
    - destruct (field_header TYPE_VALUES 15
                  (be_bytes 2 1 ++ [Byte.x01] ++ le_split 8 d))
        as [_ [Hdecl _]]; [cbv; split; discriminate | lia | exact Hdecl]. }
  split; [| reflexivity].
  intros z value Hz. rewrite pack_unfold. cbn [isinstance_basestring].
  assert (Hlong : py_in (VInt z) LONG_INT_CODES = false).
  { destruct (py_in (VInt z) LONG_INT_CODES) eqn:E; [| reflexivity].
    exfalso. apply Hz, in_or_app. left.
    apply existsb_exists in E. destruct E as [k [Hk Hzk]].
    cbn [eq_int] in Hzk. apply Z.eqb_eq in Hzk. subst k. exact Hk. }
  assert (Hstr : py_in (VInt z) STRING_CODES = false).
  { destruct (py_in (VInt z) STRING_CODES) eqn:E; [| reflexivity].
    exfalso. apply Hz, in_or_app. right.
    apply existsb_exists in E. destruct E as [k [Hk Hzk]].
    cbn [eq_int] in Hzk. apply Z.eqb_eq in Hzk. subst k. exact Hk. }
  rewrite Hlong, Hstr. reflexivity.
Qed.

Lemma pack_routes_names_and_rejects_codes_witness :
  (exists ti,
     pack_string (VInt TYPE_TYPE_INSTANCE) (VStr (str "ti")) = Ok ti
     /\ pack (VStr (str "ti")) (VInt 42)
        = Ok (ti ++ be_bytes 2 TYPE_VALUES ++ be_bytes 2 15 ++ be_bytes 2 1
                 ++ [Byte.x01] ++ le_split 8 0x4045000000000000)
     /\ declared_length (be_bytes 2 TYPE_VALUES ++ be_bytes 2 15
                           ++ be_bytes 2 1 ++ [Byte.x01]
                           ++ le_split 8 0x4045000000000000)
        = 15)
  /\ pack (VInt 8) (VInt 42) = Raise AssertionError.
Proof.
  destruct pack_routes_names_and_rejects_codes as [_ [Hname [Hcode _]]].
  split.
  - apply (Hname (str "ti") (VInt 42) 0x4045000000000000).
    + cbn. discriminate.
    + reflexivity.
  - apply (Hcode 8 (VInt 42)). cbn.
    intros H. repeat (destruct H as [H | H]; [discriminate H |]). exact H.
Defined.

(** C10 as stated fails at the edges: a name of 65531 bytes, and an integer
    too large for a double, make [pack] raise [struct.error]. *)
Lemma pack_name_value_overflow :
  pack (VStr (repeat Byte.x61 (Z.to_nat 65531))) (VFloat 0x4045400000000000)
    = Raise (StructError ArgOutOfRange)
  /\ pack (VStr (str "ti")) (VInt (2 ^ 1024)) = Raise (StructError ArgNotFloat).
Proof.
  split; vm_compute; reflexivity.
Qed.

(** ** More on the encoders and the datagram *)

Lemma declared_length_app (part rest : bytes) :
  4 <= Z.of_nat (List.length part) ->
  declared_length (part ++ rest) = declared_length part.
Proof.
  intros Hlen.
  destruct part as [| a [| b [| c [| d part']]]]; cbn in Hlen; try lia.
  reflexivity.
Qed.

Lemma split_parts_cons (fuel : nat) (part rest : bytes) :
  well_formed_part part ->
  split_parts (S fuel) (part ++ rest)
  = option_map (cons part) (split_parts fuel rest).
Proof.
  intros [Hlen Hdecl].
  destruct part as [| b part']; [cbn in Hlen; lia |].
  cbn [app split_parts].
  change (b :: part' ++ rest) with ((b :: part') ++ rest).
  rewrite declared_length_app, Hdecl, Nat2Z.id by exact Hlen.
  assert (H4 : (4 <=? List.length (b :: part'))%nat = true)
    by (apply Nat.leb_le; lia).
  assert (Hle : (List.length (b :: part') <=? List.length ((b :: part') ++ rest))%nat
                = true)
    by (apply Nat.leb_le; rewrite length_app; lia).
  rewrite H4, Hle. cbn [andb].
  rewrite (firstn_app_len _ _ _ eq_refl), (skipn_app_len _ _ _ eq_refl).
  reflexivity.
Qed.

Lemma split_parts_join (parts : list bytes) (fuel : nat) :
  Forall well_formed_part parts ->
  (List.length parts <= fuel)%nat ->
  split_parts fuel (join parts) = Some parts.
Proof.
  intros Hwf. revert fuel.
  induction Hwf as [| part parts Hpart Hparts IH]; intros fuel Hfuel.
  - destruct fuel; reflexivity.
  - destruct fuel as [| fuel]; [cbn in Hfuel; lia |].
    change (join (part :: parts)) with (part ++ join parts).
    rewrite split_parts_cons by exact Hpart.
    rewrite IH by (cbn in Hfuel; lia). reflexivity.
Qed.

Lemma length_join_well_formed (parts : list bytes) :
  Forall well_formed_part parts ->
  (List.length parts <= List.length (join parts))%nat.
Proof.
  induction 1 as [| part parts [Hlen _] _ IH]; [cbn; lia |].
  change (join (part :: parts)) with (part ++ join parts).
  rewrite length_app. cbn [List.length]. lia.
Qed.

(** What [pack] returns for a string code. *)
Lemma packed_string_field (T : Z) (v : pyval) (f : bytes) :
  In T STRING_CODES ->
  pack (VInt T) v = Ok f ->
  exists s,
    v = VStr s
    /\ 5 + Z.of_nat (List.length s) <= 65535
    /\ f = be_bytes 2 T ++ be_bytes 2 (5 + Z.of_nat (List.length s))
              ++ s ++ [Byte.x00]
    /\ well_formed_part f
    /\ field_type f = T
    /\ Z.of_nat (List.length f) = 5 + Z.of_nat (List.length s).
Proof.
  intros HT H. pose proof (string_code_range T HT) as HTr.
  rewrite pack_string_code in H by exact HT.
  apply pack_string_Ok in H. destruct H as [t [s [Ht [_ [-> [Hl ->]]]]]].
  apply Ok_inj in Ht. subst t.
  destruct (field_header T (5 + Z.of_nat (List.length s)) (s ++ [Byte.x00]) HTr)
    as [Hty [Hdecl [_ Hsize]]]; [lia |].
  assert (Hrest : Z.of_nat (List.length (s ++ [Byte.x00]))
                  = Z.of_nat (List.length s) + 1).
  { rewrite length_app. cbn [List.length]. lia. }
  exists s. split; [reflexivity |]. split; [exact Hl |]. split; [reflexivity |].
  split; [split; lia |]. split; [exact Hty | lia].
Qed.

(** What [pack] returns for a numeric code. *)
Lemma packed_numeric_field (T : Z) (v : pyval) (f : bytes) :
  In T LONG_INT_CODES ->
  pack (VInt T) v = Ok f ->
  exists z,
    get_pylong v = Ok z
    /\ - 2 ^ 63 <= z <= 2 ^ 63 - 1
    /\ f = be_bytes 2 T ++ be_bytes 2 12 ++ be_bytes 8 z
    /\ well_formed_part f
    /\ field_type f = T
    /\ Z.of_nat (List.length f) = 12.
Proof.
  intros HT H. pose proof (numeric_code_range T HT) as HTr.
  rewrite pack_numeric_code in H by exact HT.
  apply pack_numeric_Ok in H. destruct H as [t [z [Ht [_ [Hz [Hzr ->]]]]]].
  apply Ok_inj in Ht. subst t.
  destruct (field_header T 12 (be_bytes 8 z) HTr) as [Hty [Hdecl [_ Hsize]]];
    [lia |].
  rewrite length_be_bytes in Hsize.
  exists z. split; [exact Hz |]. split; [exact Hzr |]. split; [reflexivity |].
  split; [split; lia |]. split; [exact Hty | lia].
Qed.

Lemma values_layout_well_formed (ds : list Z) :
  6 + 9 * Z.of_nat (List.length ds) <= 65535 ->
  let part := values_layout (repeat Byte.x01 (List.length ds)) ds in
  well_formed_part part
  /\ field_type part = TYPE_VALUES
  /\ Z.of_nat (List.length part) = 6 + 9 * Z.of_nat (List.length ds).
Proof.
  intros Hl part.
  destruct (values_layout_header ds Hl) as [Hty [Hdecl [_ [_ [_ Hsize]]]]].
  fold part in Hty, Hdecl, Hsize.
  split; [split; lia |]. split; [exact Hty | exact Hsize].
Qed.

(** Everything a datagram that [dispatch] sent is made of. *)
Lemma dispatch_parts (self : Collectd) (s : Sample) (now : Z) (msg : bytes) :
  sample self = Some s ->
  dispatch self now = Ok msg ->
  exists h p pi ty ti t iv ds fh ft fp fpi fty fiv fti,
    host s = VStr h /\ plugin s = VStr p /\ plugin_instance s = VStr pi
    /\ plugin_type s = VStr ty /\ type_instance s = VStr ti
    /\ get_pylong (py_or (time s) (VFloat now)) = Ok t
    /\ get_pylong (interval self) = Ok iv
    /\ doubles_of (values s) ds
    /\ 6 + 9 * Z.of_nat (List.length ds) <= 65535
    /\ pack (VInt TYPE_HOST) (host s) = Ok fh
    /\ pack (VInt TYPE_TIME) (py_or (time s) (VFloat now)) = Ok ft
    /\ pack (VInt TYPE_PLUGIN) (plugin s) = Ok fp
    /\ pack (VInt TYPE_PLUGIN_INSTANCE) (plugin_instance s) = Ok fpi
    /\ pack (VInt TYPE_TYPE) (plugin_type s) = Ok fty
    /\ pack (VInt TYPE_INTERVAL) (interval self) = Ok fiv
    /\ pack (VInt TYPE_TYPE_INSTANCE) (type_instance s) = Ok fti
    /\ msg = join [fh; ft; fp; fpi; fty; fiv; fti;
                   values_layout (repeat Byte.x01 (List.length ds)) ds].
Proof.
  intros Hs H. apply (dispatch_Ok self s now msg Hs) in H.
  destruct H as [hdr [fti [ds [Hhdr [Hti [Hl [Hds ->]]]]]]].
  apply dispatch_header_Ok in Hhdr.
  destruct Hhdr as [fh [ft [fp [fpi [fty [fiv H]]]]]].
  destruct H as [Hh [Ht [Hp [Hpi [Hty [Hiv ->]]]]]].
  destruct (packed_string_field TYPE_HOST _ _ ltac:(cbn; auto 10) Hh)
    as [h [Eh _]].
  destruct (packed_string_field TYPE_PLUGIN _ _ ltac:(cbn; auto 10) Hp)
    as [p [Ep _]].
  destruct (packed_string_field TYPE_PLUGIN_INSTANCE _ _ ltac:(cbn; auto 10) Hpi)
    as [pi [Epi _]].
  destruct (packed_string_field TYPE_TYPE _ _ ltac:(cbn; auto 10) Hty)
    as [ty [Ety _]].
  destruct (packed_string_field TYPE_TYPE_INSTANCE _ _ ltac:(cbn; auto 10) Hti)
    as [ti [Eti _]].
  destruct (packed_numeric_field TYPE_TIME _ _ ltac:(cbn; auto) Ht)
    as [t [Et _]].
  destruct (packed_numeric_field TYPE_INTERVAL _ _ ltac:(cbn; auto) Hiv)
    as [iv [Eiv _]].
  exists h, p, pi, ty, ti, t, iv, ds, fh, ft, fp, fpi, fty, fiv, fti.
  rewrite <- (doubles_of_length _ _ Hds) in Hl.
  repeat (split; [assumption |]).
  unfold join. cbn [List.concat]. rewrite app_nil_r, <- !app_assoc. reflexivity.
Qed.

Lemma doubles_of_functional (vals : list pyval) (ds ds' : list Z) :
  doubles_of vals ds -> doubles_of vals ds' -> ds = ds'.
Proof.
  intros H. revert ds'.
  induction H as [| v d vals ds Hd _ IH]; intros ds' H'.
  - inversion H'. reflexivity.
  - inversion H' as [| v' d' vals' ds'' Hd' Hrest]. subst.
    rewrite Hd in Hd'. apply Ok_inj in Hd'. subst d'.
    f_equal. apply IH. exact Hrest.
Qed.

Lemma py_or_truthy (a b : pyval) : truthy a = true -> py_or a b = a.
Proof. intros H. unfold py_or. rewrite H. reflexivity. Qed.

(** X1: sending a sample twice.  When the sample has a time that counts as
    set, [dispatch] does not look at the clock: two calls give the same
    result, datagram or exception.  In any case two datagrams of one sample
    differ at most in the 12 bytes of the Time field that follows the Host
    field. *)
Theorem dispatch_twice (self : Collectd) (s : Sample) (now1 now2 : Z) :
  sample self = Some s ->
  (truthy (time s) = true -> dispatch self now1 = dispatch self now2)
  /\ (forall m1 m2,
        dispatch self now1 = Ok m1 ->
        dispatch self now2 = Ok m2 ->
        exists h t1 t2 rest,
          pack (VInt TYPE_HOST) (host s) = Ok h
          /\ m1 = h ++ t1 ++ rest
          /\ m2 = h ++ t2 ++ rest
          /\ List.length t1 = 12%nat
          /\ List.length t2 = 12%nat).
Proof.
  intros Hs. split.
  - intros Htime. unfold dispatch. rewrite Hs. unfold dispatch_header.
    rewrite !py_or_truthy by exact Htime. reflexivity.
  - intros m1 m2 H1 H2.
    destruct (dispatch_parts self s now1 m1 Hs H1)
      as [h [p [pi [ty [ti [t [iv [ds [fh [ft [fp [fpi [fty [fiv [fti P1]]]]]]]]]]]]]]].
    destruct P1 as [_ [_ [_ [_ [_ [_ [_ [Hds [_ P1]]]]]]]]].
    destruct P1 as [Hh [Ht [Hp [Hpi [Hty [Hiv [Hti ->]]]]]]].
    destruct (dispatch_parts self s now2 m2 Hs H2)
      as [h' [p' [pi' [ty' [ti' [t' [iv' [ds' [fh' [ft' [fp' [fpi' [fty' [fiv' [fti' P2]]]]]]]]]]]]]]].
    destruct P2 as [_ [_ [_ [_ [_ [_ [_ [Hds' [_ P2]]]]]]]]].
    destruct P2 as [Hh' [Ht' [Hp' [Hpi' [Hty' [Hiv' [Hti' ->]]]]]]].
    rewrite Hh in Hh'. rewrite Hp in Hp'. rewrite Hpi in Hpi'.
    rewrite Hty in Hty'. rewrite Hiv in Hiv'. rewrite Hti in Hti'.
    apply Ok_inj in Hh', Hp', Hpi', Hty', Hiv', Hti'. subst.
    rewrite (doubles_of_functional _ _ _ Hds' Hds).
    destruct (packed_numeric_field TYPE_TIME _ _ ltac:(cbn; auto) Ht)
      as [z [_ [_ [_ [_ [_ Hl1]]]]]].
    destruct (packed_numeric_field TYPE_TIME _ _ ltac:(cbn; auto) Ht')
      as [z' [_ [_ [_ [_ [_ Hl2]]]]]].
    exists fh', ft, ft',
      (join [fp'; fpi'; fty'; fiv'; fti';
             values_layout (repeat Byte.x01 (List.length ds)) ds]).
    split; [exact Hh |]. split; [reflexivity |]. split; [reflexivity |].
    split; lia.
Qed.

Lemma dispatch_twice_witness :
  dispatch example_self 0 = dispatch example_self 0x41d954fc40000000.
Proof.
  apply (proj1 (dispatch_twice example_self example_sample
                  0 0x41d954fc40000000 eq_refl)).
  reflexivity.
Defined.

(** X2: a datagram is sent only for a sample whose host, plugin, plugin
    instance, type and type instance are all strings, and it is 55 bytes
    longer than these five strings together plus 9 bytes per value. *)
Theorem dispatch_datagram_size
    (self : Collectd) (s : Sample) (now : Z) (msg : bytes) :
  sample self = Some s ->
  dispatch self now = Ok msg ->
  exists h p pi ty ti,
    host s = VStr h
    /\ plugin s = VStr p
    /\ plugin_instance s = VStr pi
    /\ plugin_type s = VStr ty
    /\ type_instance s = VStr ti
    /\ Z.of_nat (List.length msg)
       = 55 + Z.of_nat (List.length h) + Z.of_nat (List.length p)
         + Z.of_nat (List.length pi) + Z.of_nat (List.length ty)
         + Z.of_nat (List.length ti)
         + 9 * Z.of_nat (List.length (values s)).
Proof.
  intros Hs H.
  destruct (dispatch_parts self s now msg Hs H)
    as [h [p [pi [ty [ti [t [iv [ds [fh [ft [fp [fpi [fty [fiv [fti P]]]]]]]]]]]]]]].
  destruct P as [Eh [Ep [Epi [Ety [Eti [_ [_ [Hds [Hl P]]]]]]]]].
  destruct P as [Hh [Ht [Hp [Hpi [Hty [Hiv [Hti ->]]]]]]].
  exists h, p, pi, ty, ti. repeat (split; [assumption |]).
  destruct (packed_string_field TYPE_HOST _ _ ltac:(cbn; auto 10) Hh)
    as [h0 [E0 [_ [_ [_ [_ Lh]]]]]].
  rewrite Eh in E0. injection E0 as <-.
  destruct (packed_string_field TYPE_PLUGIN _ _ ltac:(cbn; auto 10) Hp)
    as [p0 [E0 [_ [_ [_ [_ Lp]]]]]].
  rewrite Ep in E0. injection E0 as <-.
  destruct (packed_string_field TYPE_PLUGIN_INSTANCE _ _ ltac:(cbn; auto 10) Hpi)
    as [pi0 [E0 [_ [_ [_ [_ Lpi]]]]]].
  rewrite Epi in E0. injection E0 as <-.
  destruct (packed_string_field TYPE_TYPE _ _ ltac:(cbn; auto 10) Hty)
    as [ty0 [E0 [_ [_ [_ [_ Lty]]]]]].
  rewrite Ety in E0. injection E0 as <-.
  destruct (packed_string_field TYPE_TYPE_INSTANCE _ _ ltac:(cbn; auto 10) Hti)
    as [ti0 [E0 [_ [_ [_ [_ Lti]]]]]].
  rewrite Eti in E0. injection E0 as <-.
  destruct (packed_numeric_field TYPE_TIME _ _ ltac:(cbn; auto) Ht)
    as [z [_ [_ [_ [_ [_ Lt]]]]]].
  destruct (packed_numeric_field TYPE_INTERVAL _ _ ltac:(cbn; auto) Hiv)
    as [z' [_ [_ [_ [_ [_ Liv]]]]]].
  destruct (values_layout_well_formed ds Hl) as [_ [_ Lv]].
  pose proof (doubles_of_length _ _ Hds) as Hn.
  unfold join. cbn [List.concat]. rewrite app_nil_r, !length_app. lia.
Qed.

Lemma dispatch_datagram_size_witness :
  exists h p pi ty ti,
    host example_sample = VStr h
    /\ plugin example_sample = VStr p
    /\ plugin_instance example_sample = VStr pi
    /\ plugin_type example_sample = VStr ty
    /\ type_instance example_sample = VStr ti
    /\ Z.of_nat (List.length example_datagram)
       = 55 + Z.of_nat (List.length h) + Z.of_nat (List.length p)
         + Z.of_nat (List.length pi) + Z.of_nat (List.length ty)
         + Z.of_nat (List.length ti)
         + 9 * Z.of_nat (List.length (values example_sample)).
Proof.
  exact (dispatch_datagram_size example_self example_sample 0 example_datagram
           eq_refl eq_refl).
Defined.

(** X3: a datagram that [dispatch] sent can be read back part by part: a
    reader that cuts each part at the length it declares finds exactly eight
    parts, each as long as it declares, of types Host, Time, Plugin, Plugin
    Instance, Type, Interval, Type Instance and Values in this order, and
    nothing is left over. *)
Theorem dispatch_datagram_splits
    (self : Collectd) (s : Sample) (now : Z) (msg : bytes) :
  sample self = Some s ->
  dispatch self now = Ok msg ->
  exists parts,
    split_parts (List.length msg) msg = Some parts
    /\ join parts = msg
    /\ Forall well_formed_part parts
    /\ map field_type parts
       = [TYPE_HOST; TYPE_TIME; TYPE_PLUGIN; TYPE_PLUGIN_INSTANCE; TYPE_TYPE;
          TYPE_INTERVAL; TYPE_TYPE_INSTANCE; TYPE_VALUES].
Proof.
  intros Hs H.
  destruct (dispatch_parts self s now msg Hs H)
    as [h [p [pi [ty [ti [t [iv [ds [fh [ft [fp [fpi [fty [fiv [fti P]]]]]]]]]]]]]]].
  destruct P as [_ [_ [_ [_ [_ [_ [_ [_ [Hl P]]]]]]]]].
  destruct P as [Hh [Ht [Hp [Hpi [Hty [Hiv [Hti ->]]]]]]].
  destruct (packed_string_field TYPE_HOST _ _ ltac:(cbn; auto 10) Hh)
    as [? [_ [_ [_ [Wh [Th _]]]]]].
  destruct (packed_string_field TYPE_PLUGIN _ _ ltac:(cbn; auto 10) Hp)
    as [? [_ [_ [_ [Wp [Tp _]]]]]].
  destruct (packed_string_field TYPE_PLUGIN_INSTANCE _ _ ltac:(cbn; auto 10) Hpi)
    as [? [_ [_ [_ [Wpi [Tpi _]]]]]].
  destruct (packed_string_field TYPE_TYPE _ _ ltac:(cbn; auto 10) Hty)
    as [? [_ [_ [_ [Wty [Tty _]]]]]].
  destruct (packed_string_field TYPE_TYPE_INSTANCE _ _ ltac:(cbn; auto 10) Hti)
    as [? [_ [_ [_ [Wti [Tti _]]]]]].
  destruct (packed_numeric_field TYPE_TIME _ _ ltac:(cbn; auto) Ht)
    as [? [_ [_ [_ [Wt [Tt _]]]]]].
  destruct (packed_numeric_field TYPE_INTERVAL _ _ ltac:(cbn; auto) Hiv)
    as [? [_ [_ [_ [Wiv [Tiv _]]]]]].
  destruct (values_layout_well_formed ds Hl) as [Wv [Tv _]].
  set (parts := [fh; ft; fp; fpi; fty; fiv; fti;
                 values_layout (repeat Byte.x01 (List.length ds)) ds]).
  assert (Hwf : Forall well_formed_part parts).
  { unfold parts. repeat (constructor; [assumption |]). constructor. }
  exists parts. split.
  - apply split_parts_join; [exact Hwf |].
    apply length_join_well_formed. exact Hwf.
  - split; [reflexivity |]. split; [exact Hwf |].
    unfold parts. cbn [map]. rewrite Th, Tt, Tp, Tpi, Tty, Tiv, Tti, Tv.
    reflexivity.
Qed.

Lemma dispatch_datagram_splits_witness :
  exists parts,
    split_parts (List.length example_datagram) example_datagram = Some parts
    /\ join parts = example_datagram
    /\ Forall well_formed_part parts
    /\ map field_type parts
       = [TYPE_HOST; TYPE_TIME; TYPE_PLUGIN; TYPE_PLUGIN_INSTANCE; TYPE_TYPE;
          TYPE_INTERVAL; TYPE_TYPE_INSTANCE; TYPE_VALUES].
Proof.
  exact (dispatch_datagram_splits example_self example_sample 0 example_datagram
           eq_refl eq_refl).
Defined.

(** X4: for a sample with a single value, the parts that [dispatch] collects
    after the header, joined, are what [pack_value] returns for the type
    instance and that value: the same bytes, or the same exception. *)
Theorem single_value_body_is_pack_value (s : Sample) (v : pyval) :
  values s = [v] ->
  (parts <- dispatch_value_parts s ;; Ok (join parts))
  = pack_value (type_instance s) v.
Proof.
  intros Hv. unfold dispatch_value_parts, pack_value, pack_value_with.
  rewrite Hv.
  destruct (pack (VInt TYPE_TYPE_INSTANCE) (type_instance s)) as [ti | e];
    cbn [bind]; [| reflexivity].
  change (struct_pack "!HHH"
            [VInt TYPE_VALUES;
             VInt (2 + 2 + 2 + Z.of_nat (List.length [v]) * (1 + 8));
             VInt (Z.of_nat (List.length [v]))])
    with (struct_pack "!HHH" [VInt TYPE_VALUES; VInt 15; VInt 1]).
  destruct (struct_pack "!HHH" [VInt TYPE_VALUES; VInt 15; VInt 1]) as [hd | e];
    cbn [bind]; [| reflexivity].
  rewrite for_append_tags. cbn [bind for_append List.length repeat app].
  rewrite struct_pack_d_eq, struct_pack_Bd_eq, pack_gauge_tag. cbn [bind].
  destruct (get_double v) as [d | e]; cbn [bind]; [| reflexivity].
  unfold join. cbn [List.concat app]. reflexivity.
Qed.

Lemma single_value_body_is_pack_value_witness :
  (parts <- dispatch_value_parts example_sample ;; Ok (join parts))
  = pack_value (VStr (str "ti")) (VFloat 0x4045400000000000).
Proof.
  exact (single_value_body_is_pack_value example_sample
           (VFloat 0x4045400000000000) eq_refl).
Defined.

(** X5: a field tells what was encoded.  Two calls of [pack_string] that
    return the same field were given the same string and type codes of the
    same integer value; two calls of [pack_numeric] that return the same
    field were given type codes and numbers of the same integer value. *)
Theorem equal_fields_equal_content :
  (forall type_code string type_code' string' field,
      pack_string type_code string = Ok field ->
      pack_string type_code' string' = Ok field ->
      get_pylong type_code = get_pylong type_code' /\ string = string')
  /\ (forall type_code number type_code' number' field,
        pack_numeric type_code number = Ok field ->
        pack_numeric type_code' number' = Ok field ->
        get_pylong type_code = get_pylong type_code'
        /\ get_pylong number = get_pylong number').
Proof.
  split.
  - intros tc v tc' v' field H H'.
    apply pack_string_Ok in H. destruct H as [t [s [Ht [Hr [-> [Hl ->]]]]]].
    apply pack_string_Ok in H'. destruct H' as [t' [s' [Ht' [Hr' [-> [Hl' E]]]]]].
    destruct (field_header t (5 + Z.of_nat (List.length s)) (s ++ [Byte.x00]) Hr)
      as [Hty [_ [Hskip _]]]; [lia |].
    destruct (field_header t' (5 + Z.of_nat (List.length s')) (s' ++ [Byte.x00]) Hr')
      as [Hty' [_ [Hskip' _]]]; [lia |].
    rewrite <- E in Hty', Hskip'.
    rewrite Hty in Hty'. rewrite Hskip in Hskip'.
    apply app_inj_tail in Hskip'. destruct Hskip' as [-> _].
    subst t'. rewrite Ht, Ht'. split; reflexivity.
  - intros tc n tc' n' field H H'.
    apply pack_numeric_Ok in H. destruct H as [t [z [Ht [Hr [Hz [Hzr ->]]]]]].
    apply pack_numeric_Ok in H'. destruct H' as [t' [z' [Ht' [Hr' [Hz' [Hzr' E]]]]]].
    destruct (field_header t 12 (be_bytes 8 z) Hr) as [Hty [_ [Hskip _]]]; [lia |].
    destruct (field_header t' 12 (be_bytes 8 z') Hr') as [Hty' [_ [Hskip' _]]];
      [lia |].
    rewrite <- E in Hty', Hskip'.
    rewrite Hty in Hty'. rewrite Hskip in Hskip'. subst t'.
    apply (f_equal be_sint) in Hskip'.
    rewrite !be_sint_be_bytes in Hskip'
      by (try (change (8 * Z.of_nat 8 - 1) with 63); lia).
    subst z'. rewrite Ht, Ht', Hz, Hz'. split; reflexivity.
Qed.

Lemma equal_fields_equal_content_witness :
  get_pylong (VInt TYPE_HOST) = get_pylong (VFloat 0)
  /\ VStr (str "h1") = VStr (str "h1").
Proof.
  apply (proj1 equal_fields_equal_content (VInt TYPE_HOST) (VStr (str "h1"))
           (VFloat 0) (VStr (str "h1"))
           [Byte.x00; Byte.x00; Byte.x00; Byte.x07; Byte.x68; Byte.x31; Byte.x00]);
    reflexivity.
Defined.

Lemma split_at_nul_first (s t : bytes) :
  In Byte.x00 s ->
  exists text after, split_at_nul (s ++ t) = Some (text, after ++ t).
Proof.
  induction s as [| b s IH]; intros Hin; [contradiction |].
  cbn [app split_at_nul].
  destruct (Byte.eqb b Byte.x00) eqn:Hb.
  - exists [], s. reflexivity.
  - destruct Hin as [-> | Hin]; [discriminate Hb |].
    destruct (IH Hin) as [text [after Hsplit]].
    rewrite Hsplit. exists (b :: text), after. reflexivity.
Qed.

(** X6: [pack_string] does not look at the bytes of the string.  A string of
    at most 65530 bytes that holds a NUL byte is encoded like any other, the
    NUL inside the text; the field then holds bytes after its first NUL, and
    the reference parser, which takes the text up to the first NUL, refuses
    it. *)
Theorem pack_string_keeps_embedded_nul (T : Z) (a b : bytes) :
  In T STRING_CODES ->
  5 + Z.of_nat (List.length (a ++ Byte.x00 :: b)) <= 65535 ->
  exists field,
    pack_string (VInt T) (VStr (a ++ Byte.x00 :: b)) = Ok field
    /\ skipn 4 field = (a ++ Byte.x00 :: b) ++ [Byte.x00]
    /\ declared_length field = 5 + Z.of_nat (List.length (a ++ Byte.x00 :: b))
    /\ decode_string field = None.
Proof.
  intros HT Hlen. pose proof (string_code_range T HT) as HTr.
  set (s := a ++ Byte.x00 :: b) in *.
  exists (be_bytes 2 T ++ be_bytes 2 (5 + Z.of_nat (List.length s))
            ++ s ++ [Byte.x00]).
  destruct (field_header T (5 + Z.of_nat (List.length s)) (s ++ [Byte.x00]) HTr)
    as [_ [Hdecl [Hskip _]]]; [lia |].
  split.
  { apply pack_string_Ok. exists T, s. repeat split; try reflexivity; lia. }
  split; [exact Hskip |]. split; [exact Hdecl |].
  unfold decode_string. rewrite Hskip.
  destruct (split_at_nul_first s [Byte.x00]) as [text [after Hsplit]].
  { unfold s. apply in_or_app. right. left. reflexivity. }
  rewrite Hsplit. destruct after; reflexivity.
Qed.

Lemma pack_string_keeps_embedded_nul_witness :
  exists field,
    pack_string (VInt TYPE_HOST) (VStr ([Byte.x68] ++ Byte.x00 :: [Byte.x31]))
      = Ok field
    /\ skipn 4 field = ([Byte.x68] ++ Byte.x00 :: [Byte.x31]) ++ [Byte.x00]
    /\ declared_length field
       = 5 + Z.of_nat (List.length ([Byte.x68] ++ Byte.x00 :: [Byte.x31]))
    /\ decode_string field = None.
Proof.
  apply (pack_string_keeps_embedded_nul TYPE_HOST [Byte.x68] [Byte.x31]).
  - left. reflexivity.
  - cbn. discriminate.
Defined.

(** ** Floats: bit patterns and exact results *)

Lemma decode_normal (m e : Z) :
  2 ^ 52 <= m < 2 ^ 53 ->
  -1074 <= e <= 971 ->
  F64.biased_exp (F64ops.encode m e) = e + 1075
  /\ F64.fraction (F64ops.encode m e) = m - 2 ^ 52
  /\ F64.sign (F64ops.encode m e) = false.
Proof.
  intros Hm He. unfold F64ops.encode.
  replace ((e + 1074) * 2 ^ 52 + m) with ((m - 2 ^ 52) + (e + 1075) * 2 ^ 52)
    by lia.
  split; [| split].
  - unfold F64.biased_exp. rewrite Z.shiftr_div_pow2 by lia.
    rewrite Z.div_add by lia. rewrite Z.div_small by lia.
    change 2047 with (Z.ones 11). rewrite Z.land_ones by lia.
    apply Z.mod_small. cbn. lia.
  - unfold F64.fraction. rewrite Z.land_ones by lia.
    rewrite Z.mod_add by lia. apply Z.mod_small. lia.
  - unfold F64.sign. rewrite Z.testbit_odd, Z.shiftr_div_pow2 by lia.
    rewrite Z.div_small; [reflexivity |].
    assert ((e + 1075) * 2 ^ 52 <= 2046 * 2 ^ 52) by (apply Z.mul_le_mono_nonneg_r; lia).
    lia.
Qed.

Lemma decode_normal_parts (m e : Z) :
  2 ^ 52 <= m < 2 ^ 53 ->
  -1074 <= e <= 971 ->
  F64ops.significand (F64ops.encode m e) = m
  /\ F64ops.exponent (F64ops.encode m e) = e
  /\ F64.is_nan (F64ops.encode m e) = false
  /\ F64.is_inf (F64ops.encode m e) = false
  /\ F64.is_zero (F64ops.encode m e) = false.
Proof.
  intros Hm He. destruct (decode_normal m e Hm He) as [Hexp [Hfrac _]].
  unfold F64ops.significand, F64ops.exponent, F64.is_nan, F64.is_inf, F64.is_zero.
  rewrite Hexp, Hfrac.
  destruct (Z.eqb_spec (e + 1075) 0); [lia |].
  destruct (Z.eqb_spec (e + 1075) 2047); [lia |].
  repeat split; lia.
Qed.

Lemma ratio_ge_true (p q k : Z) :
  F64ops.ratio_ge p q k = true <->
  q * 2 ^ Z.max 0 k <= p * 2 ^ Z.max 0 (- k).
Proof.
  unfold F64ops.ratio_ge. destruct (Z.leb_spec 0 k).
  - rewrite Z.max_r, Z.max_l by lia. rewrite Z.mul_1_r. apply Z.leb_le.
  - rewrite Z.max_l, Z.max_r by lia. rewrite Z.mul_1_r. apply Z.leb_le.
Qed.

(** [floor_log2_ratio] finds the binary order of magnitude of [p / q]. *)
Lemma floor_log2_ratio_spec (p q e : Z) :
  0 < p -> 0 < q ->
  F64ops.ratio_ge p q e = true ->
  F64ops.ratio_ge p q (e + 1) = false ->
  F64ops.floor_log2_ratio p q = e.
Proof.
  intros Hp Hq Hge Hlt.
  set (k := Z.log2 p - Z.log2 q).
  assert (Hlow : e <= k).
  { apply ratio_ge_true in Hge. unfold k.
    apply Z.log2_le_mono in Hge.
    rewrite !Z.log2_mul_pow2 in Hge by lia. lia. }
  assert (Hhigh : k <= e + 1).
  { assert (H : p * 2 ^ Z.max 0 (- (e + 1)) < q * 2 ^ Z.max 0 (e + 1)).
    { destruct (Z.lt_ge_cases (p * 2 ^ Z.max 0 (- (e + 1)))
                  (q * 2 ^ Z.max 0 (e + 1))) as [H | H]; [exact H |].
      apply ratio_ge_true in H. rewrite H in Hlt. discriminate. }
    apply Z.lt_le_incl, Z.log2_le_mono in H.
    rewrite !Z.log2_mul_pow2 in H by lia. unfold k. lia. }
  unfold F64ops.floor_log2_ratio. fold k.
  destruct (Z.eq_dec k e) as [-> | Hne].
  - rewrite Hge. reflexivity.
  - replace k with (e + 1) by lia. rewrite Hlt. lia.
Qed.

(** A ratio that is a normal double is its own rounding. *)
Lemma round_ratio_exact (p q m e : Z) :
  0 < q ->
  2 ^ 52 <= m < 2 ^ 53 ->
  -1074 <= e <= 971 ->
  p * 2 ^ Z.max 0 (- e) = m * q * 2 ^ Z.max 0 e ->
  F64ops.round_ratio p q = F64ops.encode m e.
Proof.
  intros Hq Hm He Hpq.
  assert (Hp : 0 < p).
  { assert (0 < m * q * 2 ^ Z.max 0 e) by (apply Z.mul_pos_pos; [nia | lia]).
    assert (0 < 2 ^ Z.max 0 (- e)) by lia. nia. }
  assert (Hfloor : F64ops.floor_log2_ratio p q = e + 52).
  { apply floor_log2_ratio_spec; try assumption.
    - apply ratio_ge_true.
      destruct (Z.le_gt_cases 0 e) as [He0 | He0].
      + rewrite (Z.max_r 0 (e + 52)), (Z.max_l 0 (- (e + 52))) by lia.
        rewrite (Z.max_l 0 (- e)), (Z.max_r 0 e) in Hpq by lia.
        rewrite Z.pow_add_r by lia. nia.
      + rewrite (Z.max_r 0 (- e)), (Z.max_l 0 e) in Hpq by lia.
        rewrite Z.mul_1_r in Hpq.
        destruct (Z.le_gt_cases 0 (e + 52)) as [H52 | H52].
        * rewrite (Z.max_r 0 (e + 52)), (Z.max_l 0 (- (e + 52))) by lia.
          rewrite Z.mul_1_r.
          assert (E : 2 ^ (- e) * 2 ^ (e + 52) = 2 ^ 52)
            by (rewrite <- Z.pow_add_r by lia; f_equal; lia).
          assert (0 < 2 ^ (- e)) by lia. nia.
        * rewrite (Z.max_l 0 (e + 52)), (Z.max_r 0 (- (e + 52))) by lia.
          rewrite Z.mul_1_r.
          assert (E : 2 ^ (- (e + 52)) * 2 ^ 52 = 2 ^ (- e))
            by (rewrite <- Z.pow_add_r by lia; f_equal; lia).
          assert (0 < 2 ^ (- (e + 52))) by lia. nia.
    - destruct (F64ops.ratio_ge p q (e + 52 + 1)) eqn:Hge; [| reflexivity].
      exfalso. apply ratio_ge_true in Hge.
      destruct (Z.le_gt_cases 0 e) as [He0 | He0].
      + rewrite (Z.max_r 0 (e + 52 + 1)), (Z.max_l 0 (- (e + 52 + 1))) in Hge by lia.
        rewrite (Z.max_l 0 (- e)), (Z.max_r 0 e) in Hpq by lia.
        replace (e + 52 + 1) with (e + 53) in Hge by lia.
        rewrite Z.pow_add_r in Hge by lia.
        assert (0 < 2 ^ e) by lia. nia.
      + rewrite (Z.max_r 0 (- e)), (Z.max_l 0 e) in Hpq by lia.
        rewrite Z.mul_1_r in Hpq.
        destruct (Z.le_gt_cases 0 (e + 53)) as [H53 | H53].
        * rewrite (Z.max_r 0 (e + 52 + 1)), (Z.max_l 0 (- (e + 52 + 1))) in Hge by lia.
          rewrite Z.mul_1_r in Hge.
          assert (E : 2 ^ (- e) * 2 ^ (e + 52 + 1) = 2 ^ 53)
            by (rewrite <- Z.pow_add_r by lia; f_equal; lia).
          assert (0 < 2 ^ (- e)) by lia. nia.
        * rewrite (Z.max_l 0 (e + 52 + 1)), (Z.max_r 0 (- (e + 52 + 1))) in Hge by lia.
          rewrite Z.mul_1_r in Hge.
          assert (E : 2 ^ (- (e + 52 + 1)) * 2 ^ 53 = 2 ^ (- e))
            by (rewrite <- Z.pow_add_r by lia; f_equal; lia).
          assert (0 < 2 ^ (- (e + 52 + 1))) by lia. nia. }
  unfold F64ops.round_ratio.
  destruct (Z.eqb_spec p 0); [lia |].
  rewrite Hfloor, Z.max_l by lia.
  replace (52 - (e + 52)) with (- e) by lia.
  replace (- - e) with e by lia.
  assert (Hdiv : forall num den, 0 < den -> num = m * den ->
                   num / den = m /\ num mod den = 0).
  { intros num den Hden ->. split.
    - apply Z.div_mul. lia.
    - apply Z.mod_mul. lia. }
  destruct (Z.leb_spec 0 (- e)) as [He0 | He0].
  - rewrite (Z.max_r 0 (- e)), (Z.max_l 0 e) in Hpq by lia.
    rewrite Z.mul_1_r in Hpq.
    destruct (Hdiv (p * 2 ^ (- e)) q Hq Hpq) as [-> ->].
    replace (q <? 2 * 0) with false by (symmetry; apply Z.ltb_ge; lia).
    replace (2 * 0 =? q) with false by (symmetry; apply Z.eqb_neq; lia).
    cbn [orb andb].
    replace ((e + 52 + 1022) * 2 ^ 52 + m) with (F64ops.encode m e)
      by (unfold F64ops.encode; lia).
    destruct (Z.leb_spec (2047 * 2 ^ 52) (F64ops.encode m e)) as [Hov |];
      [| reflexivity].
    unfold F64ops.encode in Hov.
    assert ((e + 1074) * 2 ^ 52 <= 2045 * 2 ^ 52)
      by (apply Z.mul_le_mono_nonneg_r; lia).
    lia.
  - rewrite (Z.max_l 0 (- e)), (Z.max_r 0 e) in Hpq by lia.
    rewrite Z.mul_1_r in Hpq.
    assert (Hden : 0 < q * 2 ^ e) by (apply Z.mul_pos_pos; lia).
    destruct (Hdiv p (q * 2 ^ e) Hden ltac:(lia)) as [-> ->].
    replace (q * 2 ^ e <? 2 * 0) with false by (symmetry; apply Z.ltb_ge; lia).
    replace (2 * 0 =? q * 2 ^ e) with false by (symmetry; apply Z.eqb_neq; lia).
    cbn [orb andb].
    replace ((e + 52 + 1022) * 2 ^ 52 + m) with (F64ops.encode m e)
      by (unfold F64ops.encode; lia).
    destruct (Z.leb_spec (2047 * 2 ^ 52) (F64ops.encode m e)) as [Hov |];
      [| reflexivity].
    unfold F64ops.encode in Hov.
    assert ((e + 1074) * 2 ^ 52 <= 2045 * 2 ^ 52)
      by (apply Z.mul_le_mono_nonneg_r; lia).
    lia.
Qed.

Lemma normal_int (n : Z) :
  0 < n < 2 ^ 53 ->
  2 ^ 52 <= n * 2 ^ (52 - Z.log2 n) < 2 ^ 53
  /\ 0 <= Z.log2 n <= 52.
Proof.
  intros Hn.
  destruct (Z.log2_spec n) as [Hlow Hhigh]; [lia |].
  assert (Hl0 : 0 <= Z.log2 n) by apply Z.log2_nonneg.
  assert (Hl : Z.log2 n <= 52).
  { destruct (Z.le_gt_cases (Z.log2 n) 52) as [H | H]; [exact H |].
    assert (2 ^ 53 <= 2 ^ Z.log2 n) by (apply Z.pow_le_mono_r; lia). lia. }
  assert (E52 : 2 ^ Z.log2 n * 2 ^ (52 - Z.log2 n) = 2 ^ 52)
    by (rewrite <- Z.pow_add_r by lia; f_equal; lia).
  assert (E53 : 2 ^ Z.succ (Z.log2 n) * 2 ^ (52 - Z.log2 n) = 2 ^ 53)
    by (rewrite <- Z.pow_add_r by lia; f_equal; lia).
  assert (0 < 2 ^ (52 - Z.log2 n)) by lia.
  split; [nia | lia].
Qed.

(** Every ratio equal to an integer below [2 ^ 53] rounds to that integer. *)
Lemma round_ratio_int (p q n : Z) :
  0 < q -> 0 < n < 2 ^ 53 -> p = n * q ->
  F64ops.round_ratio p q = F64ops.encode_int n.
Proof.
  intros Hq Hn ->. destruct (normal_int n Hn) as [Hm Hl].
  apply round_ratio_exact; try assumption; try lia.
  rewrite Z.max_r, Z.max_l by lia.
  replace (- (Z.log2 n - 52)) with (52 - Z.log2 n) by lia.
  change (2 ^ 0) with 1. lia.
Qed.

Lemma of_Z_small (n : Z) :
  0 < n < 2 ^ 53 -> F64.of_Z n = Some (F64ops.encode_int n).
Proof.
  intros Hn. destruct (normal_int n Hn) as [Hm Hl].
  unfold F64.of_Z.
  destruct (Z.eqb_spec n 0); [lia |].
  rewrite Z.abs_eq by lia.
  destruct (Z.leb_spec (Z.log2 n) 52); [| lia].
  rewrite Z.shiftl_mul_pow2 by lia.
  replace ((Z.log2 n + 1023) * 2 ^ 52 + (n * 2 ^ (52 - Z.log2 n) - 2 ^ 52))
    with (F64ops.encode_int n)
    by (unfold F64ops.encode_int, F64ops.encode; lia).
  assert (Hb : F64ops.encode_int n < 2047 * 2 ^ 52).
  { unfold F64ops.encode_int, F64ops.encode.
    assert ((Z.log2 n - 52 + 1074) * 2 ^ 52 <= 1074 * 2 ^ 52)
      by (apply Z.mul_le_mono_nonneg_r; lia).
    lia. }
  destruct (Z.leb_spec (2047 * 2 ^ 52) (F64ops.encode_int n)); [lia |].
  destruct (Z.ltb_spec n 0); [lia | reflexivity].
Qed.

Lemma trunc_normal (m e : Z) :
  2 ^ 52 <= m < 2 ^ 53 ->
  -1074 <= e <= 971 ->
  F64.trunc (F64ops.encode m e) = if 0 <=? e then m * 2 ^ e else m / 2 ^ (- e).
Proof.
  intros Hm He. destruct (decode_normal m e Hm He) as [Hexp [Hfrac Hsign]].
  unfold F64.trunc. rewrite Hexp, Hfrac, Hsign.
  replace (m - 2 ^ 52 + 2 ^ 52) with m by lia.
  destruct (Z.eqb_spec (e + 1075) 0); [lia |].
  destruct (Z.leb_spec 1075 (e + 1075)), (Z.leb_spec 0 e); try lia.
  - rewrite Z.shiftl_mul_pow2 by lia. f_equal. f_equal. lia.
  - rewrite Z.shiftr_div_pow2 by lia. f_equal. f_equal. lia.
Qed.

(** Multiplying a normal float by a power of two moves its exponent. *)
Lemma mul_pow2 (m e k : Z) :
  2 ^ 52 <= m < 2 ^ 53 ->
  -1074 <= e ->
  0 <= k <= 1000 ->
  e + k <= 971 ->
  F64ops.mul (F64ops.encode m e) (F64ops.encode_pow2 k) = F64ops.encode m (e + k).
Proof.
  intros Hm He Hk Hek.
  destruct (decode_normal m e Hm ltac:(lia)) as [_ [_ Hs1]].
  destruct (decode_normal_parts m e Hm ltac:(lia)) as [Hsig1 [Hexp1 [Hnan1 [Hinf1 _]]]].
  assert (H52 : 2 ^ 52 <= 2 ^ 52 < 2 ^ 53) by lia.
  destruct (decode_normal (2 ^ 52) (k - 52) H52 ltac:(lia)) as [_ [_ Hs2]].
  destruct (decode_normal_parts (2 ^ 52) (k - 52) H52 ltac:(lia))
    as [Hsig2 [Hexp2 [Hnan2 [Hinf2 _]]]].
  unfold F64ops.mul, F64ops.encode_pow2.
  rewrite Hnan1, Hnan2, Hinf1, Hinf2, Hs1, Hs2, Hsig1, Hsig2, Hexp1, Hexp2.
  cbn [orb xorb F64ops.with_sign].
  unfold F64ops.round_scaled.
  destruct (Z.leb_spec 0 (e + (k - 52))) as [Hd | Hd].
  - apply round_ratio_exact; try lia.
    rewrite Z.max_l, Z.max_r by lia.
    replace (e + k) with ((e + (k - 52)) + 52) by lia.
    rewrite (Z.pow_add_r 2 (e + (k - 52)) 52) by lia. lia.
  - apply round_ratio_exact; try lia.
    destruct (Z.le_gt_cases 0 (e + k)) as [Hs | Hs].
    + rewrite Z.max_l, Z.max_r by lia.
      assert (E : 2 ^ (- (e + (k - 52))) * 2 ^ (e + k) = 2 ^ 52)
        by (rewrite <- Z.pow_add_r by lia; f_equal; lia).
      nia.
    + rewrite Z.max_r, Z.max_l by lia.
      assert (E : 2 ^ 52 * 2 ^ (- (e + k)) = 2 ^ (- (e + (k - 52))))
        by (rewrite <- Z.pow_add_r by lia; f_equal; lia).
      nia.
Qed.

(** Dividing a normal float by a power of two moves its exponent the other
    way, as long as the quotient is normal. *)
Lemma div_pow2 (m e k : Z) :
  2 ^ 52 <= m < 2 ^ 53 ->
  e <= 971 ->
  0 <= k <= 1000 ->
  -1074 <= e - k ->
  F64ops.div (F64ops.encode m e) (F64ops.encode_pow2 k)
  = Some (F64ops.encode m (e - k)).
Proof.
  intros Hm He Hk Hek.
  destruct (decode_normal m e Hm ltac:(lia)) as [_ [_ Hs1]].
  destruct (decode_normal_parts m e Hm ltac:(lia)) as [Hsig1 [Hexp1 [Hnan1 [Hinf1 _]]]].
  assert (H52 : 2 ^ 52 <= 2 ^ 52 < 2 ^ 53) by lia.
  destruct (decode_normal (2 ^ 52) (k - 52) H52 ltac:(lia)) as [_ [_ Hs2]].
  destruct (decode_normal_parts (2 ^ 52) (k - 52) H52 ltac:(lia))
    as [Hsig2 [Hexp2 [Hnan2 [Hinf2 Hz2]]]].
  unfold F64ops.div, F64ops.encode_pow2.
  rewrite Hz2, Hnan1, Hnan2, Hinf1, Hinf2, Hs1, Hs2, Hsig1, Hsig2, Hexp1, Hexp2.
  cbn [orb xorb F64ops.with_sign]. f_equal.
  destruct (Z.leb_spec 0 (e - (k - 52))) as [Hd | Hd].
  - apply round_ratio_exact; try lia.
    destruct (Z.le_gt_cases 0 (e - k)) as [Hs | Hs].
    + rewrite Z.max_l, Z.max_r by lia.
      replace (e - (k - 52)) with ((e - k) + 52) by lia.
      rewrite (Z.pow_add_r 2 (e - k) 52) by lia. lia.
    + rewrite Z.max_r, Z.max_l by lia.
      assert (E : 2 ^ (e - (k - 52)) * 2 ^ (- (e - k)) = 2 ^ 52)
        by (rewrite <- Z.pow_add_r by lia; f_equal; lia).
      nia.
  - apply round_ratio_exact; try lia; try (apply Z.mul_pos_pos; lia).
    rewrite Z.max_r, Z.max_l by lia.
    assert (E : 2 ^ (- (e - k)) = 2 ^ 52 * 2 ^ (- (e - (k - 52)))).
    { rewrite <- Z.pow_add_r by lia. f_equal. lia. }
    rewrite E. change (2 ^ 0) with 1. lia.
Qed.

Lemma round_ratio_nat (p q n : Z) :
  0 < q -> 0 <= n < 2 ^ 53 -> p = n * q ->
  F64ops.round_ratio p q = F64ops.encode_nat n.
Proof.
  intros Hq Hn ->. unfold F64ops.encode_nat.
  destruct (Z.eqb_spec n 0) as [-> | Hne]; [reflexivity |].
  apply round_ratio_int with (n := n); lia.
Qed.

(** A natural number below [2 ^ 53] times a power of two, as Python computes
    it in floats and turns it into an integer again: the product itself. *)
Lemma int_of_scaled (n k : Z) :
  0 <= n < 2 ^ 53 ->
  0 <= k <= 80 ->
  int_of_float (F64ops.mul (F64ops.encode_nat n) (F64ops.encode_pow2 k))
  = Units.Return (n * 2 ^ k).
Proof.
  intros Hn Hk. unfold F64ops.encode_nat.
  assert (H52 : 2 ^ 52 <= 2 ^ 52 < 2 ^ 53) by lia.
  destruct (Z.eqb_spec n 0) as [-> | Hne].
  - destruct (decode_normal (2 ^ 52) (k - 52) H52 ltac:(lia)) as [_ [_ Hs2]].
    destruct (decode_normal_parts (2 ^ 52) (k - 52) H52 ltac:(lia))
      as [_ [_ [Hnan2 [Hinf2 _]]]].
    unfold F64ops.mul, F64ops.encode_pow2.
    rewrite Hnan2, Hinf2, Hs2.
    change (F64.is_nan 0) with false. change (F64.is_inf 0) with false.
    change (F64.sign 0) with false. change (F64ops.significand 0) with 0.
    cbn [orb xorb F64ops.with_sign Z.mul].
    unfold F64ops.round_scaled.
    destruct (0 <=? F64ops.exponent 0 + F64ops.exponent (F64ops.encode (2 ^ 52) (k - 52)));
      reflexivity.
  - destruct (normal_int n ltac:(lia)) as [Hm Hl].
    unfold F64ops.encode_int.
    rewrite mul_pow2 by lia.
    set (m := n * 2 ^ (52 - Z.log2 n)) in *.
    set (e := Z.log2 n - 52 + k).
    destruct (decode_normal_parts m e Hm ltac:(unfold e; lia))
      as [_ [_ [Hnan [Hinf _]]]].
    unfold int_of_float. rewrite Hnan, Hinf. f_equal.
    rewrite trunc_normal by (unfold e; lia).
    destruct (Z.leb_spec 0 e) as [He | He].
    + unfold m. rewrite <- Z.mul_assoc, <- Z.pow_add_r by (unfold e in *; lia).
      f_equal. f_equal. unfold e. lia.
    + assert (E : m = n * 2 ^ k * 2 ^ (- e)).
      { unfold m. rewrite <- Z.mul_assoc, <- Z.pow_add_r by (unfold e in *; lia).
        f_equal. f_equal. unfold e. lia. }
      rewrite E. apply Z.div_mul. lia.
Qed.

(** ** The doctests of the unit converters *)

Example bytes2human_doctests :
  map (fun n => bytes2human (apply_format default_format) n (str "customary"))
    [NInt 0; NFloat 0x3feccccccccccccd; NInt 1; NFloat 0x3ffe666666666666;
     NInt 1024; NInt 1048576; NInt 1099511627776127398123789121]
  = map (fun s => Units.Return (str s))
      ["0.0 B"; "0.0 B"; "1.0 B"; "1.0 B"; "1.0 K"; "1.0 M"; "909.5 Y"]%string.
Proof. vm_compute. reflexivity. Qed.

Example bytes2human_symbols_doctests :
  map (bytes2human (apply_format default_format) (NInt 9856))
    (map str ["customary"; "customary_ext"; "iec"; "iec_ext"]%string)
  = map (fun s => Units.Return (str s))
      ["9.6 K"; "9.6 kilo"; "9.6 Ki"; "9.6 kibi"]%string.
Proof. vm_compute. reflexivity. Qed.

Example bytes2human_format_doctests :
  bytes2human (apply_format {| precision := 1; suffix := str "/sec" |})
    (NInt 10000) (str "customary") = Units.Return (str "9.8 K/sec")
  /\ bytes2human (apply_format {| precision := 5; suffix := [] |})
       (NInt 10000) (str "customary") = Units.Return (str "9.76562 K").
Proof. split; vm_compute; reflexivity. Qed.

Example human2bytes_doctests :
  map (fun s => human2bytes SYMBOLS (VStr (str s)))
    ["0 B"; "1 K"; "1 M"; "1 Gi"; "1 tera"; "0.5kilo"; "0.1  byte"; "1 k";
     "12 foo"]%string
  = [Units.Return 0; Units.Return 1024; Units.Return 1048576;
     Units.Return 1073741824; Units.Return 1099511627776; Units.Return 512;
     Units.Return 0; Units.Return 1024; Units.Throw Units.ValueError].
Proof. vm_compute. reflexivity. Qed.

(** ** Strings of the unit converters *)

Lemma take_number_app (num rest : bytes) :
  forallb is_numeric_byte num = true ->
  starts_clean rest = true ->
  take_number (num ++ rest) = (num, rest).
Proof.
  intros Hnum Hrest. induction num as [| b num IH].
  - destruct rest as [| c rest]; [reflexivity |].
    cbn in Hrest. cbn [app take_number].
    unfold is_numeric_byte in Hrest.
    destruct (isdigit c || Byte.eqb c Byte.x2e); [discriminate | reflexivity].
  - cbn [forallb] in Hnum. apply andb_prop in Hnum. destruct Hnum as [Hb Hnum].
    cbn [app take_number]. unfold is_numeric_byte in Hb. rewrite Hb.
    rewrite (IH Hnum). reflexivity.
Qed.

Lemma isdigit_not_dot (b : byte) : isdigit b = true -> Byte.eqb b Byte.x2e = false.
Proof.
  intros H. destruct (Byte.eqb b Byte.x2e) eqn:E; [| reflexivity].
  apply Byte.byte_dec_bl in E. subst b. discriminate H.
Qed.

Lemma digits_are_numeric (ds : bytes) :
  forallb isdigit ds = true -> forallb is_numeric_byte ds = true.
Proof.
  intros H. rewrite forallb_forall in *. intros b Hb.
  unfold is_numeric_byte. rewrite (H b Hb). reflexivity.
Qed.

Lemma split_dot_digits (ds : bytes) :
  forallb isdigit ds = true -> split_dot ds = (ds, None).
Proof.
  induction ds as [| d ds IH]; intros H; [reflexivity |].
  cbn [forallb] in H. apply andb_prop in H. destruct H as [Hd Hds].
  cbn [split_dot]. rewrite (isdigit_not_dot d Hd), (IH Hds). reflexivity.
Qed.

Lemma split_dot_point (ds fs : bytes) :
  forallb isdigit ds = true ->
  split_dot (ds ++ Byte.x2e :: fs) = (ds, Some fs).
Proof.
  induction ds as [| d ds IH]; intros H; [reflexivity |].
  cbn [forallb] in H. apply andb_prop in H. destruct H as [Hd Hds].
  cbn [app split_dot]. rewrite (isdigit_not_dot d Hd), (IH Hds). reflexivity.
Qed.

Lemma digits_value_app (acc : Z) (a b : bytes) :
  digits_value acc (a ++ b) = digits_value (digits_value acc a) b.
Proof.
  revert acc. induction a as [| d a IH]; intros acc; [reflexivity |].
  cbn [app digits_value]. apply IH.
Qed.

Lemma lstrip_spaces (ws rest : bytes) :
  forallb isspace ws = true ->
  lstrip (ws ++ rest) = lstrip rest.
Proof.
  induction ws as [| w ws IH]; intros H; [reflexivity |].
  cbn [forallb] in H. apply andb_prop in H. destruct H as [Hw Hws].
  cbn [app lstrip]. rewrite Hw. apply IH. exact Hws.
Qed.

Lemma lstrip_trimmed (word : bytes) :
  match word with b :: _ => isspace b = false | [] => True end ->
  lstrip word = word.
Proof.
  destruct word as [| b word]; [reflexivity |].
  intros H. cbn [lstrip]. rewrite H. reflexivity.
Qed.

Lemma strip_spaces_word (ws word : bytes) :
  forallb isspace ws = true ->
  trimmed word = true ->
  strip (ws ++ word) = word.
Proof.
  intros Hws Hword. unfold strip. rewrite lstrip_spaces by exact Hws.
  unfold trimmed in Hword.
  destruct word as [| first word']; [discriminate |].
  destruct (rev (first :: word')) as [| last front] eqn:Hrev; [discriminate |].
  apply andb_prop in Hword. destruct Hword as [Hfirst Hlast].
  apply negb_true_iff in Hfirst, Hlast.
  rewrite (lstrip_trimmed (first :: word') Hfirst), Hrev.
  rewrite (lstrip_trimmed (last :: front) Hlast), <- Hrev.
  apply rev_involutive.
Qed.

Lemma float_of_digits_whole (ds : bytes) :
  forallb isdigit ds = true ->
  ds <> [] ->
  0 <= digits_value 0 ds < 2 ^ 53 ->
  float_of_digits ds = Units.Return (F64ops.encode_nat (digits_value 0 ds)).
Proof.
  intros Hds Hne Hn. unfold float_of_digits.
  rewrite (split_dot_digits ds Hds), app_nil_r, Hds. cbn [forallb andb].
  destruct ds as [| d ds']; [contradiction |].
  cbn [List.length Nat.eqb negb]. f_equal.
  apply round_ratio_nat; [reflexivity | exact Hn | lia].
Qed.

(** ** The symbol sets *)

Lemma bytes_eqb_eq (a b : bytes) : bytes_eqb a b = true <-> a = b.
Proof.
  unfold bytes_eqb. destruct (list_eq_dec Byte.byte_eq_dec a b); split;
    intros H; try reflexivity; try assumption; try discriminate; contradiction.
Qed.

Lemma existsb_bytes_eqb (letter : bytes) (sset : list bytes) :
  existsb (bytes_eqb letter) sset = true <-> In letter sset.
Proof.
  rewrite existsb_exists. split.
  - intros [x [Hx E]]. apply bytes_eqb_eq in E. subst x. exact Hx.
  - intros H. exists letter. split; [exact H | apply bytes_eqb_eq; reflexivity].
Qed.

Lemma find_sset_some (items : list (bytes * list bytes)) (letter : bytes)
    (sset : list bytes) :
  find_sset items letter = Some sset ->
  In sset (map snd items) /\ In letter sset.
Proof.
  unfold find_sset. intros H.
  destruct (find (fun item => existsb (bytes_eqb letter) (snd item)) items)
    as [item |] eqn:E; [| discriminate].
  cbn in H. injection H as <-.
  apply find_some in E. destruct E as [Hin Hex].
  split; [apply in_map; exact Hin | apply existsb_bytes_eqb; exact Hex].
Qed.

Lemma find_sset_none (items : list (bytes * list bytes)) (letter : bytes) :
  find_sset items letter = None <->
  (forall sset, In sset (map snd items) -> ~ In letter sset).
Proof.
  unfold find_sset. split.
  - intros H sset Hin Hletter.
    destruct (find (fun item => existsb (bytes_eqb letter) (snd item)) items)
      as [item |] eqn:E; [discriminate |].
    apply in_map_iff in Hin. destruct Hin as [item [<- Hitem]].
    pose proof (find_none _ _ E item Hitem) as Hf. cbn in Hf.
    apply existsb_bytes_eqb in Hletter. rewrite Hletter in Hf. discriminate.
  - intros H.
    destruct (find (fun item => existsb (bytes_eqb letter) (snd item)) items)
      as [item |] eqn:E; [| reflexivity].
    apply find_some in E. destruct E as [Hin Hex]. exfalso.
    apply (H (snd item)); [apply in_map; exact Hin |].
    apply existsb_bytes_eqb. exact Hex.
Qed.

(** Every symbol, at the index it has in its set: it is a word without
    spaces that does not start like a number, and the factor found for it is
    [2 ^ (10 i)], also by a lookup that starts from the sets in source
    order. *)
Lemma symbol_facts (sset : list bytes) (i : nat) (sym : bytes) :
  In sset symbol_sets ->
  nth_error sset i = Some sym ->
  (i <= 8)%nat
  /\ trimmed sym = true
  /\ starts_clean sym = true
  /\ unit_factor (sset, sym) = Units.Return (2 ^ (10 * Z.of_nat i))
  /\ factor_of_letter SYMBOLS sym = Units.Return (2 ^ (10 * Z.of_nat i))
  /\ float_of_int (2 ^ (10 * Z.of_nat i))
     = Units.Return (F64ops.encode_pow2 (10 * Z.of_nat i)).
Proof.
  intros Hin Hnth. cbn in Hin.
  repeat (destruct Hin as [<- | Hin]); [.. | contradiction];
    (do 9 (destruct i as [| i];
           [cbn in Hnth; injection Hnth as <-;
            split; [lia |]; vm_compute; repeat split; reflexivity |]);
     cbn in Hnth; destruct i; discriminate Hnth).
Qed.

Lemma and_then_assoc {A B C : Type} (m : Units.outcome A)
    (f : A -> Units.outcome B) (g : B -> Units.outcome C) :
  (y <~ (x <~ m ;; f x) ;; g y) = (x <~ m ;; y <~ f x ;; g y).
Proof. destruct m; reflexivity. Qed.

(** [human2bytes] in terms of the factor found for the letter. *)
Lemma human2bytes_unfold (items : list (bytes * list bytes)) (s0 : bytes) :
  human2bytes items (VStr s0)
  = (num <~ float_of_digits (fst (take_number s0)) ;;
     p <~ factor_of_letter items (strip (snd (take_number s0))) ;;
     fp <~ float_of_int p ;;
     int_of_float (F64ops.mul num fp)).
Proof.
  unfold human2bytes, factor_of_letter.
  destruct (take_number s0) as [num s1]. cbn [fst snd].
  destruct (float_of_digits num) as [x | e]; [| reflexivity].
  cbn [Units.and_then]. rewrite and_then_assoc. reflexivity.
Qed.

(** The factor found for a letter does not depend on the order in which the
    symbol sets are tried. *)
Lemma factor_of_letter_perm (items : list (bytes * list bytes)) (letter : bytes) :
  Permutation.Permutation items SYMBOLS ->
  factor_of_letter items letter = factor_of_letter SYMBOLS letter.
Proof.
  intros Hperm. unfold factor_of_letter at 1, choose_unit.
  destruct (find_sset items letter) as [sset |] eqn:E.
  - apply find_sset_some in E. destruct E as [Hin Hletter].
    assert (Hset : In sset symbol_sets).
    { unfold symbol_sets.
      apply (Permutation.Permutation_in sset
               (Permutation.Permutation_map snd Hperm) Hin). }
    apply In_nth_error in Hletter. destruct Hletter as [i Hi].
    destruct (symbol_facts sset i letter Hset Hi) as [_ [_ [_ [Hf [Href _]]]]].
    cbn [Units.and_then]. rewrite Hf, Href. reflexivity.
  - assert (E' : find_sset SYMBOLS letter = None).
    { apply find_sset_none. intros sset Hin.
      apply (proj1 (find_sset_none items letter) E).
      apply (Permutation.Permutation_in sset
               (Permutation.Permutation_map snd (Permutation.Permutation_sym Hperm))
               Hin). }
    unfold factor_of_letter, choose_unit. rewrite E'. reflexivity.
Qed.

(** X7: [human2bytes] does not depend on the order in which the dict
    [SYMBOLS] hands out its four symbol sets: whatever the order of
    [SYMBOLS.items()], the result is that of the order of the source, for
    every argument. *)
Theorem human2bytes_any_order (items : list (bytes * list bytes)) (s : pyval) :
  Permutation.Permutation items SYMBOLS ->
  human2bytes items s = human2bytes SYMBOLS s.
Proof.
  intros Hperm. destruct s as [| z | b | s0]; try reflexivity.
  rewrite !human2bytes_unfold.
  rewrite (factor_of_letter_perm items _ Hperm). reflexivity.
Qed.

Lemma human2bytes_any_order_witness :
  human2bytes (rev SYMBOLS) (VStr (str "1 byte"))
  = human2bytes SYMBOLS (VStr (str "1 byte")).
Proof.
  apply (human2bytes_any_order (rev SYMBOLS) (VStr (str "1 byte"))).
  apply Permutation.Permutation_sym, Permutation.Permutation_rev.
Defined.

Lemma digits_value_bounds (acc : Z) (ds : bytes) :
  forallb isdigit ds = true ->
  0 <= acc ->
  acc <= digits_value acc ds.
Proof.
  revert acc. induction ds as [| d ds IH]; intros acc Hds Hacc; [cbn; lia |].
  cbn [forallb] in Hds. apply andb_prop in Hds. destruct Hds as [Hd Hds].
  cbn [digits_value].
  assert (0 <= digit_value d <= 9).
  { unfold isdigit in Hd. apply andb_prop in Hd. destruct Hd as [H1 H2].
    apply Z.leb_le in H1, H2. unfold digit_value. lia. }
  specialize (IH (10 * acc + digit_value d) Hds ltac:(lia)). lia.
Qed.

Lemma space_not_numeric (b : byte) :
  isspace b = true -> is_numeric_byte b = false.
Proof. destruct b; intros H; try discriminate H; reflexivity. Qed.

Lemma starts_clean_after_spaces (ws word : bytes) :
  forallb isspace ws = true ->
  starts_clean word = true ->
  starts_clean (ws ++ word) = true.
Proof.
  intros Hws Hword. destruct ws as [| w ws]; [exact Hword |].
  cbn [forallb] in Hws. apply andb_prop in Hws. destruct Hws as [Hw _].
  cbn [app starts_clean]. rewrite (space_not_numeric w Hw). reflexivity.
Qed.

(** X8: a whole number with a unit.  For decimal digits [ds] of a number
    [n] below [2 ^ 53], any white space [ws] (none, too) and the symbol at
    index [i] of any of the four symbol sets, [human2bytes] returns
    [n * 2 ^ (10 i)]; and [k] counts as [K]: it gives [n * 1024]. *)
Theorem human2bytes_whole_number
    (items : list (bytes * list bytes)) (ds ws : bytes) :
  Permutation.Permutation items SYMBOLS ->
  forallb isdigit ds = true ->
  ds <> [] ->
  digits_value 0 ds < 2 ^ 53 ->
  forallb isspace ws = true ->
  (forall sset i sym,
      In sset symbol_sets ->
      nth_error sset i = Some sym ->
      human2bytes items (VStr (ds ++ ws ++ sym))
      = Units.Return (digits_value 0 ds * 2 ^ (10 * Z.of_nat i)))
  /\ human2bytes items (VStr (ds ++ ws ++ str "k"))
     = Units.Return (digits_value 0 ds * 1024).
Proof.
  intros Hperm Hds Hne Hn Hws.
  pose proof (digits_value_bounds 0 ds Hds ltac:(lia)) as Hn0.
  assert (Hstep : forall word k,
             trimmed word = true ->
             starts_clean word = true ->
             0 <= k <= 80 ->
             factor_of_letter SYMBOLS word = Units.Return (2 ^ k) ->
             float_of_int (2 ^ k) = Units.Return (F64ops.encode_pow2 k) ->
             human2bytes items (VStr (ds ++ ws ++ word))
             = Units.Return (digits_value 0 ds * 2 ^ k)).
  { intros word k Htrim Hclean Hk Hfactor Hfloat.
    rewrite human2bytes_unfold.
    rewrite (take_number_app ds (ws ++ word))
      by (try apply digits_are_numeric; try apply starts_clean_after_spaces;
          assumption).
    cbn [fst snd].
    rewrite (float_of_digits_whole ds Hds Hne) by lia. cbn [Units.and_then].
    rewrite (strip_spaces_word ws word Hws Htrim).
    rewrite (factor_of_letter_perm items word Hperm), Hfactor.
    cbn [Units.and_then]. rewrite Hfloat. cbn [Units.and_then].
    apply int_of_scaled; lia. }
  split.
  - intros sset i sym Hset Hnth.
    destruct (symbol_facts sset i sym Hset Hnth)
      as [Hi [Htrim [Hclean [_ [Hfactor Hfloat]]]]].
    apply Hstep; try assumption. lia.
  - apply (Hstep (str "k") 10); try reflexivity. lia.
Qed.

Lemma human2bytes_whole_number_witness :
  human2bytes SYMBOLS (VStr (str "12" ++ str " " ++ str "tera"))
  = Units.Return (digits_value 0 (str "12") * 2 ^ (10 * Z.of_nat 4)).
Proof.
  apply (proj1 (human2bytes_whole_number SYMBOLS (str "12") (str " ")
                  (Permutation.Permutation_refl SYMBOLS) eq_refl
                  ltac:(discriminate) eq_refl eq_refl)
           (map str ["byte"; "kilo"; "mega"; "giga"; "tera"; "peta"; "exa";
                     "zetta"; "iotta"]%string)
           4%nat (str "tera")).
  - right. left. reflexivity.
  - reflexivity.
Defined.

(** ** What human2bytes can return *)

Lemma round_ratio_range (p q : Z) :
  0 <= p -> 0 < q -> 0 <= F64ops.round_ratio p q <= F64ops.inf.
Proof.
  intros Hp Hq. unfold F64ops.round_ratio.
  destruct (Z.eqb_spec p 0); [cbv; split; discriminate |].
  set (ex := Z.max (F64ops.floor_log2_ratio p q) (-1022)).
  assert (Hex : -1022 <= ex) by (unfold ex; lia).
  set (num := if 0 <=? 52 - ex then p * 2 ^ (52 - ex) else p).
  set (den := if 0 <=? 52 - ex then q else q * 2 ^ (- (52 - ex))).
  assert (Hnum : 0 <= num).
  { unfold num. destruct (0 <=? 52 - ex); [apply Z.mul_nonneg_nonneg |]; lia. }
  assert (Hden : 0 < den).
  { unfold den. destruct (Z.leb_spec 0 (52 - ex)); [lia |].
    apply Z.mul_pos_pos; lia. }
  assert (Ht : 0 <= num / den) by (apply Z.div_pos; lia).
  set (sig := if (den <? 2 * (num mod den))
                 || ((2 * (num mod den) =? den) && Z.odd (num / den))
              then num / den + 1 else num / den).
  assert (Hsig : 0 <= sig).
  { unfold sig.
    destruct ((den <? 2 * (num mod den))
              || ((2 * (num mod den) =? den) && Z.odd (num / den))); lia. }
  assert (Hmag : 0 <= (ex + 1022) * 2 ^ 52 + sig).
  { assert (0 <= (ex + 1022) * 2 ^ 52) by (apply Z.mul_nonneg_nonneg; lia). lia. }
  destruct (Z.leb_spec (2047 * 2 ^ 52) ((ex + 1022) * 2 ^ 52 + sig)).
  - cbv. split; discriminate.
  - change F64ops.inf with (2047 * 2 ^ 52). lia.
Qed.

Lemma float_range_facts (b : Z) :
  0 <= b <= F64ops.inf ->
  F64.is_nan b = false
  /\ F64.sign b = false
  /\ 0 <= F64.trunc b
  /\ 0 <= F64ops.significand b
  /\ (F64.is_inf b = true -> F64.is_zero b = false).
Proof.
  intros Hb. change F64ops.inf with (2047 * 2 ^ 52) in Hb.
  assert (Hfrac : 0 <= F64.fraction b).
  { unfold F64.fraction. apply Z.land_nonneg. left. lia. }
  assert (Hsign : F64.sign b = false).
  { unfold F64.sign. rewrite Z.testbit_odd, Z.shiftr_div_pow2 by lia.
    rewrite Z.div_small; [reflexivity | lia]. }
  split; [| split; [exact Hsign | split; [| split]]].
  - unfold F64.is_nan.
    destruct (Z.eq_dec b (2047 * 2 ^ 52)) as [-> | Hne]; [reflexivity |].
    assert (Hexp : F64.biased_exp b < 2047).
    { unfold F64.biased_exp. rewrite Z.shiftr_div_pow2 by lia.
      change 2047 with (Z.ones 11) at 1. rewrite Z.land_ones by lia.
      assert (b / 2 ^ 52 < 2047) by (apply Z.div_lt_upper_bound; lia).
      assert (0 <= b / 2 ^ 52) by (apply Z.div_pos; lia).
      rewrite Z.mod_small; lia. }
    destruct (Z.eqb_spec (F64.biased_exp b) 2047); [lia | reflexivity].
  - unfold F64.trunc. rewrite Hsign.
    destruct (F64.biased_exp b =? 0); [lia |].
    destruct (1075 <=? F64.biased_exp b).
    + apply Z.shiftl_nonneg. lia.
    + apply Z.shiftr_nonneg. lia.
  - unfold F64ops.significand. destruct (F64.biased_exp b =? 0); lia.
  - unfold F64.is_inf, F64.is_zero. intros H.
    apply andb_prop in H. destruct H as [H _]. apply Z.eqb_eq in H.
    rewrite H. reflexivity.
Qed.

Lemma mul_pow2_range (b k : Z) :
  0 <= b <= F64ops.inf ->
  0 <= k <= 80 ->
  0 <= F64ops.mul b (F64ops.encode_pow2 k) <= F64ops.inf.
Proof.
  intros Hb Hk.
  destruct (float_range_facts b Hb) as [Hnan [Hsign [_ [Hsig Hinfz]]]].
  assert (H52 : 2 ^ 52 <= 2 ^ 52 < 2 ^ 53) by lia.
  destruct (decode_normal (2 ^ 52) (k - 52) H52 ltac:(lia)) as [_ [_ Hs2]].
  destruct (decode_normal_parts (2 ^ 52) (k - 52) H52 ltac:(lia))
    as [Hsig2 [_ [Hnan2 [Hinf2 Hz2]]]].
  unfold F64ops.mul, F64ops.encode_pow2.
  rewrite Hnan, Hnan2, Hinf2, Hz2, Hsign, Hs2, Hsig2.
  cbn [orb xorb F64ops.with_sign].
  destruct (F64.is_inf b) eqn:Hinf.
  - rewrite (Hinfz eq_refl). cbn [orb]. cbv. split; discriminate.
  - cbn [orb]. unfold F64ops.round_scaled.
    assert (0 <= F64ops.significand b * 2 ^ 52) by (apply Z.mul_nonneg_nonneg; lia).
    destruct (Z.leb_spec 0 (F64ops.exponent b
                             + F64ops.exponent (F64ops.encode (2 ^ 52) (k - 52)))).
    + apply round_ratio_range; [apply Z.mul_nonneg_nonneg; lia | lia].
    + apply round_ratio_range; lia.
Qed.

Lemma float_of_digits_range (num : bytes) (b : Z) :
  float_of_digits num = Units.Return b -> 0 <= b <= F64ops.inf.
Proof.
  unfold float_of_digits. destruct (split_dot num) as [whole after].
  set (frac := match after with Some f => f | None => [] end).
  destruct (forallb isdigit whole) eqn:Hw; [| discriminate].
  destruct (forallb isdigit frac) eqn:Hf; [| discriminate].
  cbn [andb].
  destruct (negb (Nat.eqb (List.length (whole ++ frac)) 0)); [| discriminate].
  intros H. injection H as <-.
  apply round_ratio_range; [| lia].
  apply (digits_value_bounds 0 (whole ++ frac)); [| lia].
  rewrite forallb_app, Hw, Hf. reflexivity.
Qed.

Lemma float_of_digits_error (num : bytes) (e : Units.exc) :
  float_of_digits num = Units.Throw e -> e = Units.ValueError.
Proof.
  unfold float_of_digits. destruct (split_dot num) as [whole after].
  match goal with
  | |- (if ?c then _ else _) = _ -> _ => destruct c
  end; intros H; [discriminate H | injection H as <-; reflexivity].
Qed.

(** The factor of a letter: a power of 1024 that is a double, or the
    ValueError of an unknown letter. *)
Lemma factor_of_letter_cases (items : list (bytes * list bytes)) (letter : bytes) :
  Permutation.Permutation items SYMBOLS ->
  factor_of_letter items letter = Units.Throw Units.ValueError
  \/ exists i : nat,
       (i <= 8)%nat
       /\ factor_of_letter items letter = Units.Return (2 ^ (10 * Z.of_nat i))
       /\ float_of_int (2 ^ (10 * Z.of_nat i))
          = Units.Return (F64ops.encode_pow2 (10 * Z.of_nat i)).
Proof.
  intros Hperm. rewrite (factor_of_letter_perm items letter Hperm).
  destruct (find_sset SYMBOLS letter) as [sset |] eqn:E.
  - apply find_sset_some in E. destruct E as [Hin Hletter].
    apply In_nth_error in Hletter. destruct Hletter as [i Hi].
    destruct (symbol_facts sset i letter Hin Hi) as [Hle [_ [_ [_ [Href Hfl]]]]].
    right. exists i. auto.
  - unfold factor_of_letter, choose_unit. rewrite E.
    destruct (bytes_eqb letter (str "k")) eqn:Hk.
    + apply bytes_eqb_eq in Hk. subst letter.
      right. exists 1%nat. split; [lia |]. split; reflexivity.
    + left. reflexivity.
Qed.

(** X9: what [human2bytes] does with a string, whatever the string.  It
    returns an integer that is not negative, or raises ValueError, or (for a
    number beyond the largest float) OverflowError, and nothing else; when
    what follows the number is, once stripped, neither a symbol of the four
    sets nor [k], it raises ValueError. *)
Theorem human2bytes_outcomes (items : list (bytes * list bytes)) (s0 : bytes) :
  Permutation.Permutation items SYMBOLS ->
  (human2bytes items (VStr s0) = Units.Throw Units.ValueError
   \/ human2bytes items (VStr s0) = Units.Throw Units.OverflowError
   \/ exists z, 0 <= z /\ human2bytes items (VStr s0) = Units.Return z)
  /\ ((forall sset, In sset symbol_sets ->
         ~ In (strip (snd (take_number s0))) sset) ->
      strip (snd (take_number s0)) <> str "k" ->
      human2bytes items (VStr s0) = Units.Throw Units.ValueError).
Proof.
  intros Hperm. rewrite human2bytes_unfold.
  set (letter := strip (snd (take_number s0))).
  split.
  - destruct (float_of_digits (fst (take_number s0))) as [x | e] eqn:Hnum.
    2: { left. rewrite (float_of_digits_error _ _ Hnum). reflexivity. }
    cbn [Units.and_then].
    destruct (factor_of_letter_cases items letter Hperm)
      as [Hf | [i [Hi [Hf Hfl]]]]; rewrite Hf; cbn [Units.and_then].
    + left. reflexivity.
    + rewrite Hfl. cbn [Units.and_then].
      pose proof (float_of_digits_range _ _ Hnum) as Hx.
      pose proof (mul_pow2_range x (10 * Z.of_nat i) Hx ltac:(lia)) as Hr.
      destruct (float_range_facts _ Hr) as [Hnan [_ [Htrunc _]]].
      unfold int_of_float. rewrite Hnan.
      destruct (F64.is_inf _).
      * right. left. reflexivity.
      * right. right. eexists. split; [exact Htrunc | reflexivity].
  - intros Hunknown Hk.
    assert (Hf : factor_of_letter items letter = Units.Throw Units.ValueError).
    { rewrite (factor_of_letter_perm items letter Hperm).
      unfold factor_of_letter, choose_unit.
      rewrite (proj2 (find_sset_none SYMBOLS letter) Hunknown).
      destruct (bytes_eqb letter (str "k")) eqn:E; [| reflexivity].
      apply bytes_eqb_eq in E. contradiction. }
    destruct (float_of_digits (fst (take_number s0))) as [x | e] eqn:Hnum.
    + cbn [Units.and_then]. rewrite Hf. reflexivity.
    + rewrite (float_of_digits_error _ _ Hnum). reflexivity.
Qed.

Lemma human2bytes_outcomes_witness :
  human2bytes SYMBOLS (VStr (str "12 foo")) = Units.Throw Units.ValueError.
Proof.
  apply (proj2 (human2bytes_outcomes SYMBOLS (str "12 foo")
                  (Permutation.Permutation_refl SYMBOLS))).
  - intros sset Hin Hfoo. cbn in Hin.
    repeat (destruct Hin as [<- | Hin];
            [cbn in Hfoo;
             repeat (destruct Hfoo as [Hfoo | Hfoo]; [discriminate Hfoo |]);
             exact Hfoo |]).
    exact Hin.
  - discriminate.
Defined.

(** ** The unit bytes2human picks *)

Lemma pick_symbol_skip (format : pyval -> bytes -> Units.outcome bytes)
    (n : Z) (prefix : list (bytes * Z)) (symbol : bytes) (rest : list bytes)
    (otherwise : Units.outcome bytes) (p : Z) :
  dict_get prefix symbol = Some p ->
  n < p ->
  pick_symbol format n prefix (symbol :: rest) otherwise
  = pick_symbol format n prefix rest otherwise.
Proof.
  intros Hget Hlt. cbn [pick_symbol]. rewrite Hget. cbn [Units.or_throw Units.and_then].
  destruct (Z.leb_spec p n); [lia | reflexivity].
Qed.

Lemma pick_symbol_hit (format : pyval -> bytes -> Units.outcome bytes)
    (n : Z) (prefix : list (bytes * Z)) (symbol : bytes) (rest : list bytes)
    (otherwise : Units.outcome bytes) (p : Z) :
  dict_get prefix symbol = Some p ->
  p <= n ->
  pick_symbol format n prefix (symbol :: rest) otherwise
  = (fn <~ float_of_int n ;;
     fp <~ float_of_int p ;;
     value <~ Units.or_throw (F64ops.div fn fp) Units.ZeroDivisionError ;;
     format (VFloat value) symbol).
Proof.
  intros Hget Hle. cbn [pick_symbol]. rewrite Hget. cbn [Units.or_throw Units.and_then].
  destruct (Z.leb_spec p n); [reflexivity | lia].
Qed.

Lemma symbols_of_key (key : bytes) (syms : list bytes) :
  dict_get SYMBOLS key = Some syms -> In syms symbol_sets.
Proof.
  unfold SYMBOLS, symbol_sets. cbn [dict_get map snd].
  repeat match goal with
         | |- (if ?c then _ else _) = _ -> _ => destruct c
         end; intros H; try discriminate H; injection H as <-; cbn; auto.
Qed.

(** Closed powers of two, computed. *)
Ltac compute_pow2 :=
  repeat match goal with
         | H : context [2 ^ (10 * Z.of_nat ?i)] |- _ =>
             let v := eval vm_compute in (2 ^ (10 * Z.of_nat i)) in
             progress change (2 ^ (10 * Z.of_nat i)) with v in H
         end.

Lemma pick_symbol_unit (format : pyval -> bytes -> Units.outcome bytes)
    (syms : list bytes) (i : nat) (sym : bytes) (n : Z)
    (otherwise : Units.outcome bytes) :
  In syms symbol_sets ->
  (1 <= i <= 8)%nat ->
  nth_error syms i = Some sym ->
  2 ^ (10 * Z.of_nat i) <= n ->
  ((i < 8)%nat -> n < 2 ^ (10 * Z.of_nat (i + 1))) ->
  pick_symbol format n (fill_prefix 0 (tl syms) []) (rev (tl syms)) otherwise
  = (fn <~ float_of_int n ;;
     fp <~ float_of_int (2 ^ (10 * Z.of_nat i)) ;;
     value <~ Units.or_throw (F64ops.div fn fp) Units.ZeroDivisionError ;;
     format (VFloat value) sym).
Proof.
  intros Hin Hi Hnth Hlow Hhigh. cbn in Hin.
  repeat (destruct Hin as [<- | Hin]); [.. | contradiction];
    (destruct i as [| i]; [lia |]);
    (do 8 (destruct i as [| i];
           [cbn in Hnth; injection Hnth as <-;
            try specialize (Hhigh ltac:(lia));
            cbn [Nat.add] in *; compute_pow2;
            cbn [tl rev app];
            repeat (erewrite pick_symbol_skip; [| vm_compute; reflexivity | lia]);
            erewrite pick_symbol_hit; [reflexivity | vm_compute; reflexivity | lia]
           |]));
    lia.
Qed.

(** X10: the unit [bytes2human] picks for an integer [n >= 0] and one of the
    four symbol sets.  Below 1024 it formats [n] itself, as an integer, with
    the first symbol.  From 1024 on it formats the float [float(n) / 2 ^ (10 i)]
    with the symbol at index [i], where [i] is the largest index from 1 to
    8 with [2 ^ (10 i) <= n]. *)
Theorem bytes2human_unit (format : pyval -> bytes -> Units.outcome bytes)
    (key : bytes) (syms : list bytes) (n : Z) :
  dict_get SYMBOLS key = Some syms ->
  0 <= n ->
  (n < 1024 ->
   exists first,
     hd_error syms = Some first
     /\ bytes2human format (NInt n) key = format (VInt n) first)
  /\ (forall i sym,
        (1 <= i <= 8)%nat ->
        nth_error syms i = Some sym ->
        2 ^ (10 * Z.of_nat i) <= n ->
        ((i < 8)%nat -> n < 2 ^ (10 * Z.of_nat (i + 1))) ->
        bytes2human format (NInt n) key
        = (fn <~ float_of_int n ;;
           fp <~ float_of_int (2 ^ (10 * Z.of_nat i)) ;;
           value <~ Units.or_throw (F64ops.div fn fp) Units.ZeroDivisionError ;;
           format (VFloat value) sym)).
Proof.
  intros Hkey Hn. pose proof (symbols_of_key key syms Hkey) as Hset.
  assert (Hstart : bytes2human format (NInt n) key
                   = pick_symbol format n (fill_prefix 0 (tl syms) [])
                       (rev (tl syms))
                       (first <~ Units.or_throw (hd_error syms) Units.IndexError ;;
                        format (VInt n) first)).
  { unfold bytes2human. cbn [int_of_number Units.and_then].
    destruct (Z.ltb_spec n 0); [lia |]. rewrite Hkey. reflexivity. }
  split.
  - intros Hsmall. rewrite Hstart. clear Hstart Hkey. cbn in Hset.
    repeat (destruct Hset as [<- | Hset]); [.. | contradiction];
      (eexists; split; [reflexivity |]; cbn [tl rev app];
       repeat (erewrite pick_symbol_skip; [| vm_compute; reflexivity | lia]);
       reflexivity).
  - intros i sym Hi Hnth Hlow Hhigh. rewrite Hstart.
    apply pick_symbol_unit; assumption.
Qed.

Lemma bytes2human_unit_witness :
  bytes2human (apply_format default_format) (NInt 9856) (str "customary")
  = (fn <~ float_of_int 9856 ;;
     fp <~ float_of_int (2 ^ (10 * Z.of_nat 1)) ;;
     value <~ Units.or_throw (F64ops.div fn fp) Units.ZeroDivisionError ;;
     apply_format default_format (VFloat value) (str "K")).
Proof.
  apply (proj2 (bytes2human_unit (apply_format default_format) (str "customary")
                  (map str ["B"; "K"; "M"; "G"; "T"; "P"; "E"; "Z"; "Y"]%string)
                  9856 eq_refl ltac:(lia))
           1%nat (str "K")).
  - lia.
  - reflexivity.
  - cbn. lia.
  - intros _. cbn. lia.
Defined.

(** X11: what [bytes2human] refuses.  A number whose integer part is
    negative raises ValueError, before the symbol set is looked up; a name
    that is none of the four symbol sets raises KeyError; a float that is
    infinite or not a number raises OverflowError or ValueError. *)
Theorem bytes2human_refuses (format : pyval -> bytes -> Units.outcome bytes)
    (symbols : bytes) :
  (forall n z,
      int_of_number n = Units.Return z -> z < 0 ->
      bytes2human format n symbols = Units.Throw Units.ValueError)
  /\ (forall n z,
        int_of_number n = Units.Return z -> 0 <= z ->
        ~ In symbols (map fst SYMBOLS) ->
        bytes2human format n symbols = Units.Throw Units.KeyError)
  /\ (forall b,
        F64.is_nan b = true ->
        bytes2human format (NFloat b) symbols = Units.Throw Units.ValueError)
  /\ (forall b,
        F64.is_nan b = false -> F64.is_inf b = true ->
        bytes2human format (NFloat b) symbols = Units.Throw Units.OverflowError).
Proof.
  split; [| split; [| split]].
  - intros n z Hz Hneg. unfold bytes2human. rewrite Hz. cbn [Units.and_then].
    destruct (Z.ltb_spec z 0); [reflexivity | lia].
  - intros n z Hz Hpos Hkey. unfold bytes2human. rewrite Hz. cbn [Units.and_then].
    destruct (Z.ltb_spec z 0); [lia |].
    assert (Hnone : dict_get SYMBOLS symbols = None).
    { cbn [SYMBOLS dict_get]. cbn [map fst SYMBOLS] in Hkey.
      repeat match goal with
             | |- (if bytes_eqb ?k symbols then _ else _) = None =>
                 let E := fresh "E" in
                 destruct (bytes_eqb k symbols) eqn:E;
                 [apply bytes_eqb_eq in E; exfalso; apply Hkey; rewrite <- E;
                  cbn; auto 10 |]
             end.
      reflexivity. }
    rewrite Hnone. reflexivity.
  - intros b Hnan. unfold bytes2human, int_of_number, int_of_float.
    rewrite Hnan. reflexivity.
  - intros b Hnan Hinf. unfold bytes2human, int_of_number, int_of_float.
    rewrite Hnan, Hinf. reflexivity.
Qed.

Lemma bytes2human_refuses_witness :
  bytes2human (apply_format default_format) (NFloat 0xbff8000000000000)
    (str "customary") = Units.Throw Units.ValueError
  /\ bytes2human (apply_format default_format) (NInt 1) (str "foo")
     = Units.Throw Units.KeyError.
Proof.
  destruct (bytes2human_refuses (apply_format default_format) (str "customary"))
    as [Hneg _].
  destruct (bytes2human_refuses (apply_format default_format) (str "foo"))
    as [_ [Hkey _]].
  split.
  - apply (Hneg (NFloat 0xbff8000000000000) (-1)); [reflexivity | lia].
  - apply (Hkey (NInt 1) 1); [reflexivity | lia |].
    cbn. intros H. repeat (destruct H as [H | H]; [discriminate H |]). exact H.
Defined.

(** ** Decimal digits *)

Lemma digit_byte (z : Z) :
  0 <= z ->
  isdigit (byte.of_Z (48 + z mod 10)) = true
  /\ digit_value (byte.of_Z (48 + z mod 10)) = z mod 10.
Proof.
  intros Hz. pose proof (Z.mod_pos_bound z 10 ltac:(lia)) as Hd.
  assert (Hu : byte.unsigned (byte.of_Z (48 + z mod 10)) = 48 + z mod 10).
  { rewrite byte.unsigned_of_Z. unfold byte.wrap. apply Z.mod_small. lia. }
  unfold isdigit, digit_value. rewrite Hu. split; [| lia].
  apply andb_true_intro. split; apply Z.leb_le; lia.
Qed.

Lemma decimal_digits_acc (fuel : nat) (z : Z) (acc : bytes) :
  decimal_digits fuel z acc = decimal_digits fuel z [] ++ acc.
Proof.
  revert z acc. induction fuel as [| fuel IH]; intros z acc; [reflexivity |].
  cbn [decimal_digits]. destruct (z <? 10); [reflexivity |].
  rewrite (IH (z / 10) (_ :: acc)), (IH (z / 10) [_]), <- app_assoc.
  reflexivity.
Qed.

Lemma decimal_digits_value (fuel : nat) (z : Z) :
  0 <= z < 2 ^ Z.of_nat fuel ->
  digits_value 0 (decimal_digits fuel z []) = z
  /\ forallb isdigit (decimal_digits fuel z []) = true.
Proof.
  revert z. induction fuel as [| fuel IH]; intros z Hz.
  - cbn in Hz. assert (z = 0) by lia. subst z. split; reflexivity.
  - destruct (digit_byte z ltac:(lia)) as [Hdig Hval].
    cbn [decimal_digits]. destruct (Z.ltb_spec z 10) as [Hsmall | Hbig].
    + cbn [digits_value forallb]. rewrite Hval, Hdig.
      split; [rewrite Z.mod_small; lia | reflexivity].
    + rewrite decimal_digits_acc.
      assert (Hdiv : 0 <= z / 10 < 2 ^ Z.of_nat fuel).
      { split; [apply Z.div_pos; lia |].
        apply Z.div_lt_upper_bound; [lia |].
        rewrite Nat2Z.inj_succ, Z.pow_succ_r in Hz by lia. lia. }
      destruct (IH (z / 10) Hdiv) as [IHval IHdig].
      rewrite digits_value_app, forallb_app, IHval, IHdig.
      cbn [digits_value forallb]. rewrite Hval, Hdig.
      split; [| reflexivity].
      pose proof (Z.div_mod z 10 ltac:(lia)). lia.
Qed.

(** The digits [decimal] writes read back as the number. *)
Lemma decimal_value (z : Z) :
  0 <= z ->
  digits_value 0 (decimal z) = z /\ forallb isdigit (decimal z) = true.
Proof.
  intros Hz. unfold decimal. apply decimal_digits_value.
  split; [exact Hz |].
  rewrite Nat2Z.inj_succ, Z2Nat.id by apply Z.log2_nonneg.
  destruct (Z.eq_dec z 0) as [-> | Hne]; [cbn; lia |].
  apply Z.log2_spec. lia.
Qed.

(** ** Exact multiples of a unit *)

Lemma of_Z_scaled (m k : Z) :
  0 < m < 2 ^ 53 ->
  0 <= k <= 900 ->
  F64.of_Z (m * 2 ^ k)
  = Some (F64ops.encode (m * 2 ^ (52 - Z.log2 m)) (Z.log2 m - 52 + k)).
Proof.
  intros Hm Hk. destruct (normal_int m Hm) as [Hnorm Hl].
  set (mn := m * 2 ^ (52 - Z.log2 m)) in *.
  assert (Hpos : 0 < m * 2 ^ k) by (apply Z.mul_pos_pos; lia).
  assert (Hlog : Z.log2 (m * 2 ^ k) = Z.log2 m + k)
    by (rewrite Z.log2_mul_pow2 by lia; lia).
  assert (Hb : F64ops.encode mn (Z.log2 m - 52 + k) < 2047 * 2 ^ 52).
  { unfold F64ops.encode.
    assert ((Z.log2 m - 52 + k + 1074) * 2 ^ 52 <= 1974 * 2 ^ 52)
      by (apply Z.mul_le_mono_nonneg_r; lia).
    lia. }
  assert (Hmag : forall q, q = mn ->
            (Z.log2 m + k + 1023) * 2 ^ 52 + (q - 2 ^ 52)
            = F64ops.encode mn (Z.log2 m - 52 + k))
    by (intros q ->; unfold F64ops.encode; lia).
  unfold F64.of_Z.
  destruct (Z.eqb_spec (m * 2 ^ k) 0); [lia |].
  rewrite Z.abs_eq by lia. cbv zeta. rewrite Hlog.
  destruct (Z.ltb_spec (m * 2 ^ k) 0); [lia |].
  destruct (Z.leb_spec (Z.log2 m + k) 52) as [Hle | Hgt].
  - rewrite Hmag.
    + destruct (Z.leb_spec (2047 * 2 ^ 52)
                  (F64ops.encode mn (Z.log2 m - 52 + k))); [lia | reflexivity].
    + rewrite Z.shiftl_mul_pow2 by lia. unfold mn.
      rewrite <- Z.mul_assoc, <- Z.pow_add_r by lia. f_equal. f_equal. lia.
  - assert (E : m * 2 ^ k = mn * 2 ^ (Z.log2 m + k - 52)).
    { unfold mn. rewrite <- Z.mul_assoc, <- Z.pow_add_r by lia.
      f_equal. f_equal. lia. }
    rewrite Z.shiftr_div_pow2, Z.land_ones, Z.shiftl_mul_pow2 by lia.
    rewrite E, Z.div_mul, Z.mod_mul by lia.
    assert (0 < 2 ^ (Z.log2 m + k - 52 - 1)) by lia.
    destruct (Z.ltb_spec (1 * 2 ^ (Z.log2 m + k - 52 - 1)) 0); [lia |].
    destruct (Z.eqb_spec 0 (1 * 2 ^ (Z.log2 m + k - 52 - 1))); [lia |].
    cbn [orb andb]. rewrite Hmag by reflexivity.
    destruct (Z.leb_spec (2047 * 2 ^ 52)
                (F64ops.encode mn (Z.log2 m - 52 + k))); [lia | reflexivity].
Qed.

(** [%.1f] of a whole number below [2 ^ 52]: its digits and [.0]. *)
Lemma fixed_one_int (m : Z) :
  0 < m < 2 ^ 52 ->
  fixed 1 (F64ops.encode_int m) = decimal m ++ str ".0".
Proof.
  intros Hm. destruct (normal_int m ltac:(lia)) as [Hnorm Hl].
  assert (Hl51 : Z.log2 m < 52) by (apply Z.log2_lt_pow2; lia).
  unfold F64ops.encode_int.
  set (mn := m * 2 ^ (52 - Z.log2 m)) in *.
  set (e := Z.log2 m - 52).
  destruct (decode_normal mn e Hnorm ltac:(unfold e; lia)) as [_ [_ Hsign]].
  destruct (decode_normal_parts mn e Hnorm ltac:(unfold e; lia))
    as [Hsig [Hexp [Hnan [Hinf _]]]].
  unfold fixed. rewrite Hnan, Hsign, Hinf, Hsig, Hexp.
  destruct (Z.leb_spec 0 e); [unfold e in *; lia |].
  change (10 ^ Z.of_nat 1) with 10.
  assert (Hr : round_half_even (mn * 10) (2 ^ (- e)) = m * 10).
  { unfold round_half_even.
    assert (E : mn * 10 = m * 10 * 2 ^ (- e)).
    { unfold mn, e. replace (- (Z.log2 m - 52)) with (52 - Z.log2 m) by lia. lia. }
    rewrite E, Z.div_mul, Z.mod_mul by lia.
    assert (0 < 2 ^ (- e)) by (unfold e; lia).
    destruct (Z.ltb_spec (2 ^ (- e)) (2 * 0)); [lia |].
    destruct (Z.eqb_spec (2 * 0) (2 ^ (- e))); [lia |]. reflexivity. }
  rewrite Hr, Z.div_mul, Z.mod_mul by lia.
  reflexivity.
Qed.

(** ** Reading back what bytes2human writes *)

Lemma bytes2human_nonneg (format : pyval -> bytes -> Units.outcome bytes)
    (key : bytes) (syms : list bytes) (n : Z) :
  dict_get SYMBOLS key = Some syms ->
  0 <= n ->
  bytes2human format (NInt n) key
  = pick_symbol format n (fill_prefix 0 (tl syms) []) (rev (tl syms))
      (first <~ Units.or_throw (hd_error syms) Units.IndexError ;;
       format (VInt n) first).
Proof.
  intros Hkey Hn. unfold bytes2human. cbn [int_of_number Units.and_then].
  destruct (Z.ltb_spec n 0); [lia |]. rewrite Hkey. reflexivity.
Qed.

Lemma pick_symbol_small (format : pyval -> bytes -> Units.outcome bytes)
    (syms : list bytes) (n : Z) (otherwise : Units.outcome bytes) :
  In syms symbol_sets ->
  n < 1024 ->
  pick_symbol format n (fill_prefix 0 (tl syms) []) (rev (tl syms)) otherwise
  = otherwise.
Proof.
  intros Hset Hsmall. cbn in Hset.
  repeat (destruct Hset as [<- | Hset]); [.. | contradiction];
    (cbn [tl rev app];
     repeat (erewrite pick_symbol_skip; [| vm_compute; reflexivity | lia]);
     reflexivity).
Qed.

(** [%.1f] of a whole number below [2 ^ 52], given as an integer. *)
Lemma format_whole (m : Z) (sym : bytes) :
  0 <= m < 2 ^ 52 ->
  apply_format default_format (VInt m) sym
  = Units.Return (decimal m ++ str ".0 " ++ sym).
Proof.
  intros Hm. unfold apply_format, float_of_int.
  destruct (Z.eq_dec m 0) as [-> | Hne].
  - cbn [F64.of_Z Z.eqb Units.or_throw Units.and_then default_format
         precision suffix].
    rewrite app_nil_r. reflexivity.
  - rewrite of_Z_small by lia.
    cbn [Units.or_throw Units.and_then default_format precision suffix].
    rewrite fixed_one_int by lia. rewrite app_nil_r, <- app_assoc. reflexivity.
Qed.

(** What [bytes2human] writes for [m] units, with the default format. *)
Lemma bytes2human_multiple (key : bytes) (syms : list bytes) (i : nat)
    (sym : bytes) (m : Z) :
  dict_get SYMBOLS key = Some syms ->
  nth_error syms i = Some sym ->
  0 <= m < 1024 ->
  (i <> 0%nat -> 1 <= m) ->
  bytes2human (apply_format default_format)
    (NInt (m * 2 ^ (10 * Z.of_nat i))) key
  = Units.Return (decimal m ++ str ".0 " ++ sym).
Proof.
  intros Hkey Hnth Hm Hpos.
  pose proof (symbols_of_key key syms Hkey) as Hset.
  destruct (symbol_facts syms i sym Hset Hnth) as [Hi [_ [_ [_ [_ Hfloat]]]]].
  assert (Hp : 0 < 2 ^ (10 * Z.of_nat i)) by (apply Z.pow_pos_nonneg; lia).
  rewrite (bytes2human_nonneg _ key syms) by (try exact Hkey; nia).
  destruct i as [| i].
  - change (2 ^ (10 * Z.of_nat 0)) with 1. rewrite Z.mul_1_r.
    rewrite pick_symbol_small by (try exact Hset; lia).
    destruct syms as [| first syms']; [discriminate Hnth |].
    cbn in Hnth. injection Hnth as ->.
    cbn [hd_error Units.or_throw Units.and_then].
    apply format_whole. lia.
  - specialize (Hpos ltac:(discriminate)).
    destruct (normal_int m ltac:(lia)) as [Hnorm Hl].
    rewrite (pick_symbol_unit _ syms (S i) sym); try assumption; try lia.
    + unfold float_of_int at 1. rewrite of_Z_scaled by lia.
      cbn [Units.or_throw Units.and_then]. rewrite Hfloat.
      cbn [Units.and_then].
      rewrite div_pow2 by lia.
      cbn [Units.or_throw Units.and_then].
      replace (Z.log2 m - 52 + 10 * Z.of_nat (S i) - 10 * Z.of_nat (S i))
        with (Z.log2 m - 52) by lia.
      unfold apply_format.
      cbn [Units.and_then default_format precision suffix].
      fold (F64ops.encode_int m). rewrite fixed_one_int by lia.
      rewrite app_nil_r, <- app_assoc. reflexivity.
    + nia.
    + intros _.
      replace (10 * Z.of_nat (S i + 1)) with (10 * Z.of_nat (S i) + 10) by lia.
      rewrite Z.pow_add_r by lia. change (2 ^ 10) with 1024. nia.
Qed.

(** A number with one decimal [0] and a unit, read by [human2bytes]. *)
Lemma human2bytes_point_zero (items : list (bytes * list bytes))
    (sset : list bytes) (i : nat) (sym : bytes) (m : Z) :
  Permutation.Permutation items SYMBOLS ->
  In sset symbol_sets ->
  nth_error sset i = Some sym ->
  0 <= m < 2 ^ 53 ->
  human2bytes items (VStr (decimal m ++ str ".0 " ++ sym))
  = Units.Return (m * 2 ^ (10 * Z.of_nat i)).
Proof.
  intros Hperm Hset Hnth Hm.
  destruct (symbol_facts sset i sym Hset Hnth)
    as [Hi [Htrim [Hclean [_ [Hfactor Hfloat]]]]].
  destruct (decimal_value m ltac:(lia)) as [Hval Hdig].
  assert (Hne : decimal m <> []).
  { unfold decimal. cbn [decimal_digits].
    destruct (m <? 10); [discriminate |].
    rewrite decimal_digits_acc. intros H. apply app_eq_nil in H.
    destruct H as [_ H]. discriminate H. }
  change (str ".0 " ++ sym) with (str ".0" ++ str " " ++ sym).
  rewrite app_assoc, human2bytes_unfold.
  rewrite (take_number_app (decimal m ++ str ".0") (str " " ++ sym)).
  - cbn [fst snd].
    assert (Hnum : float_of_digits (decimal m ++ str ".0")
                   = Units.Return (F64ops.encode_nat m)).
    { unfold float_of_digits.
      change (str ".0") with (Byte.x2e :: [Byte.x30]).
      rewrite (split_dot_point (decimal m) [Byte.x30] Hdig), Hdig.
      cbn [forallb andb].
      change (isdigit Byte.x30) with true. cbn [andb].
      destruct (decimal m ++ [Byte.x30]) as [| d rest] eqn:E;
        [apply app_eq_nil in E; destruct E as [_ E]; discriminate E |].
      cbn [List.length Nat.eqb negb]. rewrite <- E. f_equal.
      apply round_ratio_nat; [reflexivity | exact Hm |].
      rewrite digits_value_app, Hval. cbn [digits_value List.length].
      change (digit_value Byte.x30) with 0. change (10 ^ Z.of_nat 1) with 10.
      lia. }
    rewrite Hnum. cbn [Units.and_then].
    rewrite (strip_spaces_word (str " ") sym eq_refl Htrim).
    rewrite (factor_of_letter_perm items sym Hperm), Hfactor.
    cbn [Units.and_then]. rewrite Hfloat. cbn [Units.and_then].
    apply int_of_scaled; lia.
  - rewrite forallb_app, (digits_are_numeric _ Hdig). reflexivity.
  - reflexivity.
Qed.

(** X12: [human2bytes] reads back what [bytes2human] writes for a whole
    number of units.  For [m] below 1024 and the symbol at index [i] of a
    symbol set ([m >= 1] unless [i = 0]), [bytes2human] with the default
    format writes [m * 2 ^ (10 i)] as the digits of [m], [.0], a space and
    the symbol; and [human2bytes] returns [m * 2 ^ (10 i)] for that string,
    whatever the order of [SYMBOLS.items()]. *)
Theorem human2bytes_reads_bytes2human (items : list (bytes * list bytes))
    (key : bytes) (syms : list bytes) (i : nat) (sym : bytes) (m : Z) :
  Permutation.Permutation items SYMBOLS ->
  dict_get SYMBOLS key = Some syms ->
  nth_error syms i = Some sym ->
  0 <= m < 1024 ->
  (i <> 0%nat -> 1 <= m) ->
  exists text,
    bytes2human (apply_format default_format)
      (NInt (m * 2 ^ (10 * Z.of_nat i))) key = Units.Return text
    /\ text = decimal m ++ str ".0 " ++ sym
    /\ human2bytes items (VStr text) = Units.Return (m * 2 ^ (10 * Z.of_nat i)).
Proof.
  intros Hperm Hkey Hnth Hm Hpos.
  exists (decimal m ++ str ".0 " ++ sym). split; [| split].
  - apply (bytes2human_multiple key syms i sym m); assumption.
  - reflexivity.
  - apply (human2bytes_point_zero items syms i sym m); try assumption.
    + apply (symbols_of_key key syms Hkey).
    + lia.
Qed.

Lemma human2bytes_reads_bytes2human_witness :
  exists text,
    bytes2human (apply_format default_format)
      (NInt (3 * 2 ^ (10 * Z.of_nat 2))) (str "iec") = Units.Return text
    /\ text = decimal 3 ++ str ".0 " ++ str "Mi"
    /\ human2bytes SYMBOLS (VStr text)
       = Units.Return (3 * 2 ^ (10 * Z.of_nat 2)).
Proof.
  apply (human2bytes_reads_bytes2human SYMBOLS (str "iec")
           (map str ["Bi"; "Ki"; "Mi"; "Gi"; "Ti"; "Pi"; "Ei"; "Zi"; "Yi"]%string)
           2%nat (str "Mi") 3 (Permutation.Permutation_refl SYMBOLS)
           eq_refl eq_refl ltac:(lia) ltac:(lia)).
Defined.

(** ** Integer values in the Values part *)

Lemma decode_negated (b : Z) :
  0 <= b < 2 ^ 63 ->
  F64.sign (b + 2 ^ 63) = true
  /\ F64.biased_exp (b + 2 ^ 63) = F64.biased_exp b
  /\ F64.fraction (b + 2 ^ 63) = F64.fraction b.
Proof.
  intros Hb. split; [| split].
  - unfold F64.sign. apply Z.testbit_true; [lia |].
    replace (b + 2 ^ 63) with (b + 1 * 2 ^ 63) by lia.
    rewrite Z.div_add, Z.div_small by lia. reflexivity.
  - unfold F64.biased_exp. rewrite !Z.shiftr_div_pow2 by lia.
    change 2047 with (Z.ones 11). rewrite !Z.land_ones by lia.
    replace (b + 2 ^ 63) with (b + 2 ^ 11 * 2 ^ 52) by lia.
    rewrite Z.div_add by lia.
    replace (b / 2 ^ 52 + 2 ^ 11) with (b / 2 ^ 52 + 1 * 2 ^ 11) by lia.
    apply Z.mod_add. lia.
  - unfold F64.fraction. rewrite !Z.land_ones by lia.
    replace (b + 2 ^ 63) with (b + 2 ^ 11 * 2 ^ 52) by lia.
    apply Z.mod_add. lia.
Qed.

Lemma of_Z_negative (z : Z) :
  z < 0 ->
  F64.of_Z z = option_map (fun b => b + 2 ^ 63) (F64.of_Z (- z)).
Proof.
  intros Hz. unfold F64.of_Z.
  destruct (Z.eqb_spec z 0); [lia |].
  destruct (Z.eqb_spec (- z) 0); [lia |].
  rewrite Z.abs_opp. cbv zeta.
  match goal with
  | |- (if ?c then _ else _) = _ => destruct c; [reflexivity |]
  end.
  destruct (Z.ltb_spec z 0); [| lia].
  destruct (Z.ltb_spec (- z) 0); [lia |]. reflexivity.
Qed.

(** A whole number below [2 ^ 53] as a float: a whole float that truncates
    to the number. *)
Lemma encode_int_reads_back (n : Z) :
  0 < n < 2 ^ 53 ->
  F64.trunc (F64ops.encode_int n) = n
  /\ F64.is_integral (F64ops.encode_int n) = true
  /\ 0 <= F64ops.encode_int n < 2 ^ 63.
Proof.
  intros Hn. destruct (normal_int n Hn) as [Hm Hl].
  unfold F64ops.encode_int.
  set (m := n * 2 ^ (52 - Z.log2 n)) in *.
  set (e := Z.log2 n - 52).
  assert (He : -52 <= e <= 0) by (unfold e; lia).
  destruct (decode_normal m e Hm ltac:(lia)) as [Hexp [Hfrac _]].
  assert (Em : m = n * 2 ^ (- e))
    by (unfold m, e; f_equal; f_equal; lia).
  split; [| split].
  - rewrite trunc_normal by lia.
    destruct (Z.leb_spec 0 e).
    + assert (e = 0) by lia. rewrite Em.
      replace (- e) with 0 by lia. replace e with 0 by lia.
      change (2 ^ 0) with 1. lia.
    + rewrite Em. apply Z.div_mul. lia.
  - unfold F64.is_integral. rewrite Hexp, Hfrac.
    destruct (Z.eqb_spec (e + 1075) 2047); [lia |].
    destruct (Z.eqb_spec (e + 1075) 0); [lia |].
    destruct (Z.leb_spec 1075 (e + 1075)); [reflexivity |].
    replace (m - 2 ^ 52 + 2 ^ 52) with m by lia.
    rewrite Z.land_ones by lia.
    replace (1075 - (e + 1075)) with (- e) by lia.
    rewrite Em, Z.mod_mul by lia. reflexivity.
  - unfold F64ops.encode.
    assert (0 <= (e + 1074) * 2 ^ 52 <= 1074 * 2 ^ 52) by nia.
    lia.
Qed.

Lemma get_double_int (z : Z) :
  Z.abs z <= 2 ^ 53 ->
  exists d,
    get_double (VInt z) = Ok d
    /\ F64.trunc d = z
    /\ F64.is_integral d = true
    /\ le_combine (le_split 8 d) = d.
Proof.
  intros Hz.
  assert (Hpos : forall n, 0 < n <= 2 ^ 53 ->
            exists d, F64.of_Z n = Some d /\ F64.trunc d = n
                      /\ F64.is_integral d = true /\ 0 <= d < 2 ^ 63).
  { intros n Hn. destruct (Z.eq_dec n (2 ^ 53)) as [-> | Hne].
    - eexists. split; [vm_compute; reflexivity |].
      split; [reflexivity |]. split; [reflexivity |]. vm_compute.
      split; [discriminate | reflexivity].
    - exists (F64ops.encode_int n). split; [apply of_Z_small; lia |].
      apply encode_int_reads_back. lia. }
  assert (Hbytes : forall d, 0 <= d < 2 ^ 64 -> le_combine (le_split 8 d) = d).
  { intros d Hd. rewrite le_combine_split. apply Z.mod_small.
    change (2 ^ (Z.of_nat 8 * 8)) with (2 ^ 64). exact Hd. }
  unfold get_double.
  destruct (Z.lt_trichotomy z 0) as [Hneg | [-> | Hgt]].
  - destruct (Hpos (- z) ltac:(lia)) as [d [Hd [Ht [Hi Hr]]]].
    destruct (decode_negated d Hr) as [Hs [He Hf]].
    exists (d + 2 ^ 63).
    rewrite of_Z_negative, Hd by lia. cbn [option_map].
    split; [reflexivity |]. split; [| split].
    + unfold F64.trunc in *. rewrite Hs, He, Hf.
      destruct (F64.sign d) eqn:Esign.
      * unfold F64.sign in Esign. apply Z.testbit_true in Esign; [| lia].
        rewrite Z.div_small in Esign by lia. discriminate Esign.
      * cbv zeta in Ht. lia.
    + unfold F64.is_integral in *. rewrite He, Hf. exact Hi.
    + apply Hbytes. lia.
  - exists 0. repeat split; reflexivity.
  - destruct (Hpos z ltac:(lia)) as [d [Hd [Ht [Hi Hr]]]].
    exists d. rewrite Hd. repeat split; try assumption.
    apply Hbytes. lia.
Qed.

(** X13: integer values reach the wire unchanged.  When every value of a
    sample is an integer of absolute value at most [2 ^ 53], each has a
    double, that double is a whole number that truncates to the integer,
    and its eight bytes read back as the same double; and every datagram
    that [dispatch] sends for a sample with these values ends with the
    eight bytes of each of these doubles, in order.  The bound is sharp:
    [2 ^ 53 + 1] gets the double of [2 ^ 53]. *)
Theorem integer_values_sent_exactly (zs : list Z) :
  Forall (fun z => Z.abs z <= 2 ^ 53) zs ->
  (exists ds,
      doubles_of (map VInt zs) ds
      /\ map F64.trunc ds = zs
      /\ forallb F64.is_integral ds = true
      /\ map (fun d => le_combine (le_split 8 d)) ds = ds
      /\ (forall self s now msg,
            sample self = Some s ->
            values s = map VInt zs ->
            dispatch self now = Ok msg ->
            exists front,
              msg = front ++ flat_map (le_split 8) ds
              /\ List.length msg
                 = (List.length front + 8 * List.length zs)%nat))
  /\ get_double (VInt (2 ^ 53 + 1)) = get_double (VInt (2 ^ 53)).
Proof.
  intros Hzs. split; [| reflexivity].
  assert (Hds : exists ds,
             doubles_of (map VInt zs) ds
             /\ map F64.trunc ds = zs
             /\ forallb F64.is_integral ds = true
             /\ map (fun d => le_combine (le_split 8 d)) ds = ds).
  { induction Hzs as [| z zs Hz _ IH].
    - exists []. repeat split. constructor.
    - destruct IH as [ds [Hds [Ht [Hi Hb]]]].
      destruct (get_double_int z Hz) as [d [Hd [Htd [Hid Hbd]]]].
      exists (d :: ds). cbn [map forallb]. rewrite Htd, Ht, Hid, Hi, Hbd, Hb.
      repeat split. constructor; assumption. }
  destruct Hds as [ds [Hds [Ht [Hi Hb]]]].
  exists ds. repeat (split; [assumption |]).
  intros self s now msg Hs Hvals Hmsg.
  apply (dispatch_Ok self s now msg Hs) in Hmsg.
  destruct Hmsg as [hdr [ti [ds' [_ [_ [_ [Hds' ->]]]]]]].
  rewrite Hvals in Hds'.
  rewrite (doubles_of_functional _ _ _ Hds' Hds).
  exists (hdr ++ ti ++ be_bytes 2 TYPE_VALUES
            ++ be_bytes 2 (6 + 9 * Z.of_nat (List.length ds))
            ++ be_bytes 2 (Z.of_nat (List.length ds))
            ++ repeat Byte.x01 (List.length ds)).
  assert (Hcat : hdr ++ ti ++ values_layout (repeat Byte.x01 (List.length ds)) ds
                 = (hdr ++ ti ++ be_bytes 2 TYPE_VALUES
                      ++ be_bytes 2 (6 + 9 * Z.of_nat (List.length ds))
                      ++ be_bytes 2 (Z.of_nat (List.length ds))
                      ++ repeat Byte.x01 (List.length ds))
                   ++ flat_map (le_split 8) ds).
  { unfold values_layout. cbv zeta. rewrite <- !app_assoc. reflexivity. }
  split; [exact Hcat |].
  rewrite Hcat, length_app, length_flat_map_le_split.
  assert (Hn : List.length zs = List.length ds)
    by (rewrite <- Ht; apply length_map).
  rewrite Hn. reflexivity.
Qed.

Lemma integer_values_sent_exactly_witness :
  exists ds,
    doubles_of (map VInt [42; -7; 0]) ds
    /\ map F64.trunc ds = [42; -7; 0]
    /\ forallb F64.is_integral ds = true
    /\ map (fun d => le_combine (le_split 8 d)) ds = ds.
Proof.
  destruct (proj1 (integer_values_sent_exactly [42; -7; 0]
                     ltac:(repeat constructor; cbn; lia)))
    as [ds [Hds [Ht [Hi [Hb _]]]]].
  exists ds. repeat (split; [assumption |]). exact Hb.
Defined.

(** ** The state of an instance *)

Lemma run_packets_frame (gethostname : bytes) (calls : list packet_call)
    (self : Collectd) :
  exists self',
    run_packets gethostname self calls = Ok self'
    /\ interval self' = interval self
    /\ _collectd_addr self' = _collectd_addr self.
Proof.
  revert self. induction calls as [| c calls IH]; intros self.
  - exists self. repeat split.
  - cbn [run_packets call_packet packet bind].
    match goal with
    | |- context [run_packets _ ?s calls] => destruct (IH s) as [self' [Hrun [Hi Ha]]]
    end.
    exists self'. split; [exact Hrun |]. split; assumption.
Qed.

(** X14: an instance keeps nothing of earlier samples.  After any run of
    [packet] calls, the address and the interval are those [__init__] set;
    the datagram that [dispatch] then sends, or the exception it raises, is
    that of the last call alone; and before the first call [dispatch] raises
    AttributeError. *)
Theorem last_packet_decides (gethostname : bytes) (self : Collectd)
    (calls : list packet_call) (last : packet_call) :
  (exists after alone,
      run_packets gethostname self (calls ++ [last]) = Ok after
      /\ call_packet gethostname self last = Ok alone
      /\ interval after = interval self
      /\ _collectd_addr after = _collectd_addr self
      /\ forall now, dispatch after now = dispatch alone now)
  /\ (forall collectd_host collectd_port interval now,
        dispatch (Collectd_init collectd_host collectd_port interval) now
        = Raise AttributeError).
Proof.
  split; [| reflexivity].
  assert (Hsplit : forall cs s,
             run_packets gethostname s (cs ++ [last])
             = (s' <- run_packets gethostname s cs ;;
                call_packet gethostname s' last)).
  { induction cs as [| c cs IH]; intros s.
    - reflexivity.
    - cbn [app run_packets call_packet packet bind]. apply IH. }
  destruct (run_packets_frame gethostname calls self) as [mid [Hrun [Hi Ha]]].
  rewrite Hsplit, Hrun. cbn [bind].
  eexists. eexists. split; [reflexivity |]. split; [reflexivity |].
  cbn [call_packet packet interval _collectd_addr].
  split; [exact Hi |]. split; [exact Ha |].
  intros now. unfold dispatch, dispatch_header.
  cbn [sample interval _collectd_addr]. rewrite Hi, Ha. reflexivity.
Qed.
